(* ===== verification/_CoqProject ===== *)
-Q . S2P
Prelude.v
JsNumber.v
Json.v
Constants.v
Points.v
Condense.v
ClusterSpec.v
Refinement.v
CondenseTheorems.v
Machine.v
MachineTheorems.v
Projection.v
Canvas.v
Main.v
Program.v
