(* ===== verification/Prelude.v ===== *)
(** * A verification development of TracingTheCity's map drawing and marker condensation

    The repository (src/drawing-berlin-markets-and-outline-js) draws the
    district outlines of Berlin and its market locations onto an SVG
    canvas.  Market markers that overlap are condensed into one circle per
    group.  It has three source files:

    - [lib/constants.js]: canvas size, the geographic bounding box and the
      two tuning constants [SCAN_RADIUS] (4) and [RADIUS_INCREASE] (2),
      plus the container class [Point];
    - [lib/drawMarketsAndOutline.js]: the projection [calcX]/[calcY], the
      conversions [toPoints]/[fromGeoJsonCoordinatesToPoints], the
      condensation algorithm ([condensePointsByScanRadius],
      [findNextPointsToCondense] and their helpers, which share the
      module-global array [POINTS]), and the drawing routines
      ([drawCustomCircle], [drawPolygon], [drawGroupedCenters]);
    - [index.js]: [main], which reads the data files, draws each district
      outline, condenses the market points, draws one circle per
      condensed center and logs how many circles it drew.

    How the parts interact: [main] projects every raw coordinate with
    [calcX]/[calcY], hands the points to [condensePointsByScanRadius], and
    passes the returned [Map] to [drawGroupedCenters], which issues canvas
    commands in the map's insertion order.  The condenser communicates with
    its helpers only through the global [POINTS].  Two interfaces connect
    the parts: the class [CONSTANTS] (what [require('./constants')]
    provides) and the class [Context2D] (the canvas methods called).

    ** Files, and which part of the code each models

    - [Prelude] (this file): the JavaScript execution model shared by all
      components: an outcome type with thrown exceptions and fuel
      exhaustion, a state monad [js] over an explicit store with its own
      notation scope, the hint databases [condense] and [condense_rw], and
      generic lemmas on lists and [filter].
    - [JsNumber]: JavaScript numbers as IEEE-754 binary64 floats (Rocq's
      primitive [float]); [undefined] read as a number is NaN; the facts
      about [===], [<=], [-], [Math.abs], [Math.sqrt] and NaN that the
      algorithm relies on, and which subtractions, divisions and
      multiplications cannot produce NaN (rounding never does on the
      non-negative mantissas they round), all derived from the Standard
      Library's specification of the primitive operations.
    - [Json]: the JSON numbers and arrays of the GeoJSON outline data,
      indexing, [ToNumber] and [Array.prototype.flat], with the encodings
      of a Polygon and a MultiPolygon.
    - [Constants]: [lib/constants.js] as the class [CONSTANTS] and its
      instance [berlinConstants], each value computed as the file does.
    - [Points]: the [Point] class and the pure helpers of the condenser
      ([getDistance], [equals], [notEquals], [notInList],
      [isPointWithinRadius], [scanForPointsWithinRadius], [isEmpty]) and
      the center computation of [calculateCenter].
    - [Condense]: the store (the global [POINTS] and the object heap that
      gives every [new Point()] its identity), the JavaScript [Map] keyed by
      object identity, and the stateful operations [removePoint],
      [removePoints], [calculateCenter], [findNextPointsToCondense] (its
      [while (keepScanning)] loop is [scanLoop]) and
      [condensePointsByScanRadius] (its [while (keepCondensing)] loop is
      [condenseLoop]).  Loops take fuel; running out of fuel is the
      outcome [Diverge], and the theorems say when it cannot happen and
      when it always happens.
    - [ClusterSpec]: the contract of the condenser (a partition of the
      input, up to the code's coordinate equality, into clusters whose
      center is the mean of their members and whose radius is the scan
      radius at which growth stopped), a pure reference implementation
      [clusters] and its theorems.
    - [Refinement]: the monadic code computes the reference: each run of
      [scanLoop] is a run of [grow], and [condenseLoop] returns the Map of
      [clusters] with fresh object identities, in order.
    - [CondenseTheorems]: claims C1-C13, C30 and C35 on
      [condensePointsByScanRadius].
    - [Machine]: the condenser as a step relation [step] between the
      control points of the code (the heads of its two [while] loops, the
      return of [findNextPointsToCondense], the return of the function,
      an uncaught exception), the states of the design's GROWING/DONE and
      SCANNING/FINISHED machines; the monadic code and the machine have
      the same outcomes, and the machine's invariants are proved by rule
      induction.
    - [MachineTheorems]: claims C22-C27 and C32 on the machine.
    - [Projection]: [calcX], [calcY], [toPoints] and
      [fromGeoJsonCoordinatesToPoints] over the class [CONSTANTS]; claims
      C14-C16, C29 and C31.
    - [Canvas]: [drawCustomCircle], [drawPolygon] and [drawGroupedCenters]
      over the class [Context2D], with the recording instance
      [traceContext]; claims C17-C18.
    - [Main]: [main] of [index.js] from the parsed data on; claims C19-C21,
      C33 and C34 (the composition of projection, condenser and drawing).
    - [Program]: the module's top level ([createCanvas], [outFilePath],
      [main().catch]) as the list of events a run emits (canvas creation,
      log line, file write) and how it exits; claim C28.

    ** What is proved

    - refinement: the condenser's state-passing code equals the pure
      reference [clusters], and the reference meets the contract; the
      code and the step relation have the same outcomes: result, exception
      or non-termination;
    - termination: on input without NaN coordinates, the condenser returns
      with the fuel it is given (length of the input plus two), and more
      fuel changes nothing; every step of the state machine decreases a
      variant of three units per pending point;
    - error paths: the machine reaches its exception state, where
      [calculateCenter] reads [.x] of [undefined], only on an empty array;
      on a non-empty array the condenser runs forever, whatever the fuel,
      exactly when some point has a NaN coordinate; a market record
      without [lon] or [lat] therefore makes [main] hang;
    - functional behaviour: the singleton shortcut, collapsing of
      coordinate-equal seeds, a cluster absorbed by one scan (copies of
      the seed counted once, copies of other points as often as they
      occur), growth measured from the fixed seed, chained growth by a
      second scan, the recorded radius (base radius plus one increment
      per successful scan, none exactly when nothing was absorbed; the
      last scan, at that radius, found nothing), the traces drawn by [drawPolygon]
      and [drawGroupedCenters], the joining of a MultiPolygon's polygons
      into one path by [flat(2)], and the path of NaN vertices it makes of
      a Polygon;
    - invariants: every point removed from [POINTS] is equal to a member
      of the cluster being formed; [POINTS] only shrinks; the result is a
      partition of the input up to coordinate equality; in every
      reachable state of the machine [POINTS] is a subsequence of the
      input and no absorbed point is pending; [undefined] reaches
      [calculateCenter] only on empty input; the number [main] logs is
      the number of circles drawn;
    - safety and liveness: the machine crashes only on empty input; on
      input without NaN every reachable state still leads to [Finished];
      every run on markers that project without NaN writes the SVG;
    - equivalence: removing the points a scan found by coordinate equality
      ([removePoints]) is the same as keeping the points outside the scan
      radius; [toPoints] and [fromGeoJsonCoordinatesToPoints] are maps in
      input order;
    - bounds: a finite longitude or latitude never projects
      to NaN, even where the projection overflows to an infinity, so
      every run on records with finite coordinates terminates and writes
      the SVG; with the constants of [lib/constants.js], every radius
      the condenser records on up to 2^16 markers is exactly the integer
      [4 + 2k], [k] its number of successful scans (the sums checked
      exact by computation: a general proof would need
      a theory of binary64 rounding that the Standard Library lacks).

    ** Bounds and fuel

    The outer loop removes at least the seed on each iteration (when the
    seed has no NaN coordinate), and each successful inner scan removes at
    least one point, so [length points + 2] units of fuel are enough for
    both loops: the inner loop of the k-th cluster gets the outer fuel that
    is left, which is at least the number of pending points plus one.
    The drawing loops are structural and need no fuel.

    ** Not modelled

    File reading and JSON parsing ([readData], [loadGeojson], which are not
    even part of the sources: [main] is modelled from the parsed data on),
    the [canvas] package behind [Context2D] (its SVG output is taken to be
    the recorded commands), and the bytes of the SVG file (the event
    [WriteFile] carries the recorded commands).  A district's
    [coordinates] are any JSON array of numbers and arrays; the other JSON
    values (strings, objects, [null]) never occur in GeoJSON coordinates
    and are not modelled.
    The branch of [main] that reads [maerkte.json] is commented out in the
    source; [fromGeoJsonCoordinatesToPoints] is modelled on its own. *)

From Stdlib Require Import List Bool Arith Lia.
Import ListNotations.

(** ** Outcomes of running JavaScript code *)

(** The exceptions the modelled code can raise. *)
Inductive js_error : Type :=
| TypeError_undefined_property.

(** A run either returns normally, throws, or is still running when its
    fuel is exhausted. *)
Inductive outcome (A : Type) : Type :=
| Normal (a : A)
| Throw (e : js_error)
| Diverge.
Arguments Normal {A} a.
Arguments Throw {A} e.
Arguments Diverge {A}.

(** ** A state monad over an explicit store *)

Definition js (S A : Type) : Type := S -> outcome (A * S).

Section Monad.
Context {S : Type}.

Definition ret {A} (a : A) : js S A := fun s => Normal (a, s).

Definition bind {A B} (c : js S A) (k : A -> js S B) : js S B :=
  fun s => match c s with
           | Normal (a, s') => k a s'
           | Throw e => Throw e
           | Diverge => Diverge
           end.

Definition get : js S S := fun s => Normal (s, s).
Definition put (s : S) : js S unit := fun _ => Normal (tt, s).
Definition modify (f : S -> S) : js S unit := fun s => Normal (tt, f s).
Definition throw {A} (e : js_error) : js S A := fun _ => Throw e.
Definition diverge {A} : js S A := fun _ => Diverge.

Lemma bind_ret_l {A B} (a : A) (k : A -> js S B) s :
  bind (ret a) k s = k a s.
Proof. reflexivity. Qed.

Lemma bind_normal {A B} (c : js S A) (k : A -> js S B) s a s' :
  c s = Normal (a, s') -> bind c k s = k a s'.
Proof. unfold bind. intros ->. reflexivity. Qed.

Lemma bind_throw {A B} (c : js S A) (k : A -> js S B) s e :
  c s = Throw e -> bind c k s = Throw e.
Proof. unfold bind. intros ->. reflexivity. Qed.

Lemma bind_diverge {A B} (c : js S A) (k : A -> js S B) s :
  c s = Diverge -> bind c k s = Diverge.
Proof. unfold bind. intros ->. reflexivity. Qed.
End Monad.

Declare Scope js_scope.
Delimit Scope js_scope with js.
Notation "x <- c ;; k" := (bind c (fun x => k))
  (at level 61, c at next level, right associativity) : js_scope.
Notation "' p <- c ;; k" := (bind c (fun x => match x with p => k end))
  (at level 61, p pattern, c at next level, right associativity) : js_scope.
Notation "c ;;; k" := (bind c (fun _ => k))
  (at level 61, right associativity) : js_scope.

(** Unfolds the monad in a goal about a concrete run. *)
Ltac js_unfold := unfold bind, ret, get, put, modify, throw, diverge in *.

(** ** Generic lemmas on lists *)

Create HintDb condense.
Create Rewrite HintDb condense_rw.

Section ListFacts.
Context {A : Type}.

Lemma filter_length_le (f : A -> bool) (l : list A) :
  length (filter f l) <= length l.
Proof. induction l as [|a l IH]; simpl; [lia|destruct (f a); simpl; lia]. Qed.

(** A filter that drops some element of the list makes it shorter. *)
Lemma filter_length_lt (f : A -> bool) (l : list A) (a : A) :
  In a l -> f a = false -> length (filter f l) < length l.
Proof.
  induction l as [|b l IH]; simpl; [tauto|].
  intros [<-|Hin] Hf.
  - rewrite Hf. pose proof (filter_length_le f l). lia.
  - destruct (f b); simpl; [specialize (IH Hin Hf); lia|].
    pose proof (filter_length_le f l). lia.
Qed.

Lemma filter_all_true (f : A -> bool) (l : list A) :
  forallb f l = true -> filter f l = l.
Proof.
  induction l as [|a l IH]; simpl; [reflexivity|].
  rewrite andb_true_iff. intros [-> H]. now rewrite IH.
Qed.

Lemma filter_none_nil (f : A -> bool) (l : list A) :
  filter f l = [] -> forall a, In a l -> f a = false.
Proof.
  intros H a Hin. destruct (f a) eqn:E; [|reflexivity].
  assert (In a (filter f l)) by (apply filter_In; auto).
  rewrite H in *. contradiction.
Qed.

Lemma filter_all_false (f : A -> bool) (l : list A) :
  (forall a, In a l -> f a = false) -> filter f l = [].
Proof.
  induction l as [|a l IH]; simpl; intros H; [reflexivity|].
  rewrite (H a (or_introl eq_refl)). apply IH. intros b Hb. apply H. now right.
Qed.

Lemma forallb_incl (f : A -> bool) (l1 l2 : list A) :
  incl l1 l2 -> forallb f l2 = true -> forallb f l1 = true.
Proof. rewrite !forallb_forall. intros Hi H a Ha. apply H, Hi, Ha. Qed.

Lemma forallb_false_exists (f : A -> bool) (l : list A) :
  forallb f l = false -> exists a, In a l /\ f a = false.
Proof.
  induction l as [|a l IH]; simpl; [discriminate|].
  destruct (f a) eqn:E; simpl; [|eauto].
  intros H. destruct (IH H) as (b & Hb & Hf). eauto.
Qed.

Lemma length_zero_iff (l : list A) : Nat.eqb (length l) 0 = true <-> l = [].
Proof. destruct l; simpl; split; congruence. Qed.

Lemma forallb_filter (p f : A -> bool) (l : list A) :
  forallb p l = true -> forallb p (filter f l) = true.
Proof.
  rewrite !forallb_forall. intros H x Hx. apply filter_In in Hx. apply H, Hx.
Qed.

Lemma incl_filter_l (f : A -> bool) (l : list A) : incl (filter f l) l.
Proof. intros x Hx. apply filter_In in Hx. apply Hx. Qed.
End ListFacts.

#[export] Hint Resolve filter_length_le incl_filter_l forallb_filter : condense.
#[export] Hint Rewrite @length_zero_iff : condense_rw.

(** ** Transition sequences

    The reflexive-transitive closure of a step relation, as in the
    small-step semantics of Leroy's [Sequences] library, and the fact that
    a deterministic relation has one final state per start state. *)

Section Star.
Context {A : Type} (R : A -> A -> Prop).

Inductive star : A -> A -> Prop :=
| star_refl (a : A) : star a a
| star_step (a b c : A) : R a b -> star b c -> star a c.

Lemma star_one (a b : A) : R a b -> star a b.
Proof. intros H. eapply star_step; [exact H|apply star_refl]. Qed.

Lemma star_trans (a b c : A) : star a b -> star b c -> star a c.
Proof. induction 1; eauto using star_step. Qed.

(** An invariant of the steps holds along every sequence of steps. *)
Lemma star_invariant (P : A -> Prop) (a b : A) :
  (forall x y, P x -> R x y -> P y) -> P a -> star a b -> P b.
Proof. intros Hpres Ha H. induction H; eauto. Qed.

(** A state from which no step is possible. *)
Definition irreducible (a : A) : Prop := forall b, ~ R a b.

Hypothesis R_det : forall a b c, R a b -> R a c -> b = c.

(** Every state on the way to a final state leads to that final state. *)
Lemma star_det_final (a b c : A) : star a b -> irreducible b -> star a c -> star c b.
Proof.
  intros Hab Hb Hac. revert b Hab Hb. induction Hac as [a|a a' c Ha' Hac IH]; intros b Hab Hb.
  - exact Hab.
  - destruct Hab as [a|a a'' b Ha'' Hab].
    + exfalso. exact (Hb _ Ha').
    + apply IH; [|exact Hb]. rewrite (R_det _ _ _ Ha' Ha''). exact Hab.
Qed.

(** A deterministic relation reaches at most one final state. *)
Lemma star_det_unique (a b c : A) :
  star a b -> irreducible b -> star a c -> irreducible c -> b = c.
Proof.
  intros Hab Hb Hac Hc. pose proof (star_det_final _ _ _ Hab Hb Hac) as H.
  destruct H as [c|c c' b Hc' _]; [reflexivity|]. exfalso. exact (Hc _ Hc').
Qed.
End Star.

#[export] Hint Constructors star : condense.
#[export] Hint Resolve star_one star_trans : condense.

(** ** Subsequences *)

Section Subseq.
Context {A : Type}.

(** [l1] is [l2] with some elements deleted, the others kept in order. *)
Inductive subseq : list A -> list A -> Prop :=
| subseq_nil : subseq [] []
| subseq_keep (a : A) (l1 l2 : list A) : subseq l1 l2 -> subseq (a :: l1) (a :: l2)
| subseq_drop (a : A) (l1 l2 : list A) : subseq l1 l2 -> subseq l1 (a :: l2).

Lemma subseq_nil_l (l : list A) : subseq [] l.
Proof. induction l; constructor; assumption. Qed.

Lemma subseq_refl (l : list A) : subseq l l.
Proof. induction l; constructor; assumption. Qed.

Lemma subseq_filter (f : A -> bool) (l : list A) : subseq (filter f l) l.
Proof. induction l as [|a l IH]; simpl; [constructor|destruct (f a); constructor; exact IH]. Qed.

Lemma subseq_trans (l1 l2 l3 : list A) : subseq l1 l2 -> subseq l2 l3 -> subseq l1 l3.
Proof.
  intros H12 H23. revert l1 H12. induction H23 as [|a l2 l3 H IH|a l2 l3 H IH]; intros l1 H12.
  - exact H12.
  - inversion H12; subst; constructor; auto.
  - constructor. auto.
Qed.

Lemma subseq_incl (l1 l2 : list A) : subseq l1 l2 -> incl l1 l2.
Proof.
  induction 1 as [|a l1 l2 H IH|a l1 l2 H IH]; intros x Hx; simpl in *;
    [exact Hx|destruct Hx; auto|auto].
Qed.

Lemma subseq_filter_r (f : A -> bool) (l1 l2 : list A) : subseq l1 l2 -> subseq (filter f l1) l2.
Proof. intros H. exact (subseq_trans _ _ _ (subseq_filter f l1) H). Qed.
End Subseq.

#[export] Hint Resolve subseq_nil_l subseq_refl subseq_filter subseq_filter_r subseq_incl : condense.
