(* ===== verification/JsNumber.v ===== *)
(** * JavaScript numbers

    JavaScript numbers are IEEE-754 binary64 values, which is what Rocq's
    primitive [float] is.  The operators the condenser uses map one to one:
    [a === b] and [a !== b] on numbers are [eqb a b] and its negation (so
    [NaN !== NaN] and [0 === -0]), [a <= b] is [leb a b], and [Math.abs],
    [Math.sqrt], [+], [-], [*], [/] are [abs], [sqrt], [add], [sub], [mul],
    [div].  This file proves, from the Standard Library's specification of
    these operations ([FloatAxioms]), the few facts the condenser's proofs
    need: when [===] is reflexive, that it is symmetric, that equal numbers
    have equal absolute differences, and how NaN propagates. *)

From Stdlib Require Import ZArith Bool Lia.
From Stdlib Require Import Floats.
From S2P Require Import Prelude.
Local Open Scope float_scope.

(** A JavaScript number is a binary64 float. *)
Definition number := float.
Bind Scope float_scope with number.

(** [ToNumber(undefined)]: a missing property or array element read as a
    number is NaN. *)
Definition toNumber (v : option number) : number :=
  match v with Some a => a | None => nan end.

(** [Number.isNaN]: the only float that is not [===] to itself. *)
Definition isNaN (a : number) : bool := negb (a =? a).

Section SpecFacts.

Lemma SFcompare_refl_finite (s : bool) (m : positive) (e : Z) :
  SFcompare (S754_finite s m e) (S754_finite s m e) = Some Eq.
Proof.
  simpl. rewrite Z.compare_refl, Pos.compare_cont_refl.
  destruct s; reflexivity.
Qed.

Lemma Prim2SF_nan : Prim2SF nan = S754_nan.
Proof. vm_compute. reflexivity. Qed.

Lemma SF_nan_is_nan (a : number) : Prim2SF a = S754_nan -> a = nan.
Proof. intros H. apply Prim2SF_inj. now rewrite H, Prim2SF_nan. Qed.

(** Comparing finite floats: [Eq] only for the same sign, mantissa and
    exponent. *)
Lemma SFcompare_finite_eq s1 m1 e1 s2 m2 e2 :
  SFcompare (S754_finite s1 m1 e1) (S754_finite s2 m2 e2) = Some Eq ->
  s1 = s2 /\ m1 = m2 /\ e1 = e2.
Proof.
  simpl. intros H. injection H as H.
  destruct s1, s2; try discriminate;
    destruct (Z.compare_spec e1 e2); try discriminate; subst;
    destruct (Pos.compare_cont Eq m1 m2) eqn:E; try discriminate;
    apply (Pos.compare_eq m1 m2) in E; subst; auto.
Qed.

End SpecFacts.

(** ** [===] on numbers *)

(** [===] is reflexive on every number but NaN. *)
Lemma eqb_self (a : number) : (a =? a) = true \/ a = nan.
Proof.
  rewrite eqb_spec. destruct (Prim2SF a) as [s|s| |s m e] eqn:E.
  - left. destruct s; reflexivity.
  - left. destruct s; reflexivity.
  - right. now apply SF_nan_is_nan.
  - left. unfold SFeqb. now rewrite SFcompare_refl_finite.
Qed.

Lemma isNaN_nan (a : number) : isNaN a = true <-> a = nan.
Proof.
  unfold isNaN. split.
  - intros H. destruct (eqb_self a) as [E|E]; [rewrite E in H; discriminate|exact E].
  - intros ->. reflexivity.
Qed.

Lemma eqb_refl_not_nan (a : number) : isNaN a = false -> (a =? a) = true.
Proof. unfold isNaN. now destruct (a =? a). Qed.

(** Two numbers that are [===] are the same float, or both zeros. *)
Lemma eqb_true_cases (a b : number) :
  (a =? b) = true ->
  Prim2SF a = Prim2SF b \/
  (exists sa sb, Prim2SF a = S754_zero sa /\ Prim2SF b = S754_zero sb).
Proof.
  rewrite eqb_spec. unfold SFeqb.
  destruct (Prim2SF a) as [sa|sa| |sa ma ea], (Prim2SF b) as [sb|sb| |sb mb eb];
    intros H; try discriminate; try (right; eauto; fail);
    try (destruct sa, sb; simpl in H; try discriminate; left; reflexivity).
  destruct (SFcompare (S754_finite sa ma ea) (S754_finite sb mb eb))
    as [[]|] eqn:E; try discriminate.
  destruct (SFcompare_finite_eq _ _ _ _ _ _ E) as (-> & -> & ->). now left.
Qed.

Lemma eqb_sym_true (a b : number) : (a =? b) = true -> (b =? a) = true.
Proof.
  intros H. destruct (eqb_true_cases a b H) as [E|(sa & sb & Ea & Eb)].
  - apply Prim2SF_inj in E. now subst.
  - rewrite eqb_spec, Ea, Eb. destruct sa, sb; reflexivity.
Qed.

(** [===] is symmetric. *)
Lemma eqb_sym (a b : number) : (a =? b) = (b =? a).
Proof.
  destruct (a =? b) eqn:E1, (b =? a) eqn:E2; try reflexivity.
  - now rewrite (eqb_sym_true a b E1) in E2.
  - now rewrite (eqb_sym_true b a E2) in E1.
Qed.

(** [Math.abs(a - c)] only depends on [a] up to [===]: this is what makes
    [removePoints] agree with the radius test. *)
Lemma abs_sub_eqb (a b c : number) :
  (a =? b) = true -> abs (a - c) = abs (b - c).
Proof.
  intros H. apply Prim2SF_inj. rewrite !abs_spec, !sub_spec.
  destruct (eqb_true_cases a b H) as [E|(sa & sb & Ea & Eb)];
    [now rewrite E|].
  rewrite Ea, Eb. unfold SF64sub.
  destruct (Prim2SF c) as [sc|sc| |sc mc ec]; simpl;
    [destruct sa, sb, sc|destruct sa, sb, sc| |destruct sa, sb, sc]; reflexivity.
Qed.

(** The same with the number subtracted from: [Math.abs(c - a)]. *)
Lemma abs_sub_eqb_r (a b c : number) :
  (a =? b) = true -> abs (c - a) = abs (c - b).
Proof.
  intros H. apply Prim2SF_inj. rewrite !abs_spec, !sub_spec.
  destruct (eqb_true_cases a b H) as [E|(sa & sb & Ea & Eb)];
    [now rewrite E|].
  rewrite Ea, Eb. unfold SF64sub.
  destruct (Prim2SF c) as [sc|sc| |sc mc ec]; simpl;
    [destruct sa, sb, sc|destruct sa, sb, sc| |]; reflexivity.
Qed.

(** ** NaN propagation *)

Lemma sub_nan_r (a : number) : a - nan = nan.
Proof.
  apply Prim2SF_inj. rewrite sub_spec, Prim2SF_nan. unfold SF64sub.
  destruct (Prim2SF a); reflexivity.
Qed.

Lemma sub_nan_l (a : number) : nan - a = nan.
Proof.
  apply Prim2SF_inj. rewrite sub_spec, Prim2SF_nan. reflexivity.
Qed.

Lemma abs_nan : abs nan = nan.
Proof. vm_compute. reflexivity. Qed.

Lemma mul_nan_nan : nan * nan = nan.
Proof. vm_compute. reflexivity. Qed.

Lemma add_nan_l (a : number) : nan + a = nan.
Proof. apply Prim2SF_inj. rewrite add_spec, Prim2SF_nan. reflexivity. Qed.

Lemma add_nan_r (a : number) : a + nan = nan.
Proof.
  apply Prim2SF_inj. rewrite add_spec, Prim2SF_nan. unfold SF64add.
  destruct (Prim2SF a); reflexivity.
Qed.

Lemma sqrt_nan : sqrt nan = nan.
Proof. vm_compute. reflexivity. Qed.

Lemma div_nan_l (a : number) : nan / a = nan.
Proof. apply Prim2SF_inj. rewrite div_spec, Prim2SF_nan. reflexivity. Qed.

Lemma mul_nan_r (a : number) : a * nan = nan.
Proof.
  apply Prim2SF_inj. rewrite mul_spec, Prim2SF_nan. unfold SF64mul.
  destruct (Prim2SF a); reflexivity.
Qed.

(** [NaN <= r] is false for every [r]. *)
Lemma leb_nan_l (r : number) : (nan <=? r) = false.
Proof. rewrite leb_spec, Prim2SF_nan. reflexivity. Qed.

(** [NaN === a] is false for every [a]. *)
Lemma eqb_nan_l (a : number) : (nan =? a) = false.
Proof. rewrite eqb_spec, Prim2SF_nan. reflexivity. Qed.

#[export] Hint Rewrite sub_nan_r sub_nan_l abs_nan mul_nan_nan add_nan_l add_nan_r
  sqrt_nan leb_nan_l eqb_nan_l div_nan_l mul_nan_r : condense_rw.

(** ** Arithmetic that cannot produce NaN

    Rounding ([binary_round_aux]) yields NaN only for a negative
    mantissa, and the operations only round non-negative ones; so a
    subtraction from a finite number, a division by a finite non-zero
    number and a multiplication by one never produce NaN from a non-NaN
    operand, even when they overflow to an infinity. *)

(** [Number.isFinite]. *)
Definition isFinite (a : number) : bool :=
  match Prim2SF a with S754_zero _ | S754_finite _ _ _ => true | _ => false end.

(** A finite number other than zero. *)
Definition isFiniteNonZero (a : number) : bool :=
  match Prim2SF a with S754_finite _ _ _ => true | _ => false end.

Section Rounding.
Variables prec emax : Z.
Local Open Scope Z_scope.

Lemma shr_1_nonneg (mrs : shr_record) : 0 <= shr_m mrs -> 0 <= shr_m (shr_1 mrs).
Proof. destruct mrs as [m r s]; destruct m as [|[p|p|]|p]; simpl; lia. Qed.

Lemma iter_shr_1_nonneg (p : positive) (mrs : shr_record) :
  0 <= shr_m mrs -> 0 <= shr_m (iter_pos shr_1 p mrs).
Proof. revert mrs. induction p; intros mrs H; simpl; auto using shr_1_nonneg. Qed.

Lemma shr_fexp_nonneg (m e : Z) (l : location) :
  0 <= m -> 0 <= shr_m (fst (shr_fexp prec emax m e l)).
Proof.
  intros H. unfold shr_fexp, shr.
  assert (Hr : 0 <= shr_m (shr_record_of_loc m l)) by (destruct l as [|[]]; exact H).
  destruct (_ - e); simpl; auto using iter_shr_1_nonneg.
Qed.

Lemma round_nearest_even_nonneg (mx : Z) (lx : location) : 0 <= mx -> 0 <= round_nearest_even mx lx.
Proof. destruct lx as [|[]]; simpl; try destruct (Z.even mx); lia. Qed.

Lemma binary_round_aux_not_nan (sx : bool) (mx ex : Z) (lx : location) :
  0 <= mx -> binary_round_aux prec emax sx mx ex lx <> S754_nan.
Proof.
  intros H. unfold binary_round_aux.
  pose proof (shr_fexp_nonneg mx ex lx H) as H1.
  destruct (shr_fexp prec emax mx ex lx) as [mrs' e'].
  pose proof (shr_fexp_nonneg (round_nearest_even (shr_m mrs') (loc_of_shr_record mrs')) e' loc_Exact
                (round_nearest_even_nonneg _ _ H1)) as H2.
  destruct (shr_fexp _ _ _ _ _) as [mrs'' e'']. simpl in H2.
  destruct (shr_m mrs''); [discriminate|destruct (e'' <=? emax - prec); discriminate|lia].
Qed.

Lemma binary_normalize_not_nan (m e : Z) (b : bool) : binary_normalize prec emax m e b <> S754_nan.
Proof.
  destruct m as [|m|m]; [discriminate| |]; unfold binary_normalize, binary_round;
    match goal with |- context [shl_align ?a ?b ?c] => destruct (shl_align a b c) end;
    apply binary_round_aux_not_nan; lia.
Qed.

Lemma SFdiv_core_nonneg (m1 m2 : positive) (e1 e2 : Z) :
  0 <= fst (fst (SFdiv_core_binary prec emax (Zpos m1) e1 (Zpos m2) e2)).
Proof.
  unfold SFdiv_core_binary. cbv zeta.
  match goal with |- context [Z.div_eucl ?a ?b] =>
    assert (Ha : 0 <= a) by (destruct (_ - _ - _); [lia|apply Z.shiftl_nonneg; lia|lia]);
    pose proof (Z.div_pos a b Ha ltac:(lia)) as Hq; unfold Z.div in Hq;
    destruct (Z.div_eucl a b)
  end.
  exact Hq.
Qed.

(** A finite number minus a non-NaN one. *)
Lemma SFsub_not_nan (x y : spec_float) :
  match x with S754_zero _ | S754_finite _ _ _ => True | _ => False end ->
  y <> S754_nan -> SFsub prec emax x y <> S754_nan.
Proof.
  intros Hx Hy. destruct x as [sx|sx| |sx mx ex]; try contradiction;
    destruct y as [sy|sy| |sy my ey]; try congruence; simpl;
    try (destruct sx, sy; discriminate); apply binary_normalize_not_nan.
Qed.

(** A non-NaN number divided by a finite non-zero one. *)
Lemma SFdiv_not_nan (x : spec_float) (sy : bool) (my : positive) (ey : Z) :
  x <> S754_nan -> SFdiv prec emax x (S754_finite sy my ey) <> S754_nan.
Proof.
  intros Hx. destruct x as [sx|sx| |sx mx ex]; try congruence; simpl; try discriminate.
  pose proof (SFdiv_core_nonneg mx my ex ey) as H.
  destruct (SFdiv_core_binary _ _ _ _ _ _) as [[mz ez] lz]. now apply binary_round_aux_not_nan.
Qed.

(** A finite non-zero number times a non-NaN one. *)
Lemma SFmul_not_nan (sx : bool) (mx : positive) (ex : Z) (y : spec_float) :
  y <> S754_nan -> SFmul prec emax (S754_finite sx mx ex) y <> S754_nan.
Proof.
  intros Hy. destruct y as [sy|sy| |sy my ey]; try congruence; simpl; try discriminate.
  apply binary_round_aux_not_nan. lia.
Qed.
End Rounding.

Lemma isFinite_not_nan (a : number) : isFinite a = true -> Prim2SF a <> S754_nan.
Proof. unfold isFinite. destruct (Prim2SF a); congruence. Qed.

Lemma isNaN_false_SF (a : number) : Prim2SF a <> S754_nan -> isNaN a = false.
Proof.
  intros H. destruct (isNaN a) eqn:E; [|reflexivity].
  apply isNaN_nan in E. subst. now rewrite Prim2SF_nan in H.
Qed.

Lemma sub_not_nan (a b : number) :
  isFinite a = true -> Prim2SF b <> S754_nan -> Prim2SF (a - b) <> S754_nan.
Proof.
  intros Ha Hb. rewrite sub_spec. apply SFsub_not_nan; [|exact Hb].
  unfold isFinite in Ha. destruct (Prim2SF a); easy.
Qed.

Lemma div_not_nan (a b : number) :
  Prim2SF a <> S754_nan -> isFiniteNonZero b = true -> Prim2SF (a / b) <> S754_nan.
Proof.
  intros Ha Hb. rewrite div_spec. unfold isFiniteNonZero in Hb.
  destruct (Prim2SF b); try discriminate. now apply SFdiv_not_nan.
Qed.

Lemma mul_not_nan (a b : number) :
  isFiniteNonZero a = true -> Prim2SF b <> S754_nan -> Prim2SF (a * b) <> S754_nan.
Proof.
  intros Ha Hb. rewrite mul_spec. unfold isFiniteNonZero in Ha.
  destruct (Prim2SF a); try discriminate. now apply SFmul_not_nan.
Qed.
