(* ===== verification/Json.v ===== *)
(** * JSON arrays as the drawing code reads them

    The outline data of [index.js] arrive as parsed GeoJSON:
    [bezirk.geometry.coordinates] is an array nested to a depth that
    depends on the geometry type (three levels of arrays above the numbers
    for a Polygon, four for a MultiPolygon).  [main] flattens it with
    [Array.prototype.flat(2)] and [drawPolygon] reads [coords[i][0]] and
    [coords[i][1]] of each element, passing them to arithmetic.  This file
    models those values ([jsval], numbers and arrays, the only JSON values
    GeoJSON coordinates hold), indexing ([jsIndex]: [undefined] past the
    end or on a number), the conversion [ToNumber] that arithmetic applies
    ([jsToNumber]: an array is converted through its string, so [[]] is 0,
    [[x]] is [x] and longer arrays are NaN), and [flat] as ECMAScript's
    [FlattenIntoArray] defines it.  The lemmas compute [flat(2)] on the
    encodings of a Polygon and of a MultiPolygon. *)

From Stdlib Require Import List Bool Arith Lia.
From Stdlib Require Import Floats.
From S2P Require Import Prelude JsNumber.
Import ListNotations.

#[local] Set Warnings "-register-all".

(** A JSON number or array. *)
Inductive jsval : Type :=
| JNum (n : number)
| JArr (items : list jsval).

(** [v[i]]: an element of an array, [undefined] past its end or on a
    number. *)
Definition jsIndex (v : jsval) (i : nat) : option jsval :=
  match v with
  | JArr items => nth_error items i
  | JNum _ => None
  end.

(** [ToNumber] of a JSON value: an array goes through [ToString], which
    joins the elements with commas; so an empty array gives [""], that is
    0, one element gives the string of that element (a number prints as a
    string that reads back as itself, except that [-0] prints as ["0"]),
    and two or more give a string with a comma, that is NaN. *)
Fixpoint jsToNumber (v : jsval) : number :=
  match v with
  | JNum n => n
  | JArr [] => 0%float
  | JArr [w] =>
      match w with
      | JNum n => if (n =? 0)%float then 0%float else n
      | JArr _ => jsToNumber w
      end
  | JArr _ => nan
  end.

(** [ToNumber] of a value that may be [undefined]. *)
Definition toNumberVal (v : option jsval) : number :=
  match v with
  | Some w => jsToNumber w
  | None => nan
  end.

(** [arr.flat(depth)]: every element that is an array is replaced by its
    own elements, flattened to one level less, while levels remain. *)
Fixpoint flat (depth : nat) (arr : list jsval) : list jsval :=
  match depth with
  | O => arr
  | S d => flat_map (fun v => match v with JArr items => flat d items | JNum _ => [v] end) arr
  end.

(** ** GeoJSON encodings *)

(** A position [[lon, lat]] (or more numbers). *)
Definition position (p : list number) : jsval := JArr (map JNum p).

(** The [coordinates] of a Polygon: rings of positions. *)
Definition polygon (rings : list (list (list number))) : list jsval :=
  map JArr (map (map position) rings).

(** The [coordinates] of a MultiPolygon: polygons of rings of positions. *)
Definition multiPolygon (mp : list (list (list (list number)))) : list jsval :=
  map JArr (map polygon mp).

(** ** Lemmas *)

Lemma flat_map_map {A B C : Type} (f : B -> list C) (g : A -> B) (l : list A) :
  flat_map f (map g l) = flat_map (fun a => f (g a)) l.
Proof. induction l as [|a l IH]; simpl; [reflexivity|now rewrite IH]. Qed.

Lemma flat_map_concat_map {A B : Type} (f : A -> list B) (l : list A) :
  flat_map f l = concat (map f l).
Proof. induction l as [|a l IH]; simpl; [reflexivity|now rewrite IH]. Qed.

Lemma concat_concat {A : Type} (l : list (list (list A))) : concat (concat l) = concat (map (@concat A) l).
Proof. induction l as [|a l IH]; simpl; [reflexivity|now rewrite concat_app, IH]. Qed.

(** Flattening an array of arrays flattens each and joins them. *)
Lemma flat_S_arrays (d : nat) (ls : list (list jsval)) :
  flat (S d) (map JArr ls) = concat (map (flat d) ls).
Proof. cbn [flat]. now rewrite flat_map_map, flat_map_concat_map. Qed.

(** One level of flattening of arrays of numbers gives the numbers. *)
Lemma flat1_positions (ps : list (list number)) :
  flat 1 (map position ps) = map JNum (concat ps).
Proof.
  unfold position. rewrite <- (map_map (map JNum) JArr), flat_S_arrays, concat_map.
  now rewrite map_map.
Qed.

(** [flat(2)] of a Polygon's coordinates: all the numbers of all its
    positions, the positions themselves dissolved. *)
Lemma flat2_polygon (rings : list (list (list number))) :
  flat 2 (polygon rings) = map JNum (concat (concat rings)).
Proof.
  unfold polygon. rewrite flat_S_arrays, map_map, concat_concat, concat_map, map_map.
  f_equal. apply map_ext. intros ring. apply flat1_positions.
Qed.

(** [flat(2)] of a MultiPolygon's coordinates: the positions of all its
    rings, one after the other. *)
Lemma flat2_multiPolygon (mp : list (list (list (list number)))) :
  flat 2 (multiPolygon mp) = map position (concat (concat mp)).
Proof.
  unfold multiPolygon. rewrite flat_S_arrays, map_map, concat_concat, concat_map, map_map.
  f_equal. apply map_ext. intros poly. unfold polygon.
  rewrite flat_S_arrays, map_map, concat_map. reflexivity.
Qed.

(** Reading a coordinate of a position. *)
Lemma jsIndex_position (p : list number) (i : nat) :
  toNumberVal (jsIndex (position p) i) = toNumber (nth_error p i).
Proof.
  unfold position. cbn [jsIndex]. rewrite nth_error_map.
  destruct (nth_error p i); reflexivity.
Qed.
