(* ===== verification/Constants.v ===== *)
(** * [lib/constants.js]

    The module's exports as an interface (the class [CONSTANTS]): what
    [lib/drawMarketsAndOutline.js] and [index.js] obtain from
    [require('./constants')].  The instance [berlinConstants] implements
    it with the values of the file ([Module Berlin]), each computed as the
    file computes it (in binary64 arithmetic), so the witnesses of the
    other files evaluate with the program's own parameters. *)

From Stdlib Require Import Floats.
From S2P Require Import Prelude JsNumber.
Local Open Scope float_scope.

(** What the other modules use of [lib/constants.js]. *)
Class CONSTANTS : Type := {
  width : number; height : number; canvasWidth : number; canvasHeight : number;
  RADIUS_INCREASE : number; SCAN_RADIUS : number;
  left : number; top : number; right : number; bottom : number;
  expansionHorizontal : number; expansionVertical : number
}.

(** The literals of [lib/constants.js], parsed to the nearest binary64 as
    JavaScript parses them. *)
#[local] Set Warnings "-inexact-float".
Module Berlin.
Definition berlinRatio : number := 1050 / 1280.
Definition width : number := 700.
Definition height : number := width * berlinRatio.
Definition RADIUS_INCREASE : number := 2.
Definition SCAN_RADIUS : number := 4.
Definition canvasWidth : number := width + 10.
Definition canvasHeight : number := height + 10.
Definition WESTLON : number := 12.9638671875.
Definition NORTHLAT : number := 52.70468296296834.
Definition SOUTHLAT : number := 52.338695481504814.
Definition EASTLON : number := 13.8153076171875.
Definition expansionHorizontal : number := EASTLON - WESTLON.
Definition expansionVertical : number := NORTHLAT - SOUTHLAT.
End Berlin.

(** [module.exports] of [lib/constants.js]: the bounds are exported as
    [left], [top], [right] and [bottom]. *)
#[export] Instance berlinConstants : CONSTANTS := {
  width := Berlin.width; height := Berlin.height;
  canvasWidth := Berlin.canvasWidth; canvasHeight := Berlin.canvasHeight;
  RADIUS_INCREASE := Berlin.RADIUS_INCREASE; SCAN_RADIUS := Berlin.SCAN_RADIUS;
  left := Berlin.WESTLON; top := Berlin.NORTHLAT;
  right := Berlin.EASTLON; bottom := Berlin.SOUTHLAT;
  expansionHorizontal := Berlin.expansionHorizontal;
  expansionVertical := Berlin.expansionVertical
}.
