(* ===== verification/Points.v ===== *)
(** * Points and the pure helpers of the condenser

    The class [Point] of [lib/constants.js] and the side-effect-free
    functions of [lib/drawMarketsAndOutline.js] that the condenser calls:
    [getDistance], [isPointWithinRadius], [scanForPointsWithinRadius],
    [notEquals], [equals], [notInList], [isEmpty], and the arithmetic of
    [calculateCenter] (the allocation and the exception of [calculateCenter]
    are in [Condense]).  The lemmas relate coordinate equality to the radius
    test: a point with a NaN coordinate is never within any radius, and
    coordinate-equal points are within the same radii. *)

From Stdlib Require Import List Bool Arith Lia ZArith.
From Stdlib Require Import Floats.
From S2P Require Import Prelude JsNumber.
Import ListNotations.

(** [class Point { x; y; }]: the code creates a [Point] and assigns both
    coordinates before any other use, so a point is a pair of numbers. *)
Record Point : Type := mkPoint { x : number; y : number }.

(** [function getDistance(point1, point2)]. *)
Definition getDistance (point1 point2 : Point) : number :=
  let xd := abs (x point2 - x point1)%float in
  let yd := abs (y point2 - y point1)%float in
  sqrt (xd * xd + yd * yd)%float.

(** [function isPointWithinRadius(point, center, radius)]. *)
Definition isPointWithinRadius (point center : Point) (radius : number) : bool :=
  (getDistance point center <=? radius)%float.

(** [function scanForPointsWithinRadius(points, scanCenter, radius)]. *)
Definition scanForPointsWithinRadius (points : list Point) (scanCenter : Point)
  (radius : number) : list Point :=
  filter (fun p => isPointWithinRadius p scanCenter radius) points.

(** [function notEquals(point1, point2)]: [!==] on both coordinates. *)
Definition notEquals (point1 point2 : Point) : bool :=
  negb (x point1 =? x point2)%float || negb (y point1 =? y point2)%float.

(** [function equals(point1, point2)]: [===] on both coordinates. *)
Definition equals (point1 point2 : Point) : bool :=
  (x point1 =? x point2)%float && (y point1 =? y point2)%float.

(** [function notInList(points, point)]: no element of [points] equals
    [point] ([list.length === 0] after filtering). *)
Definition notInList (points : list Point) (point : Point) : bool :=
  Nat.eqb (length (filter (fun p => equals point p) points)) 0.

(** [function isEmpty(points)]: [!points || points.length === 0]; the
    array passed is never [undefined] here, so only the length test
    remains. *)
Definition isEmpty (points : list Point) : bool := Nat.eqb (length points) 0.

(** [points.length] as a JavaScript number. *)
Definition js_length (n : nat) : number := of_uint63 (Uint63.of_Z (Z.of_nat n)).

(** The summation loop of [calculateCenter] over defined points:
    [xSum += point.x; ySum += point.y]. *)
Fixpoint sumCoords (points : list Point) (xSum ySum : number) : number * number :=
  match points with
  | [] => (xSum, ySum)
  | point :: rest => sumCoords rest (xSum + x point)%float (ySum + y point)%float
  end.

(** The coordinates [calculateCenter] gives the new center: the sums
    divided by [points.length]. *)
Definition centerOf (points : list Point) : Point :=
  let '(xSum, ySum) := sumCoords points 0%float 0%float in
  mkPoint (xSum / js_length (length points))%float (ySum / js_length (length points))%float.

(** A point without NaN coordinates: the points [===] to themselves. *)
Definition noNaN (p : Point) : bool := negb (isNaN (x p)) && negb (isNaN (y p)).

Arguments isEmpty : simpl never.

Lemma isEmpty_nil (points : list Point) : isEmpty points = true <-> points = [].
Proof. apply length_zero_iff. Qed.

Lemma isEmpty_In (points : list Point) (p : Point) : In p points -> isEmpty points = false.
Proof. intros H. destruct (isEmpty points) eqn:E; [apply isEmpty_nil in E; subst; contradiction|auto]. Qed.

(** ** Equality *)

Lemma notEquals_equals (p q : Point) : notEquals p q = negb (equals p q).
Proof. unfold notEquals, equals. now rewrite negb_andb. Qed.

Lemma equals_refl (p : Point) : noNaN p = true -> equals p p = true.
Proof.
  unfold noNaN, equals. rewrite andb_true_iff, !negb_true_iff. intros [Hx Hy].
  now rewrite (eqb_refl_not_nan _ Hx), (eqb_refl_not_nan _ Hy).
Qed.

Lemma equals_sym (p q : Point) : equals p q = equals q p.
Proof. unfold equals. now rewrite (eqb_sym (x p)), (eqb_sym (y p)). Qed.

(** A point [===]-equal to itself has no NaN coordinate. *)
Lemma equals_self_noNaN (p : Point) : equals p p = true -> noNaN p = true.
Proof.
  unfold equals, noNaN, isNaN. rewrite !andb_true_iff. intros [-> ->]. auto.
Qed.

Lemma notInList_spec (points : list Point) (point : Point) :
  notInList points point = true <-> (forall q, In q points -> equals point q = false).
Proof.
  unfold notInList. rewrite length_zero_iff. split.
  - apply filter_none_nil.
  - intros H. destruct (filter (fun p => equals point p) points) as [|q l] eqn:E;
      [reflexivity|].
    assert (Hq : In q (filter (fun p => equals point p) points)) by (rewrite E; left; auto).
    apply filter_In in Hq. destruct Hq as [Hin Heq]. now rewrite H in Heq.
Qed.

(** A point with a NaN coordinate equals no point. *)
Lemma equals_nan_l (p q : Point) : noNaN p = false -> equals p q = false.
Proof.
  unfold noNaN, equals. rewrite andb_false_iff, !negb_false_iff, !isNaN_nan.
  intros [E|E]; rewrite E; autorewrite with condense_rw; [reflexivity|apply andb_false_r].
Qed.

(** ** The radius test *)

(** Coordinate-equal points are at the same distance from any center. *)
Lemma getDistance_equals (p q c : Point) :
  equals p q = true -> getDistance p c = getDistance q c.
Proof.
  unfold equals, getDistance. rewrite andb_true_iff. intros [Hx Hy].
  now rewrite (abs_sub_eqb_r _ _ (x c) Hx), (abs_sub_eqb_r _ _ (y c) Hy).
Qed.

Lemma within_equals (p q c : Point) (r : number) :
  equals p q = true -> isPointWithinRadius p c r = isPointWithinRadius q c r.
Proof. intros H. unfold isPointWithinRadius. now rewrite (getDistance_equals p q c H). Qed.

(** The distance from or to a point with a NaN coordinate is NaN. *)
Lemma getDistance_nan_r (p c : Point) :
  noNaN c = false -> getDistance p c = nan.
Proof.
  unfold noNaN, getDistance. rewrite andb_false_iff, !negb_false_iff, !isNaN_nan.
  intros [-> | ->]; autorewrite with condense_rw; reflexivity.
Qed.

Lemma getDistance_nan_l (p c : Point) :
  noNaN p = false -> getDistance p c = nan.
Proof.
  unfold noNaN, getDistance. rewrite andb_false_iff, !negb_false_iff, !isNaN_nan.
  intros [-> | ->]; autorewrite with condense_rw; reflexivity.
Qed.

(** Nothing is within any radius of a center with a NaN coordinate. *)
Lemma within_nan_center (p c : Point) (r : number) :
  noNaN c = false -> isPointWithinRadius p c r = false.
Proof.
  intros H. unfold isPointWithinRadius. rewrite (getDistance_nan_r p c H).
  apply leb_nan_l.
Qed.

(** A point within some radius of a center has no NaN coordinate. *)
Lemma within_noNaN (p c : Point) (r : number) :
  isPointWithinRadius p c r = true -> noNaN p = true.
Proof.
  unfold isPointWithinRadius. destruct (noNaN p) eqn:E; [reflexivity|].
  rewrite (getDistance_nan_l p c E), leb_nan_l. discriminate.
Qed.

(** Removing, by coordinate equality, the points a scan found keeps
    exactly the points outside the scan radius. *)
Lemma filter_notInList_scan (P : list Point) (c : Point) (r : number) :
  filter (notInList (scanForPointsWithinRadius P c r)) P =
  filter (fun p => negb (isPointWithinRadius p c r)) P.
Proof.
  apply filter_ext_in. intros p Hp.
  destruct (isPointWithinRadius p c r) eqn:W; simpl.
  - apply not_true_iff_false. rewrite notInList_spec. intros H.
    assert (Hin : In p (scanForPointsWithinRadius P c r)) by (apply filter_In; auto).
    pose proof (equals_refl p (within_noNaN p c r W)). rewrite (H p Hin) in *. discriminate.
  - apply notInList_spec. intros q Hq. apply filter_In in Hq. destruct Hq as [_ Wq].
    destruct (equals p q) eqn:E; [|reflexivity].
    rewrite (within_equals p q c r E) in W. congruence.
Qed.

#[export] Hint Resolve equals_refl within_noNaN : condense.
