(* ===== verification/Condense.v ===== *)
(** * The condenser: [condensePointsByScanRadius] and its stateful helpers

    The module-global [var POINTS] of [lib/drawMarketsAndOutline.js] and the
    object heap are the store; every helper that assigns [POINTS] is a
    computation of the [js] monad over it.  [new Point()] in
    [calculateCenter] allocates an object whose identity is the next heap
    address; the [Map] returned by [condensePointsByScanRadius] is keyed by
    these objects, so it is an insertion-ordered association list keyed by
    object identity.  The two [while] loops take fuel.  The constants
    [SCAN_RADIUS] and [RADIUS_INCREASE] of [lib/constants.js] are the
    section variables, so every theorem holds for any values of them. *)

From Stdlib Require Import List Bool Arith Lia.
From Stdlib Require Import Floats.
From S2P Require Import Prelude JsNumber Points.
Import ListNotations.
Local Open Scope js_scope.

(** ** The store *)

(** The global [POINTS] and the next free object address. *)
Record store : Type := mkStore { POINTS : list Point; heap : nat }.

Abbreviation M := (js store).

(** A [Point] object: its identity and its coordinates. *)
Record PointObj : Type := mkObj { oid : nat; pt : Point }.

(** A JavaScript [Map] keyed by objects, in insertion order. *)
Definition JSMap : Type := list (PointObj * number).

(** [map.set(key, value)]: overwrite the entry of the same object, or
    append a new entry. *)
Definition Map_set (m : JSMap) (key : PointObj) (value : number) : JSMap :=
  if existsb (fun e => Nat.eqb (oid (fst e)) (oid key)) m
  then map (fun e => if Nat.eqb (oid (fst e)) (oid key) then (fst e, value) else e) m
  else m ++ [(key, value)].

(** [map.size]. *)
Definition Map_size (m : JSMap) : nat := length m.

Definition getPOINTS : M (list Point) := s <- get ;; ret (POINTS s).
Definition setPOINTS (points : list Point) : M unit :=
  s <- get ;; put (mkStore points (heap s)).

(** [new Point()] followed by the assignments of [x] and [y]. *)
Definition newPoint (px py : number) : M PointObj :=
  s <- get ;;
  put (mkStore (POINTS s) (S (heap s))) ;;;
  ret (mkObj (heap s) (mkPoint px py)).

(** [function removePoint(point)]. *)
Definition removePoint (point : Point) : M unit :=
  pts <- getPOINTS ;; setPOINTS (filter (fun p => notEquals p point) pts).

(** [function removePoints(points)]. *)
Definition removePoints (points : list Point) : M unit :=
  pts <- getPOINTS ;; setPOINTS (filter (fun p => notInList points p) pts).

(** The [for (let point of points)] loop of [calculateCenter]: reading
    [.x] of [undefined] ([None]) throws a TypeError. *)
Fixpoint sumLoop (points : list (option Point)) (xSum ySum : number) : M (number * number) :=
  match points with
  | [] => ret (xSum, ySum)
  | None :: _ => throw TypeError_undefined_property
  | Some point :: rest => sumLoop rest (xSum + x point)%float (ySum + y point)%float
  end.

(** [function calculateCenter(points)]. *)
Definition calculateCenter (points : list (option Point)) : M PointObj :=
  '(xSum, ySum) <- sumLoop points 0%float 0%float ;;
  newPoint (xSum / js_length (length points))%float (ySum / js_length (length points))%float.

(** The object returned by [findNextPointsToCondense]. *)
Record FoundObj : Type := mkFound { allFoundPoints : list (option Point); radius : number }.

Section Condenser.
Variables SCAN_RADIUS RADIUS_INCREASE : number.

(** The [while (keepScanning)] loop of [findNextPointsToCondense]; it
    returns [totalFoundPoints] and [currentScanRadius]. *)
Fixpoint scanLoop (fuel : nat) (scanCenter : Point) (currentScanRadius : number)
  (totalFoundPoints : list Point) : M (list Point * number) :=
  match fuel with
  | O => diverge
  | S fuel' =>
      pts <- getPOINTS ;;
      let tempFoundPoints := scanForPointsWithinRadius pts scanCenter currentScanRadius in
      if Nat.eqb (length tempFoundPoints) 0 then
        ret (totalFoundPoints ++ tempFoundPoints, currentScanRadius)
      else
        removePoints tempFoundPoints ;;;
        scanLoop fuel' scanCenter (currentScanRadius + RADIUS_INCREASE)%float
                 (totalFoundPoints ++ tempFoundPoints)
  end.

(** [function findNextPointsToCondense()].  On an empty [POINTS],
    [POINTS[0]] is [undefined]; [removePoint(undefined)] filters the
    empty array without calling its predicate, and the shortcut returns
    [[undefined]]. *)
Definition findNextPointsToCondense (fuel : nat) : M FoundObj :=
  pts <- getPOINTS ;;
  match pts with
  | [] => ret (mkFound [None] SCAN_RADIUS)
  | scanCenter :: _ =>
      removePoint scanCenter ;;;
      pts' <- getPOINTS ;;
      if isEmpty pts' then ret (mkFound [Some scanCenter] SCAN_RADIUS)
      else
        '(totalFoundPoints, currentScanRadius) <-
          scanLoop fuel scanCenter SCAN_RADIUS [scanCenter] ;;
        ret (mkFound (map Some totalFoundPoints) currentScanRadius)
  end.

(** The [while (keepCondensing)] loop of [condensePointsByScanRadius]. *)
Fixpoint condenseLoop (fuel : nat) (condensedCenters : JSMap) : M JSMap :=
  match fuel with
  | O => diverge
  | S fuel' =>
      condensedPointsObj <- findNextPointsToCondense fuel' ;;
      let radius := radius condensedPointsObj in
      let allFoundPoints := allFoundPoints condensedPointsObj in
      condensedCenter <- calculateCenter allFoundPoints ;;
      let condensedCenters := Map_set condensedCenters condensedCenter radius in
      pts <- getPOINTS ;;
      if Nat.eqb (length pts) 0 then ret condensedCenters
      else condenseLoop fuel' condensedCenters
  end.

(** [function condensePointsByScanRadius(points)] with the fuel of its
    loops given. *)
Definition condensePointsByScanRadius_fuel (fuel : nat) (points : list Point) : M JSMap :=
  setPOINTS points ;;;
  condenseLoop fuel [].

(** [function condensePointsByScanRadius(points)]: fuel for every loop
    iteration the code can make on input without NaN coordinates. *)
Definition condensePointsByScanRadius (points : list Point) : M JSMap :=
  condensePointsByScanRadius_fuel (S (S (length points))) points.

End Condenser.
