(* ===== verification/ClusterSpec.v ===== *)
(** * The contract of the condenser, on a pure reference implementation

    [grow] and [clusters] restate the algorithm of
    [findNextPointsToCondense] and [condensePointsByScanRadius] without
    the global store or the object heap.  Like the spec's algorithm, they
    take the points a scan finds out of the pending list by the radius
    test itself, and they take the seed out together with the points
    coordinate-equal to it.  [Refinement] proves that the monadic code
    computes exactly these clusters.  This file proves the contract on
    them: termination, the partition of the input up to coordinate
    equality, the recorded radius, and maximality (no later point lies
    within the recorded radius of an earlier seed); it also proves that a
    NaN coordinate anywhere makes the algorithm run forever. *)

From Stdlib Require Import List Bool Arith Lia.
From Stdlib Require Import Floats.
From S2P Require Import Prelude JsNumber Points.
Import ListNotations.

(** A cluster: its members, the seed first, and its recorded radius. *)
Record cluster : Type := mkCluster { members : list Point; cradius : number }.

(** ** The contract *)

(** The clusters [cs] partition [points] up to the code's coordinate
    equality: their members are input points, every input point equals a
    member, and members of different clusters are never equal. *)
Definition partition (points : list Point) (cs : list cluster) : Prop :=
  (forall c, In c cs -> incl (members c) points) /\
  (forall p, In p points -> exists c q, In c cs /\ In q (members c) /\ equals p q = true) /\
  ForallOrdPairs (fun c1 c2 => forall m1 m2, In m1 (members c1) -> In m2 (members c2) ->
                                             equals m2 m1 = false) cs.

(** Each cluster starts with its seed, and its radius is the base radius
    plus one increment per scan that found points: none exactly when the
    seed absorbed no point, and at most one per absorbed point. *)
Definition radii_recorded (SCAN_RADIUS RADIUS_INCREASE : number) (cs : list cluster) : Prop :=
  Forall (fun c => exists seed found k, members c = seed :: found /\
            cradius c = Nat.iter k (fun r => r + RADIUS_INCREASE)%float SCAN_RADIUS /\
            (k = 0 <-> found = []) /\ k <= length found) cs.

(** No member of a later cluster lies within the recorded radius of an
    earlier cluster's seed. *)
Definition maximal (cs : list cluster) : Prop :=
  ForallOrdPairs (fun c1 c2 => forall seed q, hd_error (members c1) = Some seed ->
                    In q (members c2) -> isPointWithinRadius q seed (cradius c1) = false) cs.

Section Reference.
Variables SCAN_RADIUS RADIUS_INCREASE : number.

(** The growth loop around a fixed [seed]: scan [pending] at radius [r];
    stop when nothing is found, otherwise absorb the found points, drop
    them from [pending] and scan again one increment further.  Returns
    the absorbed points, the final radius and what is left pending. *)
Fixpoint grow (fuel : nat) (seed : Point) (r : number) (absorbed pending : list Point)
  : option (list Point * number * list Point) :=
  match fuel with
  | O => None
  | S fuel' =>
      match scanForPointsWithinRadius pending seed r with
      | [] => Some (absorbed, r, pending)
      | found =>
          grow fuel' seed (r + RADIUS_INCREASE)%float (absorbed ++ found)
               (filter (fun p => negb (isPointWithinRadius p seed r)) pending)
      end
  end.

(** The pending points once the seed and its coordinate-equal copies
    are taken out. *)
Definition withoutSeed (seed : Point) (pending : list Point) : list Point :=
  filter (fun p => negb (equals p seed)) pending.
Arguments withoutSeed : simpl never.

(** The outer loop: one cluster per iteration, seeded by the first
    pending point. *)
Fixpoint clusters (fuel : nat) (pending : list Point) : outcome (list cluster) :=
  match fuel with
  | O => Diverge
  | S fuel' =>
      match pending with
      | [] => Throw TypeError_undefined_property
      | seed :: _ =>
          let rest := withoutSeed seed pending in
          if isEmpty rest then Normal [mkCluster [seed] SCAN_RADIUS]
          else
            match grow fuel' seed SCAN_RADIUS [seed] rest with
            | None => Diverge
            | Some (absorbed, r, rest') =>
                if isEmpty rest' then Normal [mkCluster absorbed r]
                else
                  match clusters fuel' rest' with
                  | Normal cs => Normal (mkCluster absorbed r :: cs)
                  | Throw e => Throw e
                  | Diverge => Diverge
                  end
            end
      end
  end.

(** ** Growth *)

(** A scan that finds something makes the pending list shorter. *)
Lemma scan_drop_shorter (pending : list Point) (seed : Point) (r : number) p found :
  scanForPointsWithinRadius pending seed r = p :: found ->
  length (filter (fun q => negb (isPointWithinRadius q seed r)) pending) < length pending.
Proof.
  intros E. assert (Hp : In p (scanForPointsWithinRadius pending seed r)) by (rewrite E; left; auto).
  apply filter_In in Hp. destruct Hp as [Hin W].
  apply (filter_length_lt _ _ p Hin). now rewrite W.
Qed.

(** Growth terminates: one iteration more than there are pending points
    is enough. *)
Lemma grow_total (fuel : nat) seed r absorbed pending :
  length pending < fuel -> exists res, grow fuel seed r absorbed pending = Some res.
Proof.
  revert r absorbed pending. induction fuel as [|fuel IH]; intros r absorbed pending H;
    [lia|simpl].
  destruct (scanForPointsWithinRadius pending seed r) as [|p found] eqn:E; [eauto|].
  apply IH. pose proof (scan_drop_shorter pending seed r p found E). lia.
Qed.

(** More fuel does not change a growth that finished. *)
Lemma grow_fuel_mono (fuel fuel' : nat) seed r absorbed pending res :
  fuel <= fuel' -> grow fuel seed r absorbed pending = Some res ->
  grow fuel' seed r absorbed pending = Some res.
Proof.
  revert fuel' r absorbed pending. induction fuel as [|fuel IH];
    intros fuel' r absorbed pending Hle H; [discriminate|].
  destruct fuel' as [|fuel']; [lia|]. simpl in *.
  destruct (scanForPointsWithinRadius pending seed r); [exact H|].
  apply IH; [lia|exact H].
Qed.

(** Peels one iteration off a hypothesis [grow (S _) ... = Some _]:
    the case where the scan found nothing, and the case where it found
    [p :: found] and growth went on. *)
Ltac grow_step H E :=
  simpl in H; lazymatch type of H with
  | context [scanForPointsWithinRadius ?pending ?seed ?r] =>
      destruct (scanForPointsWithinRadius pending seed r) as [|?p ?found] eqn:E
  end.

(** Growth never makes the pending list longer. *)
Lemma grow_rest_length (fuel : nat) seed r absorbed pending absorbed' r' rest :
  grow fuel seed r absorbed pending = Some (absorbed', r', rest) ->
  length rest <= length pending.
Proof.
  revert r absorbed pending. induction fuel as [|fuel IH]; intros r absorbed pending H;
    [discriminate|grow_step H E].
  - injection H as <- <- <-. lia.
  - apply IH in H. pose proof (filter_length_le (fun q => negb (isPointWithinRadius q seed r)) pending).
    lia.
Qed.

(** What growth leaves pending is a part of what it started from. *)
Lemma grow_incl (fuel : nat) seed r absorbed pending absorbed' r' rest :
  grow fuel seed r absorbed pending = Some (absorbed', r', rest) -> incl rest pending.
Proof.
  revert r absorbed pending. induction fuel as [|fuel IH]; intros r absorbed pending H;
    [discriminate|grow_step H E].
  - injection H as <- <- <-. apply incl_refl.
  - apply IH in H. eapply incl_tran; [exact H|apply incl_filter_l].
Qed.

(** The last scan, at the recorded radius, finds none of the points left
    pending. *)
Lemma grow_final_scan (fuel : nat) seed r absorbed pending absorbed' r' rest :
  grow fuel seed r absorbed pending = Some (absorbed', r', rest) ->
  forall p, In p rest -> isPointWithinRadius p seed r' = false.
Proof.
  revert r absorbed pending. induction fuel as [|fuel IH]; intros r absorbed pending H;
    [discriminate|grow_step H E].
  - injection H as <- <- <-. now apply filter_none_nil.
  - exact (IH _ _ _ H).
Qed.

(** The recorded radius is the start radius plus one increment per scan
    that found something; each such scan absorbed a point, and without
    one nothing was absorbed. *)
Lemma grow_radius (fuel : nat) seed r absorbed pending absorbed' r' rest :
  grow fuel seed r absorbed pending = Some (absorbed', r', rest) ->
  exists k, r' = Nat.iter k (fun r => r + RADIUS_INCREASE)%float r /\
            (k = 0 -> absorbed' = absorbed) /\ length absorbed + k <= length absorbed'.
Proof.
  revert r absorbed pending. induction fuel as [|fuel IH]; intros r absorbed pending H;
    [discriminate|grow_step H E].
  - injection H as <- <- <-. exists 0. split; [reflexivity|split; [reflexivity|lia]].
  - destruct (IH _ _ _ H) as (k & Hr & _ & Hl). exists (S k). split; [|split; [discriminate|]].
    + now rewrite Hr, Nat.iter_succ_r.
    + rewrite length_app in Hl. simpl in Hl. lia.
Qed.

(** What growth absorbs and what it leaves pending add up to what it
    started from: a scan splits the pending points by the radius test. *)
Lemma grow_length (fuel : nat) seed r absorbed pending absorbed' r' rest :
  grow fuel seed r absorbed pending = Some (absorbed', r', rest) ->
  length absorbed' + length rest = length absorbed + length pending.
Proof.
  revert r absorbed pending. induction fuel as [|fuel IH]; intros r absorbed pending H;
    [discriminate|grow_step H E].
  - injection H as <- <- <-. reflexivity.
  - rewrite (IH _ _ _ H), length_app, <- E. unfold scanForPointsWithinRadius.
    pose proof (filter_length (fun q => isPointWithinRadius q seed r) pending). lia.
Qed.

(** The points growth absorbs: taken from [pending], without NaN, never
    coordinate-equal to a point left pending, and together with what is
    left they cover [pending]. *)
Lemma grow_absorbed (fuel : nat) seed r absorbed pending absorbed' r' rest :
  grow fuel seed r absorbed pending = Some (absorbed', r', rest) ->
  exists found, absorbed' = absorbed ++ found /\ incl found pending /\
    (forall q, In q found -> noNaN q = true) /\
    (forall p, In p pending -> In p found \/ In p rest) /\
    (forall p q, In p rest -> In q found -> equals p q = false).
Proof.
  revert r absorbed pending. induction fuel as [|fuel IH]; intros r absorbed pending H;
    [discriminate|grow_step H E].
  - injection H as <- <- <-. exists []. rewrite app_nil_r.
    split; [reflexivity|]. split; [apply incl_nil_l|].
    split; [intros _ []|]. split; [intros; now right|intros _ _ _ []].
  - pose proof (grow_incl _ _ _ _ _ _ _ _ H) as Hinc.
    destruct (IH _ _ _ H) as (found1 & -> & Hf1 & Hn1 & Hc1 & Hd1).
    set (found0 := p :: found) in *.
    assert (F0 : forall q, In q found0 <-> In q pending /\ isPointWithinRadius q seed r = true)
      by (intros q; rewrite <- E; apply filter_In).
    assert (P1 : forall q, In q (filter (fun q => negb (isPointWithinRadius q seed r)) pending) <->
                      In q pending /\ isPointWithinRadius q seed r = false)
      by (intros q; rewrite filter_In, negb_true_iff; tauto).
    exists (found0 ++ found1). rewrite app_assoc. split; [reflexivity|].
    split; [|split; [|split]].
    + intros q Hq. apply in_app_or in Hq as [Hq|Hq]; [apply F0, Hq|].
      apply P1, Hf1, Hq.
    + intros q Hq. apply in_app_or in Hq as [Hq|Hq]; [|apply Hn1, Hq].
      apply F0 in Hq. eapply within_noNaN, (proj2 Hq).
    + intros q Hq. destruct (isPointWithinRadius q seed r) eqn:W.
      * left. apply in_or_app. left. apply F0. auto.
      * destruct (Hc1 q) as [Hq'|Hq']; [apply P1; auto| |auto].
        left. apply in_or_app. auto.
    + intros p' q Hp Hq. apply in_app_or in Hq as [Hq|Hq]; [|apply Hd1; auto].
      apply Hinc, P1 in Hp. apply F0 in Hq.
      destruct (equals p' q) eqn:Eq; [|reflexivity].
      rewrite (within_equals p' q seed r Eq) in Hp. destruct Hp, Hq. congruence.
Qed.

(** Growth around a seed with a NaN coordinate finds nothing. *)
Lemma grow_nan_seed (fuel : nat) seed r absorbed pending :
  noNaN seed = false ->
  grow (S fuel) seed r absorbed pending = Some (absorbed, r, pending).
Proof.
  intros H. simpl. unfold scanForPointsWithinRadius.
  rewrite filter_all_false; [reflexivity|].
  intros p _. now apply within_nan_center.
Qed.

(** ** The outer loop *)

Lemma in_withoutSeed (seed p : Point) (l : list Point) :
  In p (withoutSeed seed l) <-> In p l /\ equals p seed = false.
Proof. unfold withoutSeed. rewrite filter_In, negb_true_iff. tauto. Qed.

(** A seed without NaN coordinates is taken out of the pending list. *)
Lemma withoutSeed_shorter (seed : Point) (tl : list Point) :
  noNaN seed = true -> length (withoutSeed seed (seed :: tl)) < length (seed :: tl).
Proof.
  intros H. apply (filter_length_lt _ _ seed); [now left|].
  now rewrite (equals_refl seed H).
Qed.

(** Peels one iteration off [clusters (S fuel) (seed :: tl) = Normal cs]:
    the singleton shortcut, a last grown cluster, and a grown cluster
    followed by the clusters of what it left pending. *)
Ltac clusters_step H Er G Er' C :=
  simpl in H;
  lazymatch type of H with
  | context [isEmpty (withoutSeed ?seed ?pending)] =>
      destruct (isEmpty (withoutSeed seed pending)) eqn:Er;
      [injection H as <-
      |lazymatch type of H with
       | context [grow ?f seed ?r0 ?a0 ?rest] =>
           destruct (grow f seed r0 a0 rest) as [[[?absorbed ?r] ?rest']|] eqn:G;
           [|discriminate];
           lazymatch type of H with
           | context [isEmpty ?rest'] =>
               destruct (isEmpty rest') eqn:Er';
               [injection H as <-
               |destruct (clusters f rest') as [?cs'| |] eqn:C;
                [injection H as <-|discriminate|discriminate]]
           end
       end]
  end.

(** The outer loop terminates on pending points without NaN
    coordinates, with one unit of fuel more than there are points. *)
Lemma clusters_total (fuel : nat) (pending : list Point) :
  pending <> [] -> forallb noNaN pending = true -> length pending < fuel ->
  exists cs, clusters fuel pending = Normal cs.
Proof.
  revert pending. induction fuel as [|fuel IH]; intros [|seed tl] Hne Hnan Hlen;
    try lia; try contradiction.
  simpl. set (rest := withoutSeed seed (seed :: tl)).
  destruct (isEmpty rest) eqn:Er; [eauto|].
  assert (Hseed : noNaN seed = true) by (simpl in Hnan; apply andb_true_iff in Hnan; apply Hnan).
  pose proof (withoutSeed_shorter seed tl Hseed) as Hshort. fold rest in Hshort.
  destruct (grow_total fuel seed SCAN_RADIUS [seed] rest) as [[[absorbed r] rest'] G];
    [lia|]. rewrite G.
  destruct (isEmpty rest') eqn:Er'; [eauto|].
  pose proof (grow_incl _ _ _ _ _ _ _ _ G) as Hinc.
  destruct (IH rest') as [cs Hcs].
  - intros ->. discriminate.
  - eapply forallb_incl; [|exact Hnan]. eapply incl_tran; [exact Hinc|apply incl_filter_l].
  - pose proof (grow_rest_length _ _ _ _ _ _ _ _ G). lia.
  - rewrite Hcs. eauto.
Qed.

(** More fuel does not change a result the outer loop returned or
    threw. *)
Lemma clusters_fuel_mono (fuel fuel' : nat) (pending : list Point) o :
  fuel <= fuel' -> clusters fuel pending = o -> o <> Diverge -> clusters fuel' pending = o.
Proof.
  revert fuel' pending o. induction fuel as [|fuel IH]; intros fuel' pending o Hle H Hnd;
    [subst; contradiction|].
  destruct fuel' as [|fuel']; [lia|]. destruct pending as [|seed tl]; [exact H|].
  simpl in *. destruct (isEmpty (withoutSeed seed (seed :: tl))); [exact H|].
  destruct (grow fuel seed SCAN_RADIUS [seed] _) as [[[absorbed r] rest']|] eqn:G;
    [|subst; contradiction].
  rewrite (grow_fuel_mono fuel fuel' _ _ _ _ _ ltac:(lia) G).
  destruct (isEmpty rest'); [exact H|].
  destruct (clusters fuel rest') as [cs| e |] eqn:C; [| |subst; contradiction];
    rewrite (IH fuel' rest' _ ltac:(lia) C ltac:(discriminate)); exact H.
Qed.

(** A point with a NaN coordinate is never taken out of the pending
    list, so the outer loop never stops. *)
Lemma clusters_nan_diverge (fuel : nat) (pending : list Point) (q : Point) :
  In q pending -> noNaN q = false -> clusters fuel pending = Diverge.
Proof.
  revert pending. induction fuel as [|fuel IH]; intros [|seed tl] Hq Hnan;
    [reflexivity|reflexivity|contradiction|].
  assert (Hr : In q (withoutSeed seed (seed :: tl)))
    by (apply in_withoutSeed; split; [exact Hq|now apply equals_nan_l]).
  simpl. rewrite (isEmpty_In _ _ Hr).
  destruct (grow fuel seed SCAN_RADIUS [seed] _) as [[[absorbed r] rest']|] eqn:G;
    [|reflexivity].
  destruct (grow_absorbed _ _ _ _ _ _ _ _ G) as (found & _ & _ & Hn & Hc & _).
  destruct (Hc q Hr) as [Hf|Hr']; [rewrite (Hn q Hf) in Hnan; discriminate|].
  rewrite (isEmpty_In _ _ Hr'). now rewrite (IH rest' Hr' Hnan).
Qed.

(** Every member of every cluster is one of the pending points. *)
Lemma clusters_members_in (fuel : nat) (pending : list Point) cs :
  clusters fuel pending = Normal cs ->
  forall c, In c cs -> incl (members c) pending.
Proof.
  revert pending cs. induction fuel as [|fuel IH]; intros [|seed tl] cs H;
    try discriminate.
  clusters_step H Er G Er' C; intros c Hc.
  - destruct Hc as [<-|[]]. simpl. intros m [<-|[]]. now left.
  - destruct Hc as [<-|[]]. simpl.
    destruct (grow_absorbed _ _ _ _ _ _ _ _ G) as (found & -> & Hf & _).
    intros m Hm. apply in_app_or in Hm as [[<-|[]]|Hm]; [now left|].
    apply Hf, in_withoutSeed in Hm. apply Hm.
  - destruct Hc as [<-|Hc].
    + simpl. destruct (grow_absorbed _ _ _ _ _ _ _ _ G) as (found & -> & Hf & _).
      intros m Hm. apply in_app_or in Hm as [[<-|[]]|Hm]; [now left|].
      apply Hf, in_withoutSeed in Hm. apply Hm.
    + intros m Hm. apply (IH _ _ C c Hc), (grow_incl _ _ _ _ _ _ _ _ G), in_withoutSeed in Hm.
      apply Hm.
Qed.

(** Every pending point is coordinate-equal to a member of some
    cluster. *)
Lemma clusters_cover (fuel : nat) (pending : list Point) cs :
  clusters fuel pending = Normal cs ->
  forall p, In p pending -> exists c m, In c cs /\ In m (members c) /\ equals p m = true.
Proof.
  revert pending cs. induction fuel as [|fuel IH]; intros [|seed tl] cs H;
    try discriminate.
  intros p Hp.
  destruct (equals p seed) eqn:Eps.
  { clusters_step H Er G Er' C;
      [| destruct (grow_absorbed _ _ _ _ _ _ _ _ G) as (found & -> & _)
       | destruct (grow_absorbed _ _ _ _ _ _ _ _ G) as (found & -> & _)];
      eexists _, seed; (split; [now left|split; [now left|exact Eps]]). }
  assert (Hr : In p (withoutSeed seed (seed :: tl))) by (now apply in_withoutSeed).
  clusters_step H Er G Er' C;
    [rewrite (isEmpty_In _ _ Hr) in Er; discriminate| |];
    destruct (grow_absorbed _ _ _ _ _ _ _ _ G) as (found & -> & _ & Hn & Hc & _);
    destruct (Hc p Hr) as [Hf|Hr'].
  - exists (mkCluster (seed :: found) r), p. split; [now left|].
    split; [now right|]. apply equals_refl, Hn, Hf.
  - rewrite (isEmpty_In _ _ Hr') in Er'. discriminate.
  - exists (mkCluster (seed :: found) r), p. split; [now left|].
    split; [now right|]. apply equals_refl, Hn, Hf.
  - destruct (IH _ _ C p Hr') as (c & m & Hc' & Hm & E). exists c, m. split; [now right|auto].
Qed.

(** Members of different clusters are never coordinate-equal. *)
Lemma clusters_disjoint (fuel : nat) (pending : list Point) cs :
  clusters fuel pending = Normal cs ->
  ForallOrdPairs (fun c1 c2 => forall m1 m2, In m1 (members c1) -> In m2 (members c2) ->
                                             equals m2 m1 = false) cs.
Proof.
  revert pending cs. induction fuel as [|fuel IH]; intros [|seed tl] cs H;
    try discriminate.
  pose proof (clusters_members_in (S fuel) _ _ H) as Hin.
  clusters_step H Er G Er' C; try (repeat constructor; fail).
  constructor; [|exact (IH _ _ C)].
  apply Forall_forall. intros c2 Hc2 m1 m2 Hm1 Hm2.
  pose proof (clusters_members_in _ _ _ C c2 Hc2 m2 Hm2) as Hm2'.
  destruct (grow_absorbed _ _ _ _ _ _ _ _ G) as (found & -> & _ & _ & _ & Hd).
  destruct Hm1 as [<-|Hm1]; [|exact (Hd m2 m1 Hm2' Hm1)].
  apply (grow_incl _ _ _ _ _ _ _ _ G), in_withoutSeed in Hm2'. apply Hm2'.
Qed.

(** The cluster grown around a seed starts with the seed, and its
    radius is the base radius plus one increment per successful scan:
    none exactly when nothing was absorbed, at most one per absorbed
    point. *)
Lemma grown_radius (fuel : nat) seed pending absorbed r rest' :
  grow fuel seed SCAN_RADIUS [seed] pending = Some (absorbed, r, rest') ->
  exists seed' found k, absorbed = seed' :: found /\
    r = Nat.iter k (fun r => r + RADIUS_INCREASE)%float SCAN_RADIUS /\
    (k = 0 <-> found = []) /\ k <= length found.
Proof.
  intros G. destruct (grow_absorbed _ _ _ _ _ _ _ _ G) as (found & -> & _).
  destruct (grow_radius _ _ _ _ _ _ _ _ G) as (k & -> & Hk0 & Hk).
  exists seed, found, k. simpl in Hk. split; [reflexivity|split; [reflexivity|split; [|lia]]].
  split; [intros E; injection (Hk0 E); auto|intros ->; simpl in Hk; lia].
Qed.

(** Each cluster starts with its seed, and its radius is the base radius
    plus one increment per scan that found a point. *)
Lemma clusters_radius (fuel : nat) (pending : list Point) cs :
  clusters fuel pending = Normal cs -> radii_recorded SCAN_RADIUS RADIUS_INCREASE cs.
Proof.
  revert pending cs. induction fuel as [|fuel IH]; intros [|seed tl] cs H;
    try discriminate.
  clusters_step H Er G Er' C; repeat constructor.
  - exists seed, [], 0. simpl. repeat split; auto.
  - exact (grown_radius _ _ _ _ _ _ G).
  - exact (grown_radius _ _ _ _ _ _ G).
  - exact (IH _ _ C).
Qed.

(** No cluster has more members than there were pending points, the
    seed counted once more when it has a NaN coordinate. *)
Lemma clusters_members_length (fuel : nat) (pending : list Point) cs :
  clusters fuel pending = Normal cs ->
  Forall (fun c => length (members c) <= S (length pending)) cs.
Proof.
  revert pending cs. induction fuel as [|fuel IH]; intros [|seed tl] cs H;
    try discriminate.
  pose proof (filter_length_le (fun p => negb (equals p seed)) (seed :: tl)) as Hw.
  fold (withoutSeed seed (seed :: tl)) in Hw.
  clusters_step H Er G Er' C; repeat (apply Forall_cons || apply Forall_nil).
  - simpl. lia.
  - pose proof (grow_length _ _ _ _ _ _ _ _ G). simpl in *. lia.
  - pose proof (grow_length _ _ _ _ _ _ _ _ G). simpl in *. lia.
  - pose proof (grow_length _ _ _ _ _ _ _ _ G). pose proof (grow_rest_length _ _ _ _ _ _ _ _ G).
    eapply Forall_impl; [|exact (IH _ _ C)]. simpl in *. intros c Hc. lia.
Qed.

(** Maximality: a point of a later cluster is outside the recorded radius
    of every earlier cluster's seed. *)
Lemma clusters_maximal (fuel : nat) (pending : list Point) cs :
  clusters fuel pending = Normal cs -> maximal cs.
Proof.
  revert pending cs. induction fuel as [|fuel IH]; intros [|seed tl] cs H;
    try discriminate.
  clusters_step H Er G Er' C; try (repeat constructor; fail).
  constructor; [|exact (IH _ _ C)].
  apply Forall_forall. intros c2 Hc2 s m Hs Hm.
  destruct (grow_absorbed _ _ _ _ _ _ _ _ G) as (found & -> & _).
  injection Hs as <-.
  exact (grow_final_scan _ _ _ _ _ _ _ _ G m (clusters_members_in _ _ _ C c2 Hc2 m Hm)).
Qed.

(** The reference's clusters meet the contract. *)
Lemma clusters_partition (fuel : nat) (pending : list Point) cs :
  clusters fuel pending = Normal cs -> partition pending cs.
Proof.
  intros H. split; [exact (clusters_members_in _ _ _ H)|].
  split; [exact (clusters_cover _ _ _ H)|exact (clusters_disjoint _ _ _ H)].
Qed.

End Reference.

Arguments withoutSeed : simpl never.
