(* ===== verification/Refinement.v ===== *)
(** * The code refines the reference, and the condenser's theorems

    The simulation between the monadic model of
    [lib/drawMarketsAndOutline.js] ([Condense]) and the pure reference
    ([ClusterSpec]): each helper's effect on the store as an equation,
    then [condenseLoop_clusters], which says that the [Map] built by the
    outer loop lists, in insertion order and under fresh object keys, the
    center and radius of the reference's clusters, and that [POINTS] ends
    empty.  The theorems about [condensePointsByScanRadius] follow from it
    and from the contract proved in [ClusterSpec]. *)

From Stdlib Require Import List Bool Arith Lia.
From Stdlib Require Import Floats.
From S2P Require Import Prelude JsNumber Points Condense ClusterSpec.
Import ListNotations.
Local Open Scope js_scope.

(** The entries the condenser adds to its [Map] for the clusters [cs],
    the first center being the object at address [h]. *)
Fixpoint entries_of (h : nat) (cs : list cluster) : JSMap :=
  match cs with
  | [] => []
  | c :: cs' => (mkObj h (centerOf (members c)), cradius c) :: entries_of (S h) cs'
  end.

(** The result of a run of the outer loop that started with the map
    [acc] in the store [s], given the reference's outcome. *)
Definition loop_result (acc : JSMap) (s : store) (o : outcome (list cluster))
  : outcome (JSMap * store) :=
  match o with
  | Normal cs => Normal (acc ++ entries_of (heap s) cs, mkStore [] (heap s + length cs))
  | Throw e => Throw e
  | Diverge => Diverge
  end.

Lemma entries_of_keys (h : nat) (cs : list cluster) :
  map (fun e => oid (fst e)) (entries_of h cs) = seq h (length cs).
Proof. revert h. induction cs as [|c cs IH]; intros h; simpl; [reflexivity|now rewrite IH]. Qed.

Lemma length_entries_of (h : nat) (cs : list cluster) : length (entries_of h cs) = length cs.
Proof. revert h. induction cs as [|c cs IH]; intros h; simpl; [reflexivity|now rewrite IH]. Qed.

(** ** The helpers *)

Lemma removePoint_run (point : Point) (s : store) :
  removePoint point s =
  Normal (tt, mkStore (filter (fun p => negb (equals p point)) (POINTS s)) (heap s)).
Proof.
  unfold removePoint, getPOINTS, setPOINTS. js_unfold.
  do 3 f_equal. apply filter_ext. intros p. apply notEquals_equals.
Qed.

Lemma removePoints_run (points : list Point) (s : store) :
  removePoints points s =
  Normal (tt, mkStore (filter (fun p => notInList points p) (POINTS s)) (heap s)).
Proof. reflexivity. Qed.

Lemma sumLoop_defined (points : list Point) (xSum ySum : number) (s : store) :
  sumLoop (map Some points) xSum ySum s = Normal (sumCoords points xSum ySum, s).
Proof.
  revert xSum ySum. induction points as [|p points IH]; intros xSum ySum; [reflexivity|].
  apply IH.
Qed.

(** [calculateCenter] on defined points allocates the center object. *)
Lemma calculateCenter_defined (points : list Point) (s : store) :
  calculateCenter (map Some points) s =
  Normal (mkObj (heap s) (centerOf points), mkStore (POINTS s) (S (heap s))).
Proof.
  unfold calculateCenter. rewrite (bind_normal _ _ _ _ _ (sumLoop_defined points _ _ s)).
  unfold centerOf. rewrite length_map. destruct (sumCoords points 0%float 0%float). reflexivity.
Qed.

(** [Map.set] with a key object allocated after every key of the map
    appends an entry. *)
Lemma Map_set_fresh (m : JSMap) (key : PointObj) (value : number) :
  (forall e, In e m -> oid (fst e) < oid key) -> Map_set m key value = m ++ [(key, value)].
Proof.
  intros H. unfold Map_set.
  destruct (existsb _ m) eqn:E; [|reflexivity].
  apply existsb_exists in E. destruct E as [e [He Heq]].
  apply Nat.eqb_eq in Heq. specialize (H e He). lia.
Qed.

Section Refinement.
Variables SCAN_RADIUS RADIUS_INCREASE : number.

(** The growth loop of the code is [grow]: [removePoints] of what a scan
    found keeps the points outside the scan radius. *)
Lemma scanLoop_grow (fuel : nat) (scanCenter : Point) (r : number)
  (total : list Point) (s : store) :
  scanLoop RADIUS_INCREASE fuel scanCenter r total s =
  match grow RADIUS_INCREASE fuel scanCenter r total (POINTS s) with
  | Some (absorbed, r', rest) => Normal ((absorbed, r'), mkStore rest (heap s))
  | None => Diverge
  end.
Proof.
  revert r total s. induction fuel as [|fuel IH]; intros r total s; [reflexivity|].
  simpl. unfold getPOINTS. js_unfold.
  destruct (scanForPointsWithinRadius (POINTS s) scanCenter r) as [|p found] eqn:E.
  - simpl. rewrite app_nil_r. now destruct s.
  - simpl. rewrite IH. simpl. rewrite <- E, filter_notInList_scan. reflexivity.
Qed.

(** [findNextPointsToCondense] on a non-empty [POINTS]: the seed and
    its copies are removed; then the shortcut or the growth loop. *)
Lemma findNext_run (fuel : nat) (seed : Point) (tl : list Point) (h : nat) :
  findNextPointsToCondense SCAN_RADIUS RADIUS_INCREASE fuel (mkStore (seed :: tl) h) =
  let rest := withoutSeed seed (seed :: tl) in
  if isEmpty rest then Normal (mkFound [Some seed] SCAN_RADIUS, mkStore rest h)
  else match grow RADIUS_INCREASE fuel seed SCAN_RADIUS [seed] rest with
       | Some (absorbed, r, rest') => Normal (mkFound (map Some absorbed) r, mkStore rest' h)
       | None => Diverge
       end.
Proof.
  unfold findNextPointsToCondense.
  erewrite (bind_normal getPOINTS); [|reflexivity].
  change (POINTS (mkStore (seed :: tl) h)) with (seed :: tl). cbv beta iota.
  rewrite (bind_normal (removePoint seed) _ _ _ _ (removePoint_run seed _)).
  erewrite (bind_normal getPOINTS); [|reflexivity]. cbn [POINTS heap].
  fold (withoutSeed seed (seed :: tl)).
  destruct (isEmpty _); [reflexivity|].
  unfold bind. rewrite scanLoop_grow. cbn [POINTS heap]. destruct (grow _ _ _ _ _ _) as [[[a r] rest']|]; reflexivity.
Qed.

(** One iteration of the outer loop after [findNextPointsToCondense]
    returned the defined points [absorbed] and the radius [r]: the new
    center is appended to the map under a fresh object. *)
Lemma condense_iteration (fuel : nat) (acc : JSMap) (absorbed rest : list Point)
  (r : number) (h : nat) :
  (forall e, In e acc -> oid (fst e) < h) ->
  (condensedCenter <- calculateCenter (map Some absorbed) ;;
   pts <- getPOINTS ;;
   if Nat.eqb (length pts) 0 then ret (Map_set acc condensedCenter r)
   else condenseLoop SCAN_RADIUS RADIUS_INCREASE fuel (Map_set acc condensedCenter r))
    (mkStore rest h) =
  if isEmpty rest then Normal (acc ++ [(mkObj h (centerOf absorbed), r)], mkStore [] (S h))
  else condenseLoop SCAN_RADIUS RADIUS_INCREASE fuel
         (acc ++ [(mkObj h (centerOf absorbed), r)]) (mkStore rest (S h)).
Proof.
  intros Hacc. rewrite (bind_normal _ _ _ _ _ (calculateCenter_defined absorbed _)).
  erewrite (bind_normal getPOINTS); [|reflexivity]. cbn [POINTS heap].
  rewrite Map_set_fresh by exact Hacc. unfold isEmpty.
  destruct (Nat.eqb (length rest) 0) eqn:E; [|reflexivity].
  apply length_zero_iff in E. now subst.
Qed.

(** The outer loop builds the [Map] of the reference's clusters, one new
    object per cluster, and leaves [POINTS] empty; it throws and
    diverges exactly when the reference does. *)
Lemma condenseLoop_clusters (fuel : nat) (acc : JSMap) (s : store) :
  (forall e, In e acc -> oid (fst e) < heap s) ->
  condenseLoop SCAN_RADIUS RADIUS_INCREASE fuel acc s =
  loop_result acc s (clusters SCAN_RADIUS RADIUS_INCREASE fuel (POINTS s)).
Proof.
  revert acc s. induction fuel as [|fuel IH]; intros acc [[|seed tl] h] Hacc;
    [reflexivity|reflexivity|reflexivity|].
  cbn [condenseLoop]. unfold bind at 1. rewrite findNext_run. cbv zeta.
  cbn [clusters POINTS heap] in *. cbv beta iota delta [allFoundPoints radius].
  destruct (isEmpty (withoutSeed seed (seed :: tl))) eqn:Er.
  - change [Some seed] with (map Some [seed]).
    rewrite condense_iteration by exact Hacc. rewrite Er. simpl. now rewrite Nat.add_1_r.
  - destruct (grow _ _ _ _ _ _) as [[[absorbed r] rest']|]; [|reflexivity].
    rewrite condense_iteration by exact Hacc.
    destruct (isEmpty rest'); [simpl; now rewrite Nat.add_1_r|].
    rewrite IH.
    + cbn [POINTS heap loop_result].
      destruct (clusters _ _ fuel rest'); [|reflexivity|reflexivity].
      simpl. rewrite <- app_assoc. do 3 f_equal. lia.
    + intros e He. apply in_app_or in He as [He|[<-|[]]]; simpl; [|lia].
      specialize (Hacc e He). lia.
Qed.

End Refinement.
