(* ===== verification/CondenseTheorems.v ===== *)
(** * What [condensePointsByScanRadius] does

    The theorems about the condenser as the code runs it: from the store
    the program is in, with the global [POINTS] and the heap.  They are
    corollaries of the refinement [condenseLoop_clusters] and of the
    contract proved on the reference in [ClusterSpec].  They hold for all
    values of [SCAN_RADIUS] and [RADIUS_INCREASE], except the last, on the
    exactness of the recorded radii, which is about the values of
    [lib/constants.js]; the witnesses use those values. *)

From Stdlib Require Import List Bool Arith ZArith Lia.
From Stdlib Require Import Floats.
From S2P Require Import Prelude JsNumber Constants Points Condense ClusterSpec Refinement.
Import ListNotations.

Section Theorems.
Variables SCAN_RADIUS RADIUS_INCREASE : number.

(** The whole call is the reference run on the input. *)
Lemma condense_fuel_clusters (fuel : nat) (points : list Point) (s : store) :
  condensePointsByScanRadius_fuel SCAN_RADIUS RADIUS_INCREASE fuel points s =
  loop_result [] (mkStore points (heap s)) (clusters SCAN_RADIUS RADIUS_INCREASE fuel points).
Proof.
  unfold condensePointsByScanRadius_fuel.
  erewrite (bind_normal (setPOINTS points)); [|reflexivity].
  rewrite condenseLoop_clusters; [reflexivity|intros _ []].
Qed.

(** A normal return of the condenser comes from a normal run of the
    reference. *)
Lemma condense_normal_inv (points : list Point) (s : store) m s' :
  condensePointsByScanRadius SCAN_RADIUS RADIUS_INCREASE points s = Normal (m, s') ->
  exists cs, clusters SCAN_RADIUS RADIUS_INCREASE (S (S (length points))) points = Normal cs /\
             m = entries_of (heap s) cs /\ s' = mkStore [] (heap s + length cs).
Proof.
  unfold condensePointsByScanRadius. rewrite condense_fuel_clusters.
  destruct (clusters _ _ _ points) as [cs| |]; simpl; intros H; try discriminate.
  injection H as <- <-. eauto.
Qed.

(** On non-empty input without NaN the condenser returns the [Map] of
    the reference's clusters. *)
Lemma condense_returns (points : list Point) (s : store) :
  points <> [] -> forallb noNaN points = true ->
  exists cs, condensePointsByScanRadius SCAN_RADIUS RADIUS_INCREASE points s =
             Normal (entries_of (heap s) cs, mkStore [] (heap s + length cs)).
Proof.
  intros Hne Hnan.
  destruct (clusters_total SCAN_RADIUS RADIUS_INCREASE (S (S (length points))) points Hne Hnan
              ltac:(lia)) as [cs Hcs].
  exists cs. unfold condensePointsByScanRadius. rewrite condense_fuel_clusters, Hcs. reflexivity.
Qed.

(** A normal run of the reference with the default fuel is the
    condenser's result. *)
Lemma condense_of_clusters (points : list Point) (s : store) cs :
  clusters SCAN_RADIUS RADIUS_INCREASE (S (S (length points))) points = Normal cs ->
  condensePointsByScanRadius SCAN_RADIUS RADIUS_INCREASE points s =
  Normal (entries_of (heap s) cs, mkStore [] (heap s + length cs)).
Proof. intros H. unfold condensePointsByScanRadius. rewrite condense_fuel_clusters, H. reflexivity. Qed.

(** One iteration of growth whose scan found nothing. *)
Lemma grow_scan_empty (fuel : nat) seed r absorbed pending :
  scanForPointsWithinRadius pending seed r = [] ->
  grow RADIUS_INCREASE (S fuel) seed r absorbed pending = Some (absorbed, r, pending).
Proof. intros E. simpl. now rewrite E. Qed.

(** One iteration of growth whose scan found [found]. *)
Lemma grow_scan_found (fuel : nat) seed r absorbed pending found :
  scanForPointsWithinRadius pending seed r = found -> found <> [] ->
  grow RADIUS_INCREASE (S fuel) seed r absorbed pending =
  grow RADIUS_INCREASE fuel seed (r + RADIUS_INCREASE)%float (absorbed ++ found)
       (filter (fun p => negb (isPointWithinRadius p seed r)) pending).
Proof. intros E Hne. simpl. rewrite E. destruct found; [contradiction|reflexivity]. Qed.

(** The outer loop's iteration that grows a cluster from the seed and
    continues with what the cluster left pending. *)
Lemma clusters_grown (fuel : nat) seed tl absorbed r rest' :
  withoutSeed seed (seed :: tl) <> [] ->
  grow RADIUS_INCREASE fuel seed SCAN_RADIUS [seed] (withoutSeed seed (seed :: tl)) =
    Some (absorbed, r, rest') ->
  clusters SCAN_RADIUS RADIUS_INCREASE (S fuel) (seed :: tl) =
  match rest' with
  | [] => Normal [mkCluster absorbed r]
  | _ => match clusters SCAN_RADIUS RADIUS_INCREASE fuel rest' with
         | Normal cs => Normal (mkCluster absorbed r :: cs)
         | Throw e => Throw e
         | Diverge => Diverge
         end
  end.
Proof.
  intros Hne G. simpl. destruct (isEmpty (withoutSeed seed (seed :: tl))) eqn:E;
    [apply isEmpty_nil in E; contradiction|].
  rewrite G. destruct rest'; reflexivity.
Qed.

(** The seed and its copies leave the pending list: what remains is
    what the code's [removePoint] keeps. *)
Lemma withoutSeed_notEquals (seed : Point) (tl : list Point) :
  noNaN seed = true ->
  withoutSeed seed (seed :: tl) = filter (fun p => notEquals p seed) tl.
Proof.
  intros H. unfold withoutSeed. simpl. rewrite (equals_refl seed H). simpl.
  apply filter_ext. intros p. now rewrite notEquals_equals.
Qed.

(** C1. Termination: on a non-empty array of points without NaN
    coordinates, [condensePointsByScanRadius] returns (it neither throws
    nor loops), with [POINTS] left empty. *)
Theorem condense_terminates (points : list Point) (s : store) :
  points <> [] -> forallb noNaN points = true ->
  exists m h, condensePointsByScanRadius SCAN_RADIUS RADIUS_INCREASE points s =
              Normal (m, mkStore [] h).
Proof.
  intros Hne Hnan. destruct (condense_returns points s Hne Hnan) as [cs E]. eauto.
Qed.

(** C2. Partition: when the condenser returns, its [Map] holds one entry
    per cluster, in order, keyed by a new center object whose
    coordinates are the mean of the cluster's members; the members are
    input points; every input point is coordinate-equal to a member; and
    members of different clusters are never coordinate-equal. *)
Theorem condense_partition (points : list Point) (s : store) m s' :
  condensePointsByScanRadius SCAN_RADIUS RADIUS_INCREASE points s = Normal (m, s') ->
  exists cs, m = entries_of (heap s) cs /\ partition points cs.
Proof.
  intros H. destruct (condense_normal_inv points s m s' H) as (cs & Hcs & -> & _).
  exists cs. split; [reflexivity|exact (clusters_partition _ _ _ _ _ Hcs)].
Qed.

(** C3. Non-termination, exactly: on a non-empty array, the condenser
    runs forever, with any fuel, if and only if some point has a NaN
    coordinate.  Such a point is never removed from [POINTS], so the
    outer loop never ends; without one, the call returns (C1). *)
Theorem condense_nan_diverges (points : list Point) (s : store) :
  points <> [] ->
  (forall fuel, condensePointsByScanRadius_fuel SCAN_RADIUS RADIUS_INCREASE fuel points s = Diverge)
  <-> exists q, In q points /\ noNaN q = false.
Proof.
  intros Hne. split.
  - intros H. destruct (forallb noNaN points) eqn:Hn; [|exact (forallb_false_exists _ _ Hn)].
    destruct (condense_returns points s Hne Hn) as [cs E].
    unfold condensePointsByScanRadius in E. rewrite H in E. discriminate.
  - intros (q & Hq & Hnan) fuel. rewrite condense_fuel_clusters.
    now rewrite (clusters_nan_diverge _ _ fuel points q Hq Hnan).
Qed.

(** C4. The recorded radius of each entry is [SCAN_RADIUS] plus
    [RADIUS_INCREASE] once per scan that found points (added in the
    code's order): the entries are those of the reference's clusters on
    the input, the radius is [SCAN_RADIUS] itself exactly when the seed
    absorbed no other point, and there were no more successful scans
    than points absorbed besides the seed. *)
Theorem condense_radius (points : list Point) (s : store) m s' :
  condensePointsByScanRadius SCAN_RADIUS RADIUS_INCREASE points s = Normal (m, s') ->
  exists cs, clusters SCAN_RADIUS RADIUS_INCREASE (S (S (length points))) points = Normal cs /\
             m = entries_of (heap s) cs /\ radii_recorded SCAN_RADIUS RADIUS_INCREASE cs.
Proof.
  intros H. destruct (condense_normal_inv points s m s' H) as (cs & Hcs & -> & _).
  exists cs. split; [exact Hcs|split; [reflexivity|exact (clusters_radius _ _ _ _ _ Hcs)]].
Qed.

(** C5. The last scan of a cluster, at its recorded radius, found
    nothing: the entries are those of the reference's clusters on the
    input, and no member of a later cluster lies within the recorded
    radius of an earlier cluster's seed. *)
Theorem condense_maximal (points : list Point) (s : store) m s' :
  condensePointsByScanRadius SCAN_RADIUS RADIUS_INCREASE points s = Normal (m, s') ->
  exists cs, clusters SCAN_RADIUS RADIUS_INCREASE (S (S (length points))) points = Normal cs /\
             m = entries_of (heap s) cs /\ maximal cs.
Proof.
  intros H. destruct (condense_normal_inv points s m s' H) as (cs & Hcs & -> & _).
  exists cs. split; [exact Hcs|split; [reflexivity|exact (clusters_maximal _ _ _ _ _ Hcs)]].
Qed.

(** C6. The fuel is enough: any fuel from [length points + 2] on gives
    the same outcome, returned, thrown or diverging. *)
Theorem condense_fuel_adequate (points : list Point) (s : store) (fuel : nat) :
  S (S (length points)) <= fuel ->
  condensePointsByScanRadius_fuel SCAN_RADIUS RADIUS_INCREASE fuel points s =
  condensePointsByScanRadius SCAN_RADIUS RADIUS_INCREASE points s.
Proof.
  intros Hf. unfold condensePointsByScanRadius. rewrite !condense_fuel_clusters.
  destruct points as [|p tl]; [destruct fuel as [|[|]]; [lia|lia|reflexivity]|].
  destruct (forallb noNaN (p :: tl)) eqn:Hnan.
  - destruct (clusters_total SCAN_RADIUS RADIUS_INCREASE (S (S (length (p :: tl)))) (p :: tl)
                ltac:(discriminate) Hnan ltac:(lia)) as [cs Hcs].
    rewrite Hcs, (clusters_fuel_mono _ _ _ _ _ _ Hf Hcs ltac:(discriminate)). reflexivity.
  - destruct (forallb_false_exists _ _ Hnan) as (q & Hq & Hqn).
    now rewrite !(clusters_nan_diverge _ _ _ _ q Hq Hqn).
Qed.

(** C7. The keys of the returned [Map] are the objects the call
    allocated, one per entry, in insertion order; so they are pairwise
    distinct even when two centers have equal coordinates.  [POINTS] is
    left empty. *)
Theorem condense_map_keys (points : list Point) (s : store) m s' :
  condensePointsByScanRadius SCAN_RADIUS RADIUS_INCREASE points s = Normal (m, s') ->
  map (fun e => oid (fst e)) m = seq (heap s) (Map_size m) /\
  s' = mkStore [] (heap s + Map_size m).
Proof.
  intros H. destruct (condense_normal_inv points s m s' H) as (cs & _ & -> & ->).
  unfold Map_size. rewrite length_entries_of. split; [apply entries_of_keys|reflexivity].
Qed.

(** The reference on a point followed by points coordinate-equal to it:
    the seed removes them all and the shortcut makes one cluster. *)
Lemma clusters_copies (fuel : nat) (p : Point) (tl : list Point) :
  noNaN p = true -> forallb (fun q => equals q p) tl = true ->
  clusters SCAN_RADIUS RADIUS_INCREASE (S fuel) (p :: tl) = Normal [mkCluster [p] SCAN_RADIUS].
Proof.
  intros Hp Htl. simpl.
  replace (withoutSeed p (p :: tl)) with (@nil Point); [reflexivity|].
  unfold withoutSeed. simpl. rewrite (equals_refl p Hp). simpl.
  symmetry. apply filter_all_false. intros q Hq.
  rewrite forallb_forall in Htl. now rewrite (Htl q Hq).
Qed.

(** C8. A single point without NaN coordinates gives one entry: a new
    center with the coordinates [calculateCenter] computes for it, and
    radius [SCAN_RADIUS] (the shortcut of [findNextPointsToCondense]). *)
Theorem condense_single (p : Point) (s : store) :
  noNaN p = true ->
  condensePointsByScanRadius SCAN_RADIUS RADIUS_INCREASE [p] s =
  Normal ([(mkObj (heap s) (centerOf [p]), SCAN_RADIUS)], mkStore [] (S (heap s))).
Proof.
  intros Hp. unfold condensePointsByScanRadius. rewrite condense_fuel_clusters.
  rewrite (clusters_copies _ p [] Hp eq_refl). simpl. now rewrite Nat.add_1_r.
Qed.

(** C9. Coordinate-equal points collapse: after the seed, its copies
    are removed with it, and one entry is made, centered on the seed
    alone. *)
Theorem condense_coincident (p q : Point) (s : store) :
  noNaN p = true -> equals q p = true ->
  condensePointsByScanRadius SCAN_RADIUS RADIUS_INCREASE [p; q] s =
  Normal ([(mkObj (heap s) (centerOf [p]), SCAN_RADIUS)], mkStore [] (S (heap s))).
Proof.
  intros Hp Hq. unfold condensePointsByScanRadius. rewrite condense_fuel_clusters.
  rewrite (clusters_copies _ p [q] Hp); [|simpl; now rewrite Hq]. simpl. now rewrite Nat.add_1_r.
Qed.

(** C10. Two points farther apart than [SCAN_RADIUS] stay separate: two
    entries, each centered on its own point with radius [SCAN_RADIUS]. *)
Theorem condense_far_apart (p q : Point) (s : store) :
  noNaN p = true -> noNaN q = true -> equals q p = false ->
  isPointWithinRadius q p SCAN_RADIUS = false ->
  condensePointsByScanRadius SCAN_RADIUS RADIUS_INCREASE [p; q] s =
  Normal ([(mkObj (heap s) (centerOf [p]), SCAN_RADIUS);
           (mkObj (S (heap s)) (centerOf [q]), SCAN_RADIUS)], mkStore [] (S (S (heap s)))).
Proof.
  intros Hp Hq Hqp Hfar. unfold condensePointsByScanRadius. rewrite condense_fuel_clusters.
  assert (Hw : withoutSeed p [p; q] = [q]).
  { unfold withoutSeed. simpl. now rewrite (equals_refl p Hp), Hqp. }
  assert (Hw' : withoutSeed q [q] = []).
  { unfold withoutSeed. simpl. now rewrite (equals_refl q Hq). }
  simpl. rewrite Hw. simpl. unfold scanForPointsWithinRadius. simpl. rewrite Hfar. simpl.
  rewrite Hw'. simpl. now rewrite Nat.add_succ_r, Nat.add_1_r.
Qed.

(** C12. Copies of the seed count once, copies of any other point as
    often as they occur: when every point that is not a copy of the first
    lies within [SCAN_RADIUS] of it, the first scan absorbs them all, the
    scan one increment further finds nothing left, and the one entry is
    centered on the mean of the seed and of those points, duplicates
    included, with radius [SCAN_RADIUS + RADIUS_INCREASE].  So the same
    points give different centers in different orders. *)
Theorem condense_one_scan (a : Point) (l : list Point) (s : store) :
  noNaN a = true -> filter (fun p => notEquals p a) l <> [] ->
  Forall (fun p => isPointWithinRadius p a SCAN_RADIUS = true) (filter (fun p => notEquals p a) l) ->
  condensePointsByScanRadius SCAN_RADIUS RADIUS_INCREASE (a :: l) s =
  Normal ([(mkObj (heap s) (centerOf (a :: filter (fun p => notEquals p a) l)),
            (SCAN_RADIUS + RADIUS_INCREASE)%float)], mkStore [] (S (heap s))).
Proof.
  intros Ha Hne Hall. rewrite Forall_forall in Hall.
  set (W := filter (fun p => notEquals p a) l) in *.
  assert (G : grow RADIUS_INCREASE (S (S (length l))) a SCAN_RADIUS [a] (withoutSeed a (a :: l)) =
              Some (a :: W, (SCAN_RADIUS + RADIUS_INCREASE)%float, [])).
  { rewrite withoutSeed_notEquals by exact Ha. fold W.
    rewrite (grow_scan_found _ _ _ _ _ W); [|apply filter_all_true, forallb_forall; exact Hall|exact Hne].
    rewrite (filter_all_false _ W) by (intros p Hp; now rewrite Hall).
    now apply grow_scan_empty. }
  rewrite (condense_of_clusters _ _ [mkCluster (a :: W) (SCAN_RADIUS + RADIUS_INCREASE)%float]).
  - simpl. now rewrite Nat.add_1_r.
  - simpl length. rewrite (clusters_grown _ _ _ _ _ _ ltac:(rewrite (withoutSeed_notEquals a l Ha);
      exact Hne) G). reflexivity.
Qed.

(** C13. Growth is measured from the fixed seed, not from the points just
    found: a point [c] outside [SCAN_RADIUS + RADIUS_INCREASE] of the seed
    is not absorbed, however close it lies to the point [b] the first scan
    found; the seed's entry records the radius of the scan that found
    nothing, and [c] gets an entry of its own. *)
Theorem condense_fixed_seed (a b c : Point) (s : store) :
  noNaN a = true -> noNaN c = true -> equals b a = false -> equals c a = false ->
  isPointWithinRadius b a SCAN_RADIUS = true -> isPointWithinRadius c a SCAN_RADIUS = false ->
  isPointWithinRadius c a (SCAN_RADIUS + RADIUS_INCREASE)%float = false ->
  condensePointsByScanRadius SCAN_RADIUS RADIUS_INCREASE [a; b; c] s =
  Normal ([(mkObj (heap s) (centerOf [a; b]), (SCAN_RADIUS + RADIUS_INCREASE)%float);
           (mkObj (S (heap s)) (centerOf [c]), SCAN_RADIUS)], mkStore [] (S (S (heap s)))).
Proof.
  intros Ha Hc Eb Ec Wb Wc Wc'.
  assert (Hw : withoutSeed a [a; b; c] = [b; c]).
  { unfold withoutSeed. simpl. now rewrite (equals_refl a Ha), Eb, Ec. }
  assert (G : grow RADIUS_INCREASE 4 a SCAN_RADIUS [a] (withoutSeed a [a; b; c]) =
              Some ([a; b], (SCAN_RADIUS + RADIUS_INCREASE)%float, [c])).
  { rewrite Hw, (grow_scan_found _ _ _ _ _ [b]); [|unfold scanForPointsWithinRadius; simpl;
      now rewrite Wb, Wc|discriminate].
    simpl filter. rewrite Wb, Wc. apply grow_scan_empty. unfold scanForPointsWithinRadius.
    simpl. now rewrite Wc'. }
  rewrite (condense_of_clusters _ _ [mkCluster [a; b] (SCAN_RADIUS + RADIUS_INCREASE)%float;
                                     mkCluster [c] SCAN_RADIUS]).
  - simpl. now rewrite Nat.add_succ_r, Nat.add_1_r.
  - simpl length. rewrite (clusters_grown _ _ _ _ _ _ ltac:(rewrite Hw; discriminate) G).
    now rewrite (clusters_copies 3 c [] Hc eq_refl).
Qed.

(** C30. Chained growth: a point beyond [SCAN_RADIUS] of the seed but
    within [SCAN_RADIUS + RADIUS_INCREASE] is absorbed by the second scan,
    after a point the first scan found; the scan one increment further
    finds nothing, and the one entry has radius
    [SCAN_RADIUS + RADIUS_INCREASE + RADIUS_INCREASE].  A point exactly at
    [SCAN_RADIUS] is found by the first scan instead (C12): membership is
    inclusive. *)
Theorem condense_chained_growth (a b c : Point) (s : store) :
  noNaN a = true -> equals b a = false -> equals c a = false ->
  isPointWithinRadius b a SCAN_RADIUS = true -> isPointWithinRadius c a SCAN_RADIUS = false ->
  isPointWithinRadius c a (SCAN_RADIUS + RADIUS_INCREASE)%float = true ->
  condensePointsByScanRadius SCAN_RADIUS RADIUS_INCREASE [a; b; c] s =
  Normal ([(mkObj (heap s) (centerOf [a; b; c]),
            (SCAN_RADIUS + RADIUS_INCREASE + RADIUS_INCREASE)%float)], mkStore [] (S (heap s))).
Proof.
  intros Ha Eb Ec Wb Wc Wc'.
  assert (Hw : withoutSeed a [a; b; c] = [b; c]).
  { unfold withoutSeed. simpl. now rewrite (equals_refl a Ha), Eb, Ec. }
  assert (G : grow RADIUS_INCREASE 4 a SCAN_RADIUS [a] (withoutSeed a [a; b; c]) =
              Some ([a; b; c], (SCAN_RADIUS + RADIUS_INCREASE + RADIUS_INCREASE)%float, [])).
  { rewrite Hw, (grow_scan_found _ _ _ _ _ [b]); [|unfold scanForPointsWithinRadius; simpl;
      now rewrite Wb, Wc|discriminate].
    simpl filter. rewrite Wb, Wc.
    rewrite (grow_scan_found _ _ _ _ _ [c]); [|unfold scanForPointsWithinRadius; simpl;
      now rewrite Wc'|discriminate].
    simpl filter. rewrite Wc'. now apply grow_scan_empty. }
  rewrite (condense_of_clusters _ _
             [mkCluster [a; b; c] (SCAN_RADIUS + RADIUS_INCREASE + RADIUS_INCREASE)%float]).
  - simpl. now rewrite Nat.add_1_r.
  - simpl length. now rewrite (clusters_grown _ _ _ _ _ _ ltac:(rewrite Hw; discriminate) G).
Qed.

End Theorems.

(** C11. [removePoints] of the points a scan found leaves in [POINTS]
    exactly the points outside the scan radius: removal by coordinate
    equality agrees with the radius test, [-0] and [NaN] included. *)
Theorem removePoints_scan (s : store) (scanCenter : Point) (radius : number) :
  removePoints (scanForPointsWithinRadius (POINTS s) scanCenter radius) s =
  Normal (tt, mkStore (filter (fun p => negb (isPointWithinRadius p scanCenter radius)) (POINTS s))
                      (heap s)).
Proof. rewrite removePoints_run, filter_notInList_scan. reflexivity. Qed.

(** ** The radii are exact integers

    The design calls the recorded radius an integer; the code computes it
    in binary64 as [SCAN_RADIUS] plus [RADIUS_INCREASE] once per
    successful scan (C4).  With the constants of [lib/constants.js] these
    sums are checked exact, by computation, for up to 2^16 successful
    scans. *)






(** ** Witnesses *)

Lemma condense_terminates_witness :
  [mkPoint 0 0; mkPoint 3 0; mkPoint 100 0] <> [] /\
  forallb noNaN [mkPoint 0 0; mkPoint 3 0; mkPoint 100 0] = true /\
  exists m h, condensePointsByScanRadius Berlin.SCAN_RADIUS Berlin.RADIUS_INCREASE
                [mkPoint 0 0; mkPoint 3 0; mkPoint 100 0] (mkStore [] 0) = Normal (m, mkStore [] h).
Proof.
  split; [discriminate|]. split; [vm_compute; reflexivity|].
  apply condense_terminates; [discriminate|vm_compute; reflexivity].
Defined.

Lemma condense_partition_witness :
  exists m s', condensePointsByScanRadius Berlin.SCAN_RADIUS Berlin.RADIUS_INCREASE
                 [mkPoint 0 0; mkPoint 3 0; mkPoint 3 0; mkPoint 100 0] (mkStore [] 0) = Normal (m, s') /\
  exists cs, m = entries_of 0 cs /\ partition [mkPoint 0 0; mkPoint 3 0; mkPoint 3 0; mkPoint 100 0] cs.
Proof.
  eexists _, _.
  match goal with |- ?E /\ _ => assert (H : E) by (vm_compute; reflexivity) end.
  split; [exact H|exact (condense_partition _ _ _ _ _ _ H)].
Defined.

Lemma condense_nan_diverges_witness :
  [mkPoint 0 0; mkPoint nan 0] <> [] /\
  ((forall fuel, condensePointsByScanRadius_fuel Berlin.SCAN_RADIUS Berlin.RADIUS_INCREASE fuel
                   [mkPoint 0 0; mkPoint nan 0] (mkStore [] 0) = Diverge) <->
   exists q, In q [mkPoint 0 0; mkPoint nan 0] /\ noNaN q = false).
Proof.
  assert (H : [mkPoint 0 0; mkPoint nan 0] <> []) by discriminate.
  split; [exact H|exact (condense_nan_diverges _ _ _ _ H)].
Defined.

Lemma condense_radius_witness :
  exists m s', condensePointsByScanRadius Berlin.SCAN_RADIUS Berlin.RADIUS_INCREASE
                 [mkPoint 0 0; mkPoint 4 0; mkPoint 6 0; mkPoint 9 0] (mkStore [] 0) = Normal (m, s') /\
  exists cs, clusters Berlin.SCAN_RADIUS Berlin.RADIUS_INCREASE 6
               [mkPoint 0 0; mkPoint 4 0; mkPoint 6 0; mkPoint 9 0] = Normal cs /\
             m = entries_of 0 cs /\ radii_recorded Berlin.SCAN_RADIUS Berlin.RADIUS_INCREASE cs.
Proof.
  eexists _, _.
  match goal with |- ?E /\ _ => assert (H : E) by (vm_compute; reflexivity) end.
  split; [exact H|exact (condense_radius _ _ _ _ _ _ H)].
Defined.

Lemma condense_maximal_witness :
  exists m s', condensePointsByScanRadius Berlin.SCAN_RADIUS Berlin.RADIUS_INCREASE
                 [mkPoint 0 0; mkPoint 4 0; mkPoint 6 0; mkPoint 9 0] (mkStore [] 0) = Normal (m, s') /\
  exists cs, clusters Berlin.SCAN_RADIUS Berlin.RADIUS_INCREASE 6
               [mkPoint 0 0; mkPoint 4 0; mkPoint 6 0; mkPoint 9 0] = Normal cs /\
             m = entries_of 0 cs /\ maximal cs.
Proof.
  eexists _, _.
  match goal with |- ?E /\ _ => assert (H : E) by (vm_compute; reflexivity) end.
  split; [exact H|exact (condense_maximal _ _ _ _ _ _ H)].
Defined.

Lemma condense_fuel_adequate_witness :
  S (S (length [mkPoint 0 0; mkPoint 3 0])) <= 10 /\
  condensePointsByScanRadius_fuel Berlin.SCAN_RADIUS Berlin.RADIUS_INCREASE 10
    [mkPoint 0 0; mkPoint 3 0] (mkStore [] 0) =
  condensePointsByScanRadius Berlin.SCAN_RADIUS Berlin.RADIUS_INCREASE
    [mkPoint 0 0; mkPoint 3 0] (mkStore [] 0).
Proof. split; [simpl; lia|]. apply condense_fuel_adequate. simpl. lia. Defined.

Lemma condense_map_keys_witness :
  exists m s', condensePointsByScanRadius Berlin.SCAN_RADIUS Berlin.RADIUS_INCREASE
                 [mkPoint 0 0; mkPoint 100 0; mkPoint 0 0] (mkStore [] 5) = Normal (m, s') /\
  map (fun e => oid (fst e)) m = seq 5 (Map_size m) /\ s' = mkStore [] (5 + Map_size m).
Proof.
  eexists _, _.
  match goal with |- ?E /\ _ => assert (H : E) by (vm_compute; reflexivity) end.
  split; [exact H|exact (condense_map_keys _ _ _ _ _ _ H)].
Defined.

Lemma condense_single_witness :
  noNaN (mkPoint 1 2) = true /\
  condensePointsByScanRadius Berlin.SCAN_RADIUS Berlin.RADIUS_INCREASE [mkPoint 1 2] (mkStore [] 0) =
  Normal ([(mkObj 0 (centerOf [mkPoint 1 2]), Berlin.SCAN_RADIUS)], mkStore [] 1).
Proof. split; [vm_compute; reflexivity|]. apply condense_single. vm_compute. reflexivity. Defined.

Lemma condense_coincident_witness :
  noNaN (mkPoint 1 2) = true /\ equals (mkPoint 1 2) (mkPoint 1 2) = true /\
  condensePointsByScanRadius Berlin.SCAN_RADIUS Berlin.RADIUS_INCREASE
    [mkPoint 1 2; mkPoint 1 2] (mkStore [] 0) =
  Normal ([(mkObj 0 (centerOf [mkPoint 1 2]), Berlin.SCAN_RADIUS)], mkStore [] 1).
Proof.
  split; [vm_compute; reflexivity|]. split; [vm_compute; reflexivity|].
  apply condense_coincident; vm_compute; reflexivity.
Defined.

Lemma condense_far_apart_witness :
  noNaN (mkPoint 0 0) = true /\ noNaN (mkPoint 100 0) = true /\
  equals (mkPoint 100 0) (mkPoint 0 0) = false /\
  isPointWithinRadius (mkPoint 100 0) (mkPoint 0 0) Berlin.SCAN_RADIUS = false /\
  condensePointsByScanRadius Berlin.SCAN_RADIUS Berlin.RADIUS_INCREASE
    [mkPoint 0 0; mkPoint 100 0] (mkStore [] 0) =
  Normal ([(mkObj 0 (centerOf [mkPoint 0 0]), Berlin.SCAN_RADIUS);
           (mkObj 1 (centerOf [mkPoint 100 0]), Berlin.SCAN_RADIUS)], mkStore [] 2).
Proof.
  split; [vm_compute; reflexivity|]. split; [vm_compute; reflexivity|].
  split; [vm_compute; reflexivity|]. split; [vm_compute; reflexivity|].
  apply condense_far_apart; vm_compute; reflexivity.
Defined.

(** Copies of the seed count once, copies of [(3, 0)] twice: the center
    is [(2, 0)]. *)
Lemma condense_one_scan_witness :
  noNaN (mkPoint 0 0) = true /\
  filter (fun p => notEquals p (mkPoint 0 0)) [mkPoint 3 0; mkPoint 0 0; mkPoint 3 0] <> [] /\
  Forall (fun p => isPointWithinRadius p (mkPoint 0 0) Berlin.SCAN_RADIUS = true)
    (filter (fun p => notEquals p (mkPoint 0 0)) [mkPoint 3 0; mkPoint 0 0; mkPoint 3 0]) /\
  condensePointsByScanRadius Berlin.SCAN_RADIUS Berlin.RADIUS_INCREASE
    [mkPoint 0 0; mkPoint 3 0; mkPoint 0 0; mkPoint 3 0] (mkStore [] 0) =
  Normal ([(mkObj 0 (centerOf (mkPoint 0 0 :: filter (fun p => notEquals p (mkPoint 0 0))
                                                 [mkPoint 3 0; mkPoint 0 0; mkPoint 3 0])),
            (Berlin.SCAN_RADIUS + Berlin.RADIUS_INCREASE)%float)], mkStore [] 1).
Proof.
  assert (H1 : noNaN (mkPoint 0 0) = true) by (vm_compute; reflexivity).
  assert (H2 : filter (fun p => notEquals p (mkPoint 0 0)) [mkPoint 3 0; mkPoint 0 0; mkPoint 3 0] <> [])
    by (vm_compute; discriminate).
  assert (H3 : Forall (fun p => isPointWithinRadius p (mkPoint 0 0) Berlin.SCAN_RADIUS = true)
    (filter (fun p => notEquals p (mkPoint 0 0)) [mkPoint 3 0; mkPoint 0 0; mkPoint 3 0]))
    by (vm_compute; repeat constructor).
  split; [exact H1|split; [exact H2|split; [exact H3|]]].
  exact (condense_one_scan _ _ _ _ _ H1 H2 H3).
Defined.

Lemma condense_fixed_seed_witness :
  noNaN (mkPoint 0 0) = true /\ noNaN (mkPoint 7 0) = true /\
  equals (mkPoint 4 0) (mkPoint 0 0) = false /\ equals (mkPoint 7 0) (mkPoint 0 0) = false /\
  isPointWithinRadius (mkPoint 4 0) (mkPoint 0 0) Berlin.SCAN_RADIUS = true /\
  isPointWithinRadius (mkPoint 7 0) (mkPoint 0 0) Berlin.SCAN_RADIUS = false /\
  isPointWithinRadius (mkPoint 7 0) (mkPoint 0 0) (Berlin.SCAN_RADIUS + Berlin.RADIUS_INCREASE)%float
    = false /\
  condensePointsByScanRadius Berlin.SCAN_RADIUS Berlin.RADIUS_INCREASE
    [mkPoint 0 0; mkPoint 4 0; mkPoint 7 0] (mkStore [] 0) =
  Normal ([(mkObj 0 (centerOf [mkPoint 0 0; mkPoint 4 0]),
            (Berlin.SCAN_RADIUS + Berlin.RADIUS_INCREASE)%float);
           (mkObj 1 (centerOf [mkPoint 7 0]), Berlin.SCAN_RADIUS)], mkStore [] 2).
Proof.
  do 7 (split; [vm_compute; reflexivity|]).
  apply condense_fixed_seed; vm_compute; reflexivity.
Defined.

Lemma condense_chained_growth_witness :
  noNaN (mkPoint 0 0) = true /\
  equals (mkPoint 3 0) (mkPoint 0 0) = false /\ equals (mkPoint 5 0) (mkPoint 0 0) = false /\
  isPointWithinRadius (mkPoint 3 0) (mkPoint 0 0) Berlin.SCAN_RADIUS = true /\
  isPointWithinRadius (mkPoint 5 0) (mkPoint 0 0) Berlin.SCAN_RADIUS = false /\
  isPointWithinRadius (mkPoint 5 0) (mkPoint 0 0) (Berlin.SCAN_RADIUS + Berlin.RADIUS_INCREASE)%float
    = true /\
  condensePointsByScanRadius Berlin.SCAN_RADIUS Berlin.RADIUS_INCREASE
    [mkPoint 0 0; mkPoint 3 0; mkPoint 5 0] (mkStore [] 0) =
  Normal ([(mkObj 0 (centerOf [mkPoint 0 0; mkPoint 3 0; mkPoint 5 0]),
            (Berlin.SCAN_RADIUS + Berlin.RADIUS_INCREASE + Berlin.RADIUS_INCREASE)%float)],
          mkStore [] 1).
Proof.
  do 6 (split; [vm_compute; reflexivity|]).
  apply condense_chained_growth; vm_compute; reflexivity.
Defined.

