(* ===== verification/Machine.v ===== *)
(** * The condenser as a state machine

    [condensePointsByScanRadius] as a small-step transition system whose
    states are the control points of the code: the head of
    [while (keepCondensing)] ([Condensing]), the head of
    [while (keepScanning)] in [findNextPointsToCondense] ([Scanning], the
    GROWING state of the design notes), the return of
    [findNextPointsToCondense] ([Found]), the return of the function
    ([Finished]) and an uncaught exception ([Crashed]).  Each rule of
    [step] is one stretch of straight-line code between two of these
    points, with the guards of its [if]s.

    The lemmas: the relation is deterministic and only [Finished] and
    [Crashed] are final; the monadic code refines it (every result of
    [condensePointsByScanRadius] is the final state of a run of the
    machine, every exception a crash of it) and conversely (a run that
    finishes had no NaN in its input, since a point with a NaN coordinate
    is never removed, so the code's fuel suffices and the code returns
    that final state); and, by rule induction over the reachable states,
    the invariants of the design: [POINTS] is always the input with points
    deleted, absorbed points are never pending again, the [Map]'s keys are
    the fresh objects in allocation order, [undefined] reaches
    [calculateCenter] only on empty input; and every step from NaN-free
    pending points decreases a variant.  The claims built on them are in
    [MachineTheorems]. *)

From Stdlib Require Import List Bool Arith Lia.
From Stdlib Require Import Floats.
From S2P Require Import Prelude JsNumber Points Condense ClusterSpec Refinement CondenseTheorems.
Import ListNotations.
Local Open Scope js_scope.

(** The control points of [condensePointsByScanRadius], with the live
    variables at each. *)
Inductive cstate : Type :=
| Condensing (condensedCenters : JSMap) (s : store)
| Scanning (scanCenter : Point) (totalFoundPoints : list Point)
           (currentScanRadius : number) (condensedCenters : JSMap) (s : store)
| Found (condensedPointsObj : FoundObj) (condensedCenters : JSMap) (s : store)
| Finished (condensedCenters : JSMap) (s : store)
| Crashed (e : js_error).

Section Machine.
Variables SCAN_RADIUS RADIUS_INCREASE : number.

(** One stretch of the code between two control points. *)
Inductive step : cstate -> cstate -> Prop :=
(** [POINTS[0]] is [undefined]: [removePoint] filters the empty array and
    the shortcut returns [[undefined]]. *)
| step_no_seed (cc : JSMap) (s : store) :
    POINTS s = [] ->
    step (Condensing cc s) (Found (mkFound [None] SCAN_RADIUS) cc s)
(** [removePoint(scanCenter)], then the shortcut [if (isEmpty(POINTS))]. *)
| step_shortcut (cc : JSMap) (s : store) (scanCenter : Point) (rest : list Point) :
    POINTS s = scanCenter :: rest ->
    isEmpty (filter (fun p => notEquals p scanCenter) (POINTS s)) = true ->
    step (Condensing cc s)
         (Found (mkFound [Some scanCenter] SCAN_RADIUS) cc
                (mkStore (filter (fun p => notEquals p scanCenter) (POINTS s)) (heap s)))
(** [removePoint(scanCenter)], then the initialisation of the scan. *)
| step_start_scan (cc : JSMap) (s : store) (scanCenter : Point) (rest : list Point) :
    POINTS s = scanCenter :: rest ->
    isEmpty (filter (fun p => notEquals p scanCenter) (POINTS s)) = false ->
    step (Condensing cc s)
         (Scanning scanCenter [scanCenter] SCAN_RADIUS cc
                   (mkStore (filter (fun p => notEquals p scanCenter) (POINTS s)) (heap s)))
(** A scan that found nothing ends the inner loop. *)
| step_scan_done (scanCenter : Point) (total : list Point) (r : number) (cc : JSMap) (s : store) :
    Nat.eqb (length (scanForPointsWithinRadius (POINTS s) scanCenter r)) 0 = true ->
    step (Scanning scanCenter total r cc s)
         (Found (mkFound (map Some (total ++ scanForPointsWithinRadius (POINTS s) scanCenter r)) r)
                cc s)
(** A scan that found points removes them and widens the radius. *)
| step_scan_grow (scanCenter : Point) (total : list Point) (r : number) (cc : JSMap) (s : store) :
    Nat.eqb (length (scanForPointsWithinRadius (POINTS s) scanCenter r)) 0 = false ->
    step (Scanning scanCenter total r cc s)
         (Scanning scanCenter (total ++ scanForPointsWithinRadius (POINTS s) scanCenter r)
                   (r + RADIUS_INCREASE)%float cc
                   (mkStore (filter (fun p => notInList (scanForPointsWithinRadius (POINTS s) scanCenter r) p)
                                    (POINTS s)) (heap s)))
(** [calculateCenter], [condensedCenters.set], and [POINTS] is empty. *)
| step_center_stop (fo : FoundObj) (cc : JSMap) (s s' : store) (center : PointObj) :
    calculateCenter (allFoundPoints fo) s = Normal (center, s') ->
    Nat.eqb (length (POINTS s')) 0 = true ->
    step (Found fo cc s) (Finished (Map_set cc center (radius fo)) s')
(** [calculateCenter], [condensedCenters.set], and the loop goes on. *)
| step_center_next (fo : FoundObj) (cc : JSMap) (s s' : store) (center : PointObj) :
    calculateCenter (allFoundPoints fo) s = Normal (center, s') ->
    Nat.eqb (length (POINTS s')) 0 = false ->
    step (Found fo cc s) (Condensing (Map_set cc center (radius fo)) s')
(** [calculateCenter] throws. *)
| step_center_throw (fo : FoundObj) (cc : JSMap) (s : store) (e : js_error) :
    calculateCenter (allFoundPoints fo) s = Throw e ->
    step (Found fo cc s) (Crashed e).

(** [POINTS = [...points]; let condensedCenters = new Map();]. *)
Definition init (points : list Point) (s : store) : cstate :=
  Condensing [] (mkStore points (heap s)).

(** The states a run on [points] from the store [s] passes through. *)
Definition reachable (points : list Point) (s : store) (c : cstate) : Prop :=
  star step (init points s) c.

End Machine.

(** ** Helpers: the code between two control points *)

Lemma sumLoop_result (l : list (option Point)) (xs ys : number) (s : store) :
  (exists sums, sumLoop l xs ys s = Normal (sums, s)) \/
  (In None l /\ sumLoop l xs ys s = Throw TypeError_undefined_property).
Proof.
  revert xs ys. induction l as [|o l IH]; intros xs ys; [left; eexists; reflexivity|].
  destruct o as [p|]; simpl; [|auto].
  destruct (IH (xs + x p)%float (ys + y p)%float) as [H|[H1 H2]]; auto.
Qed.

(** [calculateCenter] either allocates the next object and leaves
    [POINTS] alone, or throws because its argument holds [undefined]. *)
Lemma calculateCenter_cases (l : list (option Point)) (s : store) :
  (exists q, calculateCenter l s = Normal (mkObj (heap s) q, mkStore (POINTS s) (S (heap s)))) \/
  (In None l /\ calculateCenter l s = Throw TypeError_undefined_property).
Proof.
  unfold calculateCenter.
  destruct (sumLoop_result l 0%float 0%float s) as [[[xs ys] H]|[Hin H]].
  - left. rewrite (bind_normal _ _ _ _ _ H). eexists. reflexivity.
  - right. split; [exact Hin|]. now rewrite (bind_throw _ _ _ _ H).
Qed.

Lemma step_det (SR RI : number) (a b c : cstate) :
  step SR RI a b -> step SR RI a c -> b = c.
Proof.
  intros Hb Hc. destruct Hb; inversion Hc; subst; try congruence;
    match goal with
    | H1 : POINTS ?s = _ :: _, H2 : POINTS ?s = _ :: _ |- _ =>
        rewrite H1 in H2; injection H2 as <- <-; congruence
    end.
Qed.

Lemma Finished_irreducible (SR RI : number) (m : JSMap) (s : store) :
  irreducible (step SR RI) (Finished m s).
Proof. intros c H. inversion H. Qed.

Lemma Crashed_irreducible (SR RI : number) (e : js_error) :
  irreducible (step SR RI) (Crashed e).
Proof. intros c H. inversion H. Qed.

#[export] Hint Resolve Finished_irreducible Crashed_irreducible : condense.

(** ** The code refines the machine *)

Section Simulation.
Variables SCAN_RADIUS RADIUS_INCREASE : number.

Local Abbreviation step := (step SCAN_RADIUS RADIUS_INCREASE).

(** A run of the inner loop that returns is a run of the machine from
    [Scanning] to [Found]. *)
Lemma scanLoop_star (fuel : nat) (scanCenter : Point) (r : number) (total : list Point)
  (cc : JSMap) (s s' : store) (res : list Point * number) :
  scanLoop RADIUS_INCREASE fuel scanCenter r total s = Normal (res, s') ->
  star step (Scanning scanCenter total r cc s) (Found (mkFound (map Some (fst res)) (snd res)) cc s').
Proof.
  revert r total s. induction fuel as [|fuel IH]; intros r total s H; [discriminate|].
  cbn [scanLoop] in H. unfold getPOINTS, removePoints, setPOINTS in H. js_unfold.
  destruct (Nat.eqb (length (scanForPointsWithinRadius (POINTS s) scanCenter r)) 0) eqn:E.
  - injection H as <- <-. apply star_one. now apply step_scan_done.
  - eapply star_step; [now apply step_scan_grow|]. exact (IH _ _ _ H).
Qed.

(** The inner loop never throws. *)
Lemma scanLoop_no_throw (fuel : nat) (scanCenter : Point) (r : number) (total : list Point)
  (s : store) (e : js_error) :
  scanLoop RADIUS_INCREASE fuel scanCenter r total s <> Throw e.
Proof.
  revert r total s. induction fuel as [|fuel IH]; intros r total s; [discriminate|].
  cbn [scanLoop]. unfold getPOINTS, removePoints, setPOINTS. js_unfold.
  destruct (Nat.eqb _ 0); [discriminate|apply IH].
Qed.

(** A call of [findNextPointsToCondense] that returns is a run from
    [Condensing] to [Found]; it never throws. *)
Lemma findNext_star (fuel : nat) (cc : JSMap) (s s' : store) (fo : FoundObj) :
  findNextPointsToCondense SCAN_RADIUS RADIUS_INCREASE fuel s = Normal (fo, s') ->
  star step (Condensing cc s) (Found fo cc s').
Proof.
  unfold findNextPointsToCondense, removePoint, getPOINTS, setPOINTS. js_unfold.
  destruct (POINTS s) as [|seed rest] eqn:Hs; intros H.
  - injection H as <- <-. apply star_one. now apply step_no_seed.
  - cbn [POINTS heap] in H.
    pose proof (step_shortcut SCAN_RADIUS RADIUS_INCREASE cc s seed rest Hs) as Hsh.
    pose proof (step_start_scan SCAN_RADIUS RADIUS_INCREASE cc s seed rest Hs) as Hst.
    destruct (isEmpty (filter (fun p => notEquals p seed) (POINTS s))) eqn:E;
      cbv beta iota in H.
    + injection H as <- <-. exact (star_one _ _ _ (Hsh eq_refl)).
    + eapply star_step; [exact (Hst eq_refl)|].
      destruct (scanLoop _ _ _ _ _ _) as [[[tot r'] s1]| |] eqn:Hl; try discriminate.
      injection H as <- <-. exact (scanLoop_star _ _ _ _ _ _ _ (tot, r') Hl).
Qed.

Lemma findNext_no_throw (fuel : nat) (s : store) (e : js_error) :
  findNextPointsToCondense SCAN_RADIUS RADIUS_INCREASE fuel s <> Throw e.
Proof.
  unfold findNextPointsToCondense, removePoint, getPOINTS, setPOINTS. js_unfold.
  destruct (POINTS s) as [|seed rest]; [discriminate|]. cbn [POINTS heap].
  destruct (isEmpty _); [discriminate|].
  destruct (scanLoop _ _ _ _ _ _) as [[[tot r'] s1]|e'|] eqn:Hl; try discriminate.
  intros [= ->]. exact (scanLoop_no_throw _ _ _ _ _ _ Hl).
Qed.

(** The outer loop: a result is a run to [Finished], an exception a run
    to [Crashed]. *)
Lemma condenseLoop_star (fuel : nat) (cc : JSMap) (s : store) :
  (forall m s', condenseLoop SCAN_RADIUS RADIUS_INCREASE fuel cc s = Normal (m, s') ->
                star step (Condensing cc s) (Finished m s')) /\
  (forall e, condenseLoop SCAN_RADIUS RADIUS_INCREASE fuel cc s = Throw e ->
             star step (Condensing cc s) (Crashed e)).
Proof.
  revert cc s. induction fuel as [|fuel IH]; intros cc s; [split; discriminate|].
  cbn [condenseLoop].
  destruct (findNextPointsToCondense SCAN_RADIUS RADIUS_INCREASE fuel s) as [[fo s1]|e|] eqn:Hf;
    [|exfalso; exact (findNext_no_throw _ _ _ Hf)
     |rewrite (bind_diverge _ _ _ Hf); split; discriminate].
  rewrite (bind_normal _ _ _ _ _ Hf).
  pose proof (findNext_star fuel cc _ _ _ Hf) as Hrun.
  destruct (calculateCenter_cases (allFoundPoints fo) s1) as [[q Hc]|[_ Hc]].
  - rewrite (bind_normal _ _ _ _ _ Hc). unfold getPOINTS, bind, get, ret. cbv beta iota.
    cbn [POINTS heap]. destruct (Nat.eqb (length (POINTS s1)) 0) eqn:E.
    + split; [|discriminate]. intros m s' [= <- <-].
      eapply star_trans; [exact Hrun|]. apply star_one. now apply (step_center_stop _ _ _ _ _ _ _ Hc).
    + destruct (IH (Map_set cc (mkObj (heap s1) q) (radius fo)) (mkStore (POINTS s1) (S (heap s1))))
        as [IHn IHt].
      split; [intros m s' H|intros e H]; (eapply star_trans; [exact Hrun|]);
        (eapply star_step; [now apply (step_center_next _ _ _ _ _ _ _ Hc)|]); auto.
  - rewrite (bind_throw _ _ _ _ Hc). split; [discriminate|]. intros e [= <-].
    eapply star_trans; [exact Hrun|]. apply star_one. now apply step_center_throw.
Qed.
End Simulation.

(** ** Invariants of the reachable states *)

(** The pending points: [POINTS] in the store of the state. *)
Definition pending (c : cstate) : list Point :=
  match c with
  | Condensing _ s | Scanning _ _ _ _ s | Found _ _ s | Finished _ s => POINTS s
  | Crashed _ => []
  end.

(** The [Map]'s keys are the objects allocated since the start, in
    allocation order, and the heap is past the last of them. *)
Definition keys_fresh (h0 : nat) (cc : JSMap) (s : store) : Prop :=
  map (fun e => oid (fst e)) cc = seq h0 (length cc) /\ heap s = h0 + length cc.

(** No pending point equals an absorbed one. *)
Definition absorbed_gone (pts total : list Point) : Prop :=
  forall p q, In p pts -> In q total -> equals p q = false.

(** The invariant of a run on [points] that started with heap [h0]. *)
Definition inv (points : list Point) (h0 : nat) (c : cstate) : Prop :=
  match c with
  | Condensing cc s =>
      subseq (POINTS s) points /\ keys_fresh h0 cc s /\ (POINTS s = [] -> points = [] /\ cc = [])
  | Scanning _ total _ cc s =>
      subseq (POINTS s) points /\ keys_fresh h0 cc s /\ absorbed_gone (POINTS s) total
  | Found fo cc s =>
      subseq (POINTS s) points /\ keys_fresh h0 cc s /\
      (In None (allFoundPoints fo) -> points = [] /\ cc = [])
  | Finished cc s => POINTS s = [] /\ keys_fresh h0 cc s
  | Crashed e => points = [] /\ e = TypeError_undefined_property
  end.

Lemma calculateCenter_normal (l : list (option Point)) (s s' : store) (c : PointObj) :
  calculateCenter l s = Normal (c, s') ->
  oid c = heap s /\ s' = mkStore (POINTS s) (S (heap s)).
Proof.
  intros H. destruct (calculateCenter_cases l s) as [[q Hc]|[_ Hc]]; rewrite Hc in H;
    [injection H as <- <-; auto|discriminate].
Qed.

Lemma calculateCenter_throw (l : list (option Point)) (s : store) (e : js_error) :
  calculateCenter l s = Throw e -> In None l /\ e = TypeError_undefined_property.
Proof.
  intros H. destruct (calculateCenter_cases l s) as [[q Hc]|[Hin Hc]]; [congruence|].
  rewrite Hc in H. injection H as <-. auto.
Qed.

(** [condensedCenters.set] with the object [calculateCenter] just
    allocated appends a fresh key. *)
Lemma keys_fresh_set (h0 : nat) (cc : JSMap) (s : store) (c : PointObj) (v : number) (pts : list Point) :
  keys_fresh h0 cc s -> oid c = heap s ->
  keys_fresh h0 (Map_set cc c v) (mkStore pts (S (heap s))).
Proof.
  intros [Hk Hh] Hc. rewrite Map_set_fresh.
  - unfold keys_fresh. rewrite map_app, Hk, length_app. cbn [map fst length heap]. split.
    + rewrite Nat.add_1_r, seq_S, Hc, Hh. reflexivity.
    + rewrite Hh. lia.
  - intros e He. apply (in_map (fun e => oid (fst e))) in He. rewrite Hk, in_seq in He. lia.
Qed.

Lemma absorbed_gone_seed (pts : list Point) (seed : Point) :
  absorbed_gone (filter (fun p => notEquals p seed) pts) [seed].
Proof.
  intros p q Hp [<-|[]]. apply filter_In in Hp. rewrite notEquals_equals in Hp.
  now destruct (equals p seed).
Qed.

Lemma absorbed_gone_scan (pts total temp : list Point) :
  absorbed_gone pts total ->
  absorbed_gone (filter (fun p => notInList temp p) pts) (total ++ temp).
Proof.
  intros H p q Hp Hq. apply filter_In in Hp as [Hp Hn].
  apply in_app_or in Hq as [Hq|Hq]; [exact (H _ _ Hp Hq)|].
  exact (proj1 (notInList_spec temp p) Hn q Hq).
Qed.

Lemma None_not_in_map (l : list Point) : ~ In None (map Some l).
Proof. rewrite in_map_iff. intros (p & H & _). discriminate. Qed.

Lemma inv_step (SR RI : number) (points : list Point) (h0 : nat) (c c' : cstate) :
  inv points h0 c -> step SR RI c c' -> inv points h0 c'.
Proof.
  intros Hinv Hstep. destruct Hstep; cbn [inv POINTS heap allFoundPoints] in *.
  - destruct Hinv as (Hsub & Hk & He). auto.
  - destruct Hinv as (Hsub & Hk & _). refine (conj _ (conj Hk _)); [auto with condense|].
    intros [Hx|[]]; discriminate.
  - destruct Hinv as (Hsub & Hk & _). refine (conj _ (conj Hk _)); [auto with condense|].
    apply absorbed_gone_seed.
  - destruct Hinv as (Hsub & Hk & _). refine (conj Hsub (conj Hk _)).
    intros Hx. exfalso. exact (None_not_in_map _ Hx).
  - destruct Hinv as (Hsub & Hk & Hg). refine (conj _ (conj Hk _)); [auto with condense|].
    now apply absorbed_gone_scan.
  - destruct Hinv as (Hsub & Hk & _). apply calculateCenter_normal in H as [Hc ->].
    split; [now apply length_zero_iff|]. now apply keys_fresh_set.
  - destruct Hinv as (Hsub & Hk & _). apply calculateCenter_normal in H as [Hc ->].
    refine (conj Hsub (conj (keys_fresh_set _ _ _ _ _ _ Hk Hc) _)).
    intros Hp. cbn [POINTS] in Hp. rewrite Hp in H0. discriminate.
  - destruct Hinv as (_ & _ & Hn). apply calculateCenter_throw in H as [Hin ->].
    split; [now apply Hn|reflexivity].
Qed.

Lemma inv_init (points : list Point) (s : store) : inv points (heap s) (init points s).
Proof.
  cbn. refine (conj (subseq_refl _) (conj (conj eq_refl _) _)); [cbn; lia|auto].
Qed.

(** Every reachable state satisfies the invariant. *)
Lemma reachable_inv (SR RI : number) (points : list Point) (s : store) (c : cstate) :
  reachable SR RI points s c -> inv points (heap s) c.
Proof.
  intros H. exact (star_invariant _ _ _ _ (inv_step SR RI points (heap s)) (inv_init points s) H).
Qed.

(** ** A variant

    Three units per pending point, plus the position of the control point
    in the loop body: the design's argument that every iteration of
    either loop removes a pending point, as a measure that every step
    decreases. *)
Definition measure (c : cstate) : nat :=
  match c with
  | Condensing _ s => 3 * length (POINTS s) + 1 + (if Nat.eqb (length (POINTS s)) 0 then 2 else 0)
  | Scanning _ _ _ _ s => 3 * length (POINTS s) + 3
  | Found _ _ s => 3 * length (POINTS s) + 2
  | Finished _ _ | Crashed _ => 0
  end.

(** A scan that found points removes at least one. *)
Lemma scan_remove_shorter (pts : list Point) (c : Point) (r : number) :
  Nat.eqb (length (scanForPointsWithinRadius pts c r)) 0 = false ->
  length (filter (fun p => notInList (scanForPointsWithinRadius pts c r) p) pts) < length pts.
Proof.
  intros H. rewrite filter_notInList_scan.
  destruct (scanForPointsWithinRadius pts c r) as [|p found] eqn:E; [discriminate|].
  exact (scan_drop_shorter _ _ _ _ _ E).
Qed.

Lemma measure_step (SR RI : number) (c c' : cstate) :
  forallb noNaN (pending c) = true -> step SR RI c c' -> measure c' < measure c.
Proof.
  intros Hn Hs. destruct Hs; cbn [measure pending POINTS heap] in *.
  - rewrite H. cbn. lia.
  - apply isEmpty_nil in H0. rewrite H0, H. cbn. lia.
  - rewrite H in *. cbn [forallb andb] in Hn. apply andb_true_iff in Hn as [Hseed _].
    pose proof (withoutSeed_shorter scanCenter rest Hseed) as L. unfold withoutSeed in L.
    rewrite (filter_ext _ _ (fun p => notEquals_equals p scanCenter)). cbn [length] in *. lia.
  - lia.
  - pose proof (scan_remove_shorter (POINTS s) scanCenter r H). lia.
  - lia.
  - apply calculateCenter_normal in H as [_ ->]. cbn [POINTS] in *.
    rewrite H0. lia.
  - lia.
Qed.

(** ** A NaN point is never removed

    [removePoint] and [removePoints] filter by [===] on the coordinates,
    which is false for a NaN coordinate; so a point with a NaN coordinate
    stays pending for good, and a run that empties [POINTS] had none. *)

Definition nan_pending (points : list Point) (c : cstate) : Prop :=
  match c with
  | Crashed _ => True
  | _ => forall p, In p points -> noNaN p = false -> In p (pending c)
  end.

Lemma nan_pending_step (SR RI : number) (points : list Point) (c c' : cstate) :
  nan_pending points c -> step SR RI c c' -> nan_pending points c'.
Proof.
  intros Hn Hs. destruct Hs; cbn [nan_pending pending POINTS] in *; try exact I;
    try (intros p Hp Hnan; apply filter_In; split; [now apply Hn|]).
  - exact Hn.
  - rewrite notEquals_equals, equals_nan_l; auto.
  - rewrite notEquals_equals, equals_nan_l; auto.
  - exact Hn.
  - apply notInList_spec. intros q _. now apply equals_nan_l.
  - apply calculateCenter_normal in H as [_ ->]. exact Hn.
  - apply calculateCenter_normal in H as [_ ->]. exact Hn.
Qed.

Lemma reachable_nan_pending (SR RI : number) (points : list Point) (s : store) (c : cstate) :
  reachable SR RI points s c -> nan_pending points c.
Proof.
  intros H. refine (star_invariant _ _ _ _ (nan_pending_step SR RI points) _ H).
  intros p Hp _. exact Hp.
Qed.

(** A run that finishes had no NaN coordinate in its input. *)
Lemma finished_no_nan (SR RI : number) (points : list Point) (s s' : store) (m : JSMap) :
  reachable SR RI points s (Finished m s') -> forallb noNaN points = true.
Proof.
  intros H. pose proof (reachable_nan_pending _ _ _ _ _ H) as Hn.
  destruct (reachable_inv _ _ _ _ _ H) as [He _]. cbn [nan_pending pending] in Hn.
  rewrite He in Hn. apply forallb_forall. intros p Hp.
  destruct (noNaN p) eqn:E; [reflexivity|]. destruct (Hn p Hp E).
Qed.

(** Only [Finished] and [Crashed] are final: every other control point
    has a next one. *)
Lemma progress (SR RI : number) (c : cstate) :
  irreducible (step SR RI) c -> (exists m s, c = Finished m s) \/ (exists e, c = Crashed e).
Proof.
  intros Hi. destruct c as [cc s|seed total r cc s|fo cc s|m s|e]; eauto; exfalso.
  - destruct (POINTS s) as [|seed rest] eqn:E; [exact (Hi _ (step_no_seed SR RI cc s E))|].
    destruct (isEmpty (filter (fun p => notEquals p seed) (POINTS s))) eqn:F.
    + exact (Hi _ (step_shortcut SR RI cc s seed rest E F)).
    + exact (Hi _ (step_start_scan SR RI cc s seed rest E F)).
  - destruct (Nat.eqb (length (scanForPointsWithinRadius (POINTS s) seed r)) 0) eqn:E.
    + exact (Hi _ (step_scan_done SR RI seed total r cc s E)).
    + exact (Hi _ (step_scan_grow SR RI seed total r cc s E)).
  - destruct (calculateCenter_cases (allFoundPoints fo) s) as [[q Hc]|[_ Hc]].
    + destruct (Nat.eqb (length (POINTS (mkStore (POINTS s) (S (heap s))))) 0) eqn:E.
      * exact (Hi _ (step_center_stop SR RI fo cc s _ _ Hc E)).
      * exact (Hi _ (step_center_next SR RI fo cc s _ _ Hc E)).
    + exact (Hi _ (step_center_throw SR RI fo cc s _ Hc)).
Qed.

(** ** The code from the machine *)

(** The run of [condensePointsByScanRadius] as a run of the machine. *)
Lemma condense_star (SR RI : number) (points : list Point) (s : store) :
  (forall m s', condensePointsByScanRadius SR RI points s = Normal (m, s') ->
                reachable SR RI points s (Finished m s')) /\
  (forall e, condensePointsByScanRadius SR RI points s = Throw e ->
             reachable SR RI points s (Crashed e)).
Proof.
  unfold condensePointsByScanRadius, condensePointsByScanRadius_fuel, reachable, init.
  erewrite (bind_normal (setPOINTS points)); [|reflexivity].
  apply condenseLoop_star.
Qed.

(** A final state reachable from the start is the only one. *)
Lemma reachable_final_unique (SR RI : number) (points : list Point) (s : store) (c c' : cstate) :
  reachable SR RI points s c -> irreducible (step SR RI) c ->
  reachable SR RI points s c' -> irreducible (step SR RI) c' -> c' = c.
Proof.
  intros H1 I1 H2 I2. symmetry. exact (star_det_unique _ (step_det SR RI) _ _ _ H1 I1 H2 I2).
Qed.

(** The code on empty input: [calculateCenter([undefined])] throws. *)
Lemma condense_empty (SR RI : number) (s : store) :
  condensePointsByScanRadius SR RI [] s = Throw TypeError_undefined_property.
Proof. reflexivity. Qed.

(** A machine run to [Finished] is what the code returns. *)
Lemma code_of_finished (SR RI : number) (points : list Point) (s s' : store) (m : JSMap) :
  reachable SR RI points s (Finished m s') ->
  condensePointsByScanRadius SR RI points s = Normal (m, s').
Proof.
  intros H. pose proof (finished_no_nan _ _ _ _ _ _ H) as Hn.
  destruct points as [|p ps].
  - pose proof (proj2 (condense_star SR RI [] s) _ (condense_empty SR RI s)) as Hc.
    discriminate (reachable_final_unique _ _ _ _ _ _ H (Finished_irreducible _ _ _ _) Hc
                    (Crashed_irreducible _ _ _)).
  - destruct (condense_returns SR RI (p :: ps) s ltac:(discriminate) Hn) as [cs E]. rewrite E.
    pose proof (proj1 (condense_star SR RI _ s) _ _ E) as Hf.
    pose proof (reachable_final_unique _ _ _ _ _ _ H (Finished_irreducible _ _ _ _) Hf
                  (Finished_irreducible _ _ _ _)) as U.
    injection U as -> ->. reflexivity.
Qed.

(** A machine run to [Crashed] is what the code throws. *)
Lemma code_of_crashed (SR RI : number) (points : list Point) (s : store) (e : js_error) :
  reachable SR RI points s (Crashed e) -> condensePointsByScanRadius SR RI points s = Throw e.
Proof.
  intros H. destruct (reachable_inv _ _ _ _ _ H) as [-> ->]. apply condense_empty.
Qed.
