(* ===== verification/MachineTheorems.v ===== *)
(** * Claims on the condenser's state machine

    The theorems of [Machine] stated for any [SCAN_RADIUS] and
    [RADIUS_INCREASE]: the code and the machine have the same outcomes
    (C22); the invariants of the reachable states (C23-C25); the machine
    crashes only on empty input (C26); on input without NaN every reachable
    state leads to [Finished] (C27) and every step decreases the variant
    (C32).  Each theorem with a hypothesis has a witness on the points
    (0,0), (3,0), (10,0) with the constants of [lib/constants.js]. *)

From Stdlib Require Import List Bool Arith Lia.
From Stdlib Require Import Floats.
From S2P Require Import Prelude JsNumber Points Condense ClusterSpec Refinement CondenseTheorems.
From S2P Require Import Machine.
Import ListNotations.

(** ** Claims *)

Section Claims.
Variables SCAN_RADIUS RADIUS_INCREASE : number.
Local Abbreviation step := (step SCAN_RADIUS RADIUS_INCREASE).
Local Abbreviation reachable := (reachable SCAN_RADIUS RADIUS_INCREASE).

(** C22. The code and the state machine of the design have the same
    outcomes: [condensePointsByScanRadius] returns a [Map] and a store
    exactly when the machine started on the same input reaches [Finished]
    with them, throws exactly when the machine reaches [Crashed] with that
    exception, and runs out of fuel exactly when the machine never
    reaches a final state. *)
Theorem condense_refines_machine (points : list Point) (s : store) :
  (forall m s', condensePointsByScanRadius SCAN_RADIUS RADIUS_INCREASE points s = Normal (m, s') <->
                reachable points s (Finished m s')) /\
  (forall e, condensePointsByScanRadius SCAN_RADIUS RADIUS_INCREASE points s = Throw e <->
             reachable points s (Crashed e)) /\
  (condensePointsByScanRadius SCAN_RADIUS RADIUS_INCREASE points s = Diverge <->
   forall c, reachable points s c -> ~ irreducible step c).
Proof.
  destruct (condense_star SCAN_RADIUS RADIUS_INCREASE points s) as [Hn Ht].
  split; [|split].
  - intros m s'. split; [apply Hn|apply code_of_finished].
  - intros e. split; [apply Ht|apply code_of_crashed].
  - split.
    + intros Hd c Hc Ic. destruct (progress _ _ c Ic) as [(m & s' & ->)|(e & ->)];
        [rewrite (code_of_finished _ _ _ _ _ _ Hc) in Hd|rewrite (code_of_crashed _ _ _ _ _ Hc) in Hd];
        discriminate.
    + intros Hno. destruct (condensePointsByScanRadius _ _ points s) as [[m s']|e|] eqn:E;
        [exfalso; exact (Hno _ (Hn _ _ eq_refl) (Finished_irreducible _ _ _ _))
        |exfalso; exact (Hno _ (Ht _ eq_refl) (Crashed_irreducible _ _ _))|reflexivity].
Qed.

(** C23. In every reachable state the pending points ([POINTS]) are the
    input with some points deleted, in their input order: the code never
    adds, duplicates or reorders a pending point. *)
Theorem reachable_pending (points : list Point) (s : store) (c : cstate) :
  reachable points s c -> subseq (pending c) points.
Proof.
  intros H. apply reachable_inv in H.
  destruct c; cbn [inv pending] in *; try tauto; [|apply subseq_nil_l].
  destruct H as [-> _]. apply subseq_nil_l.
Qed.

(** C24. While a cluster grows, no pending point is coordinate-equal to a
    point already absorbed into it: the absorbed points are removed for
    good, so no later scan finds them again. *)
Theorem absorbed_never_pending (points : list Point) (s : store) (scanCenter : Point)
  (total : list Point) (r : number) (cc : JSMap) (s' : store) (p q : Point) :
  reachable points s (Scanning scanCenter total r cc s') ->
  In p (POINTS s') -> In q total -> equals p q = false.
Proof.
  intros H. apply reachable_inv in H. destruct H as (_ & _ & Hg). exact (Hg p q).
Qed.

(** C25. The list [findNextPointsToCondense] hands to [calculateCenter]
    holds [undefined] only when the input was empty (and no center was
    recorded yet): on non-empty input it is a list of points. *)
Theorem undefined_only_on_empty (points : list Point) (s : store) (fo : FoundObj)
  (cc : JSMap) (s' : store) :
  reachable points s (Found fo cc s') -> In None (allFoundPoints fo) -> points = [] /\ cc = [].
Proof.
  intros H. apply reachable_inv in H. destruct H as (_ & _ & Hn). exact Hn.
Qed.

(** C26. The condenser crashes only on empty input, and only with the
    TypeError of reading [.x] of [undefined]. *)
Theorem crash_only_on_empty (points : list Point) (s : store) (e : js_error) :
  reachable points s (Crashed e) -> points = [] /\ e = TypeError_undefined_property.
Proof. intros H. exact (reachable_inv _ _ _ _ _ H). Qed.

(** C27. On non-empty input without NaN coordinates every state the
    condenser can reach still leads to [Finished]: no run gets stuck or
    loops once started. *)
Theorem reachable_finishes (points : list Point) (s : store) (c : cstate) :
  points <> [] -> forallb noNaN points = true -> reachable points s c ->
  exists m s', star step c (Finished m s').
Proof.
  intros Hne Hnan Hc.
  destruct (condense_returns SCAN_RADIUS RADIUS_INCREASE points s Hne Hnan) as [cs E].
  pose proof (proj1 (condense_star SCAN_RADIUS RADIUS_INCREASE points s) _ _ E) as Hf.
  do 2 eexists. exact (star_det_final _ (step_det _ _) _ _ _ Hf (Finished_irreducible _ _ _ _) Hc).
Qed.
(** C32. The design's termination argument holds of the code: on input
    without NaN coordinates every step of the condenser decreases the
    variant [measure] (three units per pending point, so at most
    [3 * length points + 3] in the initial state). *)
Theorem step_decreases_measure (points : list Point) (s : store) (c c' : cstate) :
  forallb noNaN points = true -> reachable points s c -> step c c' -> measure c' < measure c.
Proof.
  intros Hn Hc Hs. apply (measure_step SCAN_RADIUS RADIUS_INCREASE c c'); [|exact Hs].
  apply (forallb_incl _ _ points); [|exact Hn].
  apply subseq_incl. destruct c; pose proof (reachable_inv _ _ _ _ _ Hc) as I; cbn [inv pending] in *;
    try tauto; [destruct I as [-> _]| ]; apply subseq_nil_l.
Qed.
End Claims.

(** ** Witnesses

    With [SCAN_RADIUS = 4] and [RADIUS_INCREASE = 2] (the values of
    [lib/constants.js]) on the points (0,0), (3,0), (10,0): the first step
    removes the seed (0,0) and starts the scan. *)

Definition wpoints : list Point := [mkPoint 0 0; mkPoint 3 0; mkPoint 10 0].

Definition wscanning : cstate :=
  Scanning (mkPoint 0 0) [mkPoint 0 0] 4%float [] (mkStore [mkPoint 3 0; mkPoint 10 0] 0).

Lemma wscanning_reachable : reachable 4%float 2%float wpoints (mkStore [] 0) wscanning.
Proof.
  apply star_one.
  exact (step_start_scan 4%float 2%float [] (mkStore wpoints 0) (mkPoint 0 0)
           [mkPoint 3 0; mkPoint 10 0] eq_refl eq_refl).
Qed.

(** On empty input the first step finds [POINTS[0]] undefined. *)
Lemma wempty_found_reachable :
  reachable 4%float 2%float [] (mkStore [] 0) (Found (mkFound [None] 4%float) [] (mkStore [] 0)).
Proof. apply star_one. exact (step_no_seed 4%float 2%float [] (mkStore [] 0) eq_refl). Qed.

Lemma reachable_pending_witness :
  reachable 4%float 2%float wpoints (mkStore [] 0) wscanning /\ subseq (pending wscanning) wpoints.
Proof.
  split; [exact wscanning_reachable|].
  exact (reachable_pending _ _ _ _ _ wscanning_reachable).
Defined.

Lemma absorbed_never_pending_witness :
  reachable 4%float 2%float wpoints (mkStore [] 0) wscanning /\
  In (mkPoint 10 0) [mkPoint 3 0; mkPoint 10 0] /\ In (mkPoint 0 0) [mkPoint 0 0] /\
  equals (mkPoint 10 0) (mkPoint 0 0) = false.
Proof.
  split; [exact wscanning_reachable|]. split; [right; left; reflexivity|]. split; [now left|].
  exact (absorbed_never_pending _ _ _ _ _ _ _ _ _ _ _ wscanning_reachable
           (or_intror (or_introl eq_refl)) (or_introl eq_refl)).
Defined.

Lemma undefined_only_on_empty_witness :
  reachable 4%float 2%float [] (mkStore [] 0) (Found (mkFound [None] 4%float) [] (mkStore [] 0)) /\
  In None (allFoundPoints (mkFound [None] 4%float)) /\ ([] : list Point) = [] /\ ([] : JSMap) = [].
Proof.
  split; [exact wempty_found_reachable|]. split; [now left|].
  exact (undefined_only_on_empty _ _ _ _ _ _ _ wempty_found_reachable (or_introl eq_refl)).
Defined.

Lemma crash_only_on_empty_witness :
  reachable 4%float 2%float [] (mkStore [] 0) (Crashed TypeError_undefined_property) /\
  ([] : list Point) = [] /\ TypeError_undefined_property = TypeError_undefined_property.
Proof.
  assert (H : reachable 4%float 2%float [] (mkStore [] 0) (Crashed TypeError_undefined_property)).
  { eapply star_trans; [exact wempty_found_reachable|]. apply star_one.
    apply step_center_throw. reflexivity. }
  split; [exact H|exact (crash_only_on_empty _ _ _ _ _ H)].
Defined.

Lemma reachable_finishes_witness :
  wpoints <> [] /\ forallb noNaN wpoints = true /\
  reachable 4%float 2%float wpoints (mkStore [] 0) wscanning /\
  exists m s', star (step 4%float 2%float) wscanning (Finished m s').
Proof.
  assert (Hn : forallb noNaN wpoints = true) by (vm_compute; reflexivity).
  assert (Hne : wpoints <> []) by (unfold wpoints; discriminate).
  split; [exact Hne|]. split; [exact Hn|]. split; [exact wscanning_reachable|].
  exact (reachable_finishes _ _ _ _ _ Hne Hn wscanning_reachable).
Defined.

Lemma step_decreases_measure_witness :
  forallb noNaN wpoints = true /\ reachable 4%float 2%float wpoints (mkStore [] 0) wscanning /\
  step 4%float 2%float wscanning
    (Scanning (mkPoint 0 0) [mkPoint 0 0; mkPoint 3 0] 6%float [] (mkStore [mkPoint 10 0] 0)) /\
  measure (Scanning (mkPoint 0 0) [mkPoint 0 0; mkPoint 3 0] 6%float [] (mkStore [mkPoint 10 0] 0)) <
  measure wscanning.
Proof.
  assert (Hn : forallb noNaN wpoints = true) by (vm_compute; reflexivity).
  assert (Hs : step 4%float 2%float wscanning
                 (Scanning (mkPoint 0 0) [mkPoint 0 0; mkPoint 3 0] 6%float [] (mkStore [mkPoint 10 0] 0)))
    by exact (step_scan_grow 4%float 2%float (mkPoint 0 0) [mkPoint 0 0] 4%float []
                (mkStore [mkPoint 3 0; mkPoint 10 0] 0) eq_refl).
  split; [exact Hn|]. split; [exact wscanning_reachable|]. split; [exact Hs|].
  exact (step_decreases_measure _ _ _ _ _ _ Hn wscanning_reachable Hs).
Defined.
