(* ===== verification/Projection.v ===== *)
(** * The projection: [calcX], [calcY], [toPoints], [fromGeoJsonCoordinatesToPoints]

    Geographic coordinates become canvas points by a linear remap of the
    bounding box of [lib/constants.js] onto the canvas, the y axis
    inverted.  The functions read the constants through the class
    [CONSTANTS].  JSON input is modelled as it arrives: a marker record of
    [maerkte2.json] may lack [lon] or [lat], and a GeoJSON [coordinates]
    array may be shorter than two; the code then computes with
    [undefined], which arithmetic turns into NaN.  The theorems: both
    conversion loops are maps in input order, a missing coordinate gives a
    point with a NaN coordinate (which [condensePointsByScanRadius] never
    removes), and a finite coordinate never gives NaN (an infinity at
    worst). *)

From Stdlib Require Import List Bool Arith Lia.
From Stdlib Require Import Floats.
From S2P Require Import Prelude JsNumber Constants Points.
Import ListNotations.

(** A record of [maerkte2.json]: [{"type": "point", "lon": .., "lat": ..}];
    only [lon] and [lat] are read, and either may be absent. *)
Record Coordinate : Type := mkCoordinate { lon : option number; lat : option number }.

(** A GeoJSON feature of [maerkte.json]: [feature.geometry.coordinates],
    the array [[lon, lat]]. *)
Record Geometry : Type := mkGeometry { coordinates : list number }.
Record Feature : Type := mkFeature { geometry : Geometry }.

(** [arr[i]]: [undefined] past the end of the array. *)
Definition js_index (arr : list number) (i : nat) : option number := nth_error arr i.

Section Projection.
Context {C : CONSTANTS}.

(** [function calcX(lon)]. *)
Definition calcX (lon : number) : number :=
  let xFactor := ((lon - left) / expansionHorizontal)%float in
  (width * xFactor)%float.

(** [function calcY(lat)]. *)
Definition calcY (lat : number) : number :=
  let yFactor := ((lat - bottom) / expansionVertical)%float in
  (height * (1 - yFactor))%float.

(** The [for (let coord of coordinates)] loop of [toPoints]. *)
Fixpoint toPoints_loop (coords : list Coordinate) (points : list Point) : list Point :=
  match coords with
  | [] => points
  | coord :: rest =>
      toPoints_loop rest (points ++ [mkPoint (calcX (toNumber (lon coord)))
                                             (calcY (toNumber (lat coord)))])
  end.

(** [function toPoints(coordinates)]. *)
Definition toPoints (coordinates : list Coordinate) : list Point :=
  toPoints_loop coordinates [].

(** The [for (let coord of coordinates)] loop of
    [fromGeoJsonCoordinatesToPoints]. *)
Fixpoint fromGeoJson_loop (coords : list (list number)) (points : list Point) : list Point :=
  match coords with
  | [] => points
  | coord :: rest =>
      fromGeoJson_loop rest (points ++ [mkPoint (calcX (toNumber (js_index coord 0)))
                                                (calcY (toNumber (js_index coord 1)))])
  end.

(** [function fromGeoJsonCoordinatesToPoints(features)]. *)
Definition fromGeoJsonCoordinatesToPoints (features : list Feature) : list Point :=
  let coords := map (fun feature => coordinates (geometry feature)) features in
  fromGeoJson_loop coords [].

(** The constants allow a projection without NaN: the canvas size and the
    extents of the bounding box are finite non-zero numbers, its left and
    bottom edges finite. *)
Definition projectable : bool :=
  isFiniteNonZero width && isFiniteNonZero height && isFiniteNonZero expansionHorizontal &&
  isFiniteNonZero expansionVertical && isFinite left && isFinite bottom.

(** A marker record whose [lon] and [lat] are present and finite. *)
Definition validRecord (c : Coordinate) : bool :=
  match lon c, lat c with
  | Some a, Some b => isFinite a && isFinite b
  | _, _ => false
  end.

(** ** Lemmas *)

Lemma projectable_spec :
  projectable = true ->
  isFiniteNonZero width = true /\ isFiniteNonZero height = true /\
  isFiniteNonZero expansionHorizontal = true /\ isFiniteNonZero expansionVertical = true /\
  isFinite left = true /\ isFinite bottom = true.
Proof. unfold projectable. rewrite !andb_true_iff. tauto. Qed.

Lemma calcX_not_nan (lon : number) :
  projectable = true -> isFinite lon = true -> Prim2SF (calcX lon) <> S754_nan.
Proof.
  intros Hc Hl. destruct (projectable_spec Hc) as (Hw & _ & He & _ & Hleft & _).
  unfold calcX. apply mul_not_nan; [exact Hw|]. apply div_not_nan; [|exact He].
  apply sub_not_nan; [exact Hl|]. now apply isFinite_not_nan.
Qed.

Lemma calcY_not_nan (lat : number) :
  projectable = true -> isFinite lat = true -> Prim2SF (calcY lat) <> S754_nan.
Proof.
  intros Hc Hl. destruct (projectable_spec Hc) as (_ & Hh & _ & Hv & _ & Hb).
  unfold calcY. apply mul_not_nan; [exact Hh|]. apply sub_not_nan; [reflexivity|].
  apply div_not_nan; [|exact Hv]. apply sub_not_nan; [exact Hl|]. now apply isFinite_not_nan.
Qed.

Lemma toPoints_loop_map (coords : list Coordinate) (points : list Point) :
  toPoints_loop coords points =
  points ++ map (fun c => mkPoint (calcX (toNumber (lon c))) (calcY (toNumber (lat c)))) coords.
Proof.
  revert points. induction coords as [|c coords IH]; intros points; simpl;
    [now rewrite app_nil_r|now rewrite IH, <- app_assoc].
Qed.

Lemma fromGeoJson_loop_map (coords : list (list number)) (points : list Point) :
  fromGeoJson_loop coords points =
  points ++ map (fun c => mkPoint (calcX (toNumber (js_index c 0)))
                                  (calcY (toNumber (js_index c 1)))) coords.
Proof.
  revert points. induction coords as [|c coords IH]; intros points; simpl;
    [now rewrite app_nil_r|now rewrite IH, <- app_assoc].
Qed.

(** A NaN longitude or latitude gives a point with a NaN coordinate. *)
Lemma projected_nan (lon lat : number) :
  lon = nan \/ lat = nan -> noNaN (mkPoint (calcX lon) (calcY lat)) = false.
Proof.
  intros [->| ->]; unfold noNaN, calcX, calcY; simpl;
    autorewrite with condense_rw; [reflexivity|apply andb_false_r].
Qed.

(** ** Claims *)

(** C14. [toPoints] projects every record, in input order: it is the map
    of the projection over the array. *)
Theorem toPoints_map (coords : list Coordinate) :
  toPoints coords =
  map (fun c => mkPoint (calcX (toNumber (lon c))) (calcY (toNumber (lat c)))) coords.
Proof. unfold toPoints. now rewrite toPoints_loop_map. Qed.

(** C15. A marker record without [lon] or without [lat] becomes a point
    with a NaN coordinate. *)
Theorem toPoints_missing_nan (coords : list Coordinate) (c : Coordinate) :
  In c coords -> lon c = None \/ lat c = None ->
  exists p, In p (toPoints coords) /\ noNaN p = false.
Proof.
  intros Hc Hmiss. unfold toPoints. rewrite toPoints_loop_map.
  eexists. split; [apply in_map, Hc|].
  apply projected_nan. destruct Hmiss as [E|E]; rewrite E; auto.
Qed.

(** C16. A GeoJSON feature whose [coordinates] array holds fewer than two
    numbers becomes a point with a NaN coordinate. *)
Theorem fromGeoJson_short_nan (features : list Feature) (f : Feature) :
  In f features -> length (coordinates (geometry f)) < 2 ->
  exists p, In p (fromGeoJsonCoordinatesToPoints features) /\ noNaN p = false.
Proof.
  intros Hf Hlen. unfold fromGeoJsonCoordinatesToPoints. rewrite fromGeoJson_loop_map.
  eexists. split; [apply in_map, in_map, Hf|].
  apply projected_nan. right. unfold js_index.
  rewrite (proj2 (nth_error_None (coordinates (geometry f)) 1)) by lia. reflexivity.
Qed.

(** Valid records project to points without NaN. *)
Lemma toPoints_valid (coords : list Coordinate) :
  projectable = true -> forallb validRecord coords = true -> forallb noNaN (toPoints coords) = true.
Proof.
  intros Hc Hv. unfold toPoints. rewrite toPoints_loop_map. cbn [app].
  rewrite forallb_forall in *. intros p Hp. apply in_map_iff in Hp as (c & <- & Hin).
  specialize (Hv c Hin).
  unfold validRecord in Hv. destruct (lon c) as [a|], (lat c) as [b|]; try discriminate.
  apply andb_true_iff in Hv as [Ha Hb]. unfold noNaN. cbn [x y toNumber].
  rewrite (isNaN_false_SF _ (calcX_not_nan a Hc Ha)), (isNaN_false_SF _ (calcY_not_nan b Hc Hb)).
  reflexivity.
Qed.

(** C31. With constants that allow it, the projection of a finite
    longitude and latitude is never NaN, even where [calcX] or [calcY]
    overflows to an infinity: so [condensePointsByScanRadius] always
    terminates on projected markers with finite coordinates. *)
Theorem projection_no_nan (lon lat : number) :
  projectable = true -> isFinite lon = true -> isFinite lat = true ->
  noNaN (mkPoint (calcX lon) (calcY lat)) = true.
Proof.
  intros Hc Hx Hy. unfold noNaN. cbn [x y].
  rewrite (isNaN_false_SF _ (calcX_not_nan lon Hc Hx)), (isNaN_false_SF _ (calcY_not_nan lat Hc Hy)).
  reflexivity.
Qed.

(** C29. [fromGeoJsonCoordinatesToPoints] projects the [coordinates] of
    every feature, in input order: it is the map of the projection of
    [coord[0]] and [coord[1]] over the features. *)
Theorem fromGeoJson_map (features : list Feature) :
  fromGeoJsonCoordinatesToPoints features =
  map (fun f => mkPoint (calcX (toNumber (js_index (coordinates (geometry f)) 0)))
                        (calcY (toNumber (js_index (coordinates (geometry f)) 1)))) features.
Proof. unfold fromGeoJsonCoordinatesToPoints. now rewrite fromGeoJson_loop_map, map_map. Qed.

End Projection.

(** ** Witnesses *)

Lemma toPoints_missing_nan_witness :
  In (mkCoordinate (Some 13.5%float) None) [mkCoordinate (Some 13.5%float) None] /\
  exists p, In p (toPoints [mkCoordinate (Some 13.5%float) None]) /\ noNaN p = false.
Proof.
  split; [now left|]. apply (toPoints_missing_nan _ (mkCoordinate (Some 13.5%float) None));
    [now left|now right].
Defined.

(** [2^1023] is finite, but [calcX] of it overflows to infinity. *)
Lemma projection_no_nan_witness :
  projectable = true /\ isFinite 0x1p1023%float = true /\ isFinite 52.5%float = true /\
  calcX 0x1p1023%float = infinity /\
  noNaN (mkPoint (calcX 0x1p1023%float) (calcY 52.5%float)) = true.
Proof.
  assert (Hc : projectable = true) by (vm_compute; reflexivity).
  assert (Hx : isFinite 0x1p1023%float = true) by (vm_compute; reflexivity).
  assert (Hy : isFinite 52.5%float = true) by (vm_compute; reflexivity).
  split; [exact Hc|]. split; [exact Hx|]. split; [exact Hy|].
  split; [vm_compute; reflexivity|]. exact (projection_no_nan _ _ Hc Hx Hy).
Defined.

Lemma fromGeoJson_short_nan_witness :
  length (coordinates (geometry (mkFeature (mkGeometry [13.5%float])))) < 2 /\
  exists p, In p (fromGeoJsonCoordinatesToPoints [mkFeature (mkGeometry [13.5%float])]) /\
            noNaN p = false.
Proof.
  split; [simpl; lia|]. apply (fromGeoJson_short_nan _ (mkFeature (mkGeometry [13.5%float])));
    [now left|simpl; lia].
Defined.
