(* ===== verification/Canvas.v ===== *)
(** * Drawing: [drawCustomCircle], [drawPolygon], [drawGroupedCenters]

    The drawing routines of [lib/drawMarketsAndOutline.js] call six methods
    of a [NodeCanvasRenderingContext2D].  The class [Context2D] is that
    interface; the routines are written against it.  The instance
    [traceContext] records each call as a command of a trace, which is
    what the SVG backend of the [canvas] package turns into path data.  The
    theorems are about the recorded traces: the shape of a polygon's path,
    and one circle per [Map] entry, in insertion order, with the entry's
    value as diameter. *)

From Stdlib Require Import List Bool Arith Lia.
From Stdlib Require Import Floats.
From S2P Require Import Prelude JsNumber Json Constants Points Condense Projection.
Import ListNotations.

(** The methods of the 2D context the code calls, each returning the
    context after the call. *)
Class Context2D (ctx : Type) : Type := {
  beginPath : ctx -> ctx;
  arc : ctx -> number -> number -> number -> number -> number -> ctx;
  stroke : ctx -> ctx;
  moveTo : ctx -> number -> number -> ctx;
  lineTo : ctx -> number -> number -> ctx;
  closePath : ctx -> ctx
}.

(** One recorded call. *)
Inductive CanvasCmd : Type :=
| BeginPath
| Arc (cx cy radius startAngle endAngle : number)
| Stroke
| MoveTo (px py : number)
| LineTo (px py : number)
| ClosePath.

(** The recording context: every call appends its command. *)
#[export] Instance traceContext : Context2D (list CanvasCmd) := {
  beginPath t := t ++ [BeginPath];
  arc t cx cy r sa ea := t ++ [Arc cx cy r sa ea];
  stroke t := t ++ [Stroke];
  moveTo t px py := t ++ [MoveTo px py];
  lineTo t px py := t ++ [LineTo px py];
  closePath t := t ++ [ClosePath]
}.

(** [Math.PI]: the literal denotes the same binary64 value. *)
#[local] Set Warnings "-inexact-float".
Definition PI : number := 3.141592653589793.

Section Drawing.
Context {C : CONSTANTS} {ctx : Type} {Ctx : Context2D ctx}.

(** [function drawCustomCircle(context, center, size)]. *)
Definition drawCustomCircle (context : ctx) (center : Point) (size : number) : ctx :=
  let context := beginPath context in
  let context := arc context (x center) (y center) (size / 2)%float 0%float (2 * PI)%float in
  stroke context.

(** The [for (let i = 0; i < coords.length; i++)] loop of [drawPolygon];
    [coords[i][0]] and [coords[i][1]] are [undefined] on a short position
    or on a number, and [calcX] and [calcY] apply [ToNumber] to them. *)
Fixpoint drawPolygon_loop (i : nat) (coords : list jsval) (context : ctx) : ctx :=
  match coords with
  | [] => context
  | c :: rest =>
      let lon := toNumberVal (jsIndex c 0) in
      let lat := toNumberVal (jsIndex c 1) in
      let px := calcX lon in
      let py := calcY lat in
      let context := if Nat.eqb i 0 then moveTo context px py else lineTo context px py in
      drawPolygon_loop (S i) rest context
  end.

(** [function drawPolygon(context, coords)]. *)
Definition drawPolygon (context : ctx) (coords : list jsval) : ctx :=
  stroke (closePath (drawPolygon_loop 0 coords (beginPath context))).

(** [function drawGroupedCenters(context, groupedCenters)]: [forEach]
    visits the entries in insertion order, value first. *)
Definition drawGroupedCenters (context : ctx) (groupedCenters : JSMap) : ctx :=
  fold_left (fun context e => drawCustomCircle context (pt (fst e)) (snd e)) groupedCenters context.

End Drawing.

(** The commands of one circle of diameter [size] around [center]. *)
Definition circle_cmds (center : Point) (size : number) : list CanvasCmd :=
  [BeginPath; Arc (x center) (y center) (size / 2)%float 0%float (2 * PI)%float; Stroke].

(** The number of arcs in a trace. *)
Definition count_arcs (t : list CanvasCmd) : nat :=
  length (filter (fun c => match c with Arc _ _ _ _ _ => true | _ => false end) t).

(** ** Lemmas on the recorded traces *)

Section Traces.
Context {C : CONSTANTS}.

(** The position a polygon vertex is drawn at. *)
Definition vertex (c : jsval) : number * number :=
  (calcX (toNumberVal (jsIndex c 0)), calcY (toNumberVal (jsIndex c 1))).

(** A position [[lon, lat]] is drawn at its projection. *)
Lemma vertex_position (p : list number) :
  vertex (position p) = (calcX (toNumber (nth_error p 0)), calcY (toNumber (nth_error p 1))).
Proof. unfold vertex. now rewrite !jsIndex_position. Qed.

(** A bare number is drawn at (NaN, NaN): [n[0]] is [undefined]. *)
Lemma vertex_number (n : number) : vertex (JNum n) = (nan, nan).
Proof. unfold vertex, calcX, calcY. cbn. now autorewrite with condense_rw. Qed.

Lemma drawPolygon_loop_later (i : nat) (coords : list jsval) (t : list CanvasCmd) :
  drawPolygon_loop (S i) coords t = t ++ map (fun c => LineTo (fst (vertex c)) (snd (vertex c))) coords.
Proof.
  revert i t. induction coords as [|c coords IH]; intros i t; simpl; [now rewrite app_nil_r|].
  rewrite IH. now rewrite <- app_assoc.
Qed.

(** The commands of [drawPolygon]. *)
Definition polygon_cmds (coords : list jsval) : list CanvasCmd :=
  [BeginPath] ++
  match coords with
  | [] => []
  | c0 :: rest => MoveTo (fst (vertex c0)) (snd (vertex c0)) ::
                  map (fun c => LineTo (fst (vertex c)) (snd (vertex c))) rest
  end ++ [ClosePath; Stroke].

Lemma drawPolygon_app (t : list CanvasCmd) (coords : list jsval) :
  drawPolygon t coords = t ++ polygon_cmds coords.
Proof.
  unfold drawPolygon, polygon_cmds. destruct coords as [|c0 rest]; simpl.
  - now rewrite <- !app_assoc.
  - rewrite drawPolygon_loop_later. simpl. now rewrite <- !app_assoc.
Qed.

Lemma count_arcs_app (t1 t2 : list CanvasCmd) : count_arcs (t1 ++ t2) = count_arcs t1 + count_arcs t2.
Proof. unfold count_arcs. now rewrite filter_app, length_app. Qed.

Lemma drawGroupedCenters_app (t : list CanvasCmd) (m : JSMap) :
  drawGroupedCenters t m = t ++ flat_map (fun e => circle_cmds (pt (fst e)) (snd e)) m.
Proof.
  revert t. induction m as [|e m IH]; intros t; simpl; [now rewrite app_nil_r|].
  rewrite IH. unfold drawCustomCircle. simpl. now rewrite <- !app_assoc.
Qed.

(** One arc per entry of the map. *)
Lemma count_arcs_circles (m : JSMap) :
  count_arcs (flat_map (fun e => circle_cmds (pt (fst e)) (snd e)) m) = Map_size m.
Proof.
  unfold Map_size. induction m as [|e m IH]; [reflexivity|].
  cbn [flat_map]. rewrite count_arcs_app, IH. reflexivity.
Qed.

(** C17. [drawPolygon] draws one closed path: [beginPath], a [moveTo] to
    the first position, a [lineTo] to each later position in order, then
    [closePath] and [stroke]. *)
Theorem drawPolygon_trace (t : list CanvasCmd) (c0 : jsval) (rest : list jsval) :
  drawPolygon t (c0 :: rest) =
  t ++ [BeginPath; MoveTo (fst (vertex c0)) (snd (vertex c0))] ++
  map (fun c => LineTo (fst (vertex c)) (snd (vertex c))) rest ++ [ClosePath; Stroke].
Proof. rewrite drawPolygon_app. reflexivity. Qed.

(** C18. [drawGroupedCenters] draws, for each [Map] entry in insertion
    order, one circle around the entry's center whose radius is half the
    entry's value; so it draws exactly [condensedCenters.size] circles,
    the number [main] logs. *)
Theorem drawGroupedCenters_circles (t : list CanvasCmd) (m : JSMap) :
  drawGroupedCenters t m = t ++ flat_map (fun e => circle_cmds (pt (fst e)) (snd e)) m /\
  count_arcs (drawGroupedCenters t m) = count_arcs t + Map_size m.
Proof.
  rewrite drawGroupedCenters_app. split; [reflexivity|].
  rewrite count_arcs_app, count_arcs_circles. reflexivity.
Qed.

End Traces.
