(* ===== verification/Main.v ===== *)
(** * [main] of [index.js], without its input and output

    [main] reads the district GeoJSON and the market JSON (file I/O, not
    modelled: the parsed data are the arguments), draws each district's
    outline with [drawPolygon] on [bezirk.geometry.coordinates.flat(2)],
    projects the markets with [toPoints], condenses them, draws one circle
    per condensed center, logs [condensedCenters.size + " Circles drawn"]
    and writes the SVG.  [main] returns the canvas trace and the logged
    number, or the exception that crashes the process before the file is
    written, or [Diverge] when the condenser never returns.  The theorems
    compose those of the components: the drawing is the outlines and one
    circle per cluster of the reference condenser, the log counts the
    circles drawn, a market record without [lon] or [lat] makes [main]
    hang, a district made of several
    polygons is drawn as one path whose polygons are joined by a line, and
    a district given as a single Polygon is drawn at NaN. *)

From Stdlib Require Import List Bool Arith Lia.
From Stdlib Require Import Floats.
From S2P Require Import Prelude JsNumber Json Constants Points Condense.
From S2P Require Import ClusterSpec Refinement CondenseTheorems Projection Canvas.
Import ListNotations.

(** A feature of [bezirksgrenzen.geojson], by what [main] reads of it:
    [bezirk.geometry.coordinates], the JSON array of its geometry (rings
    of positions [[lon, lat]] for a Polygon, polygons of them for a
    MultiPolygon). *)
Record District : Type := mkDistrict { districtCoordinates : list jsval }.

Section Main.
Context {C : CONSTANTS}.

(** The [for (let bezirk of bezirkeDaten)] loop of [main]. *)
Definition drawDistricts (context : list CanvasCmd) (bezirkeDaten : list District) : list CanvasCmd :=
  fold_left (fun context bezirk => drawPolygon context (flat 2 (districtCoordinates bezirk)))
            bezirkeDaten context.

(** [async function main()], from the parsed district features and market
    records, in the store the program is in. *)
Definition main (bezirkeDaten : list District) (coords : list Coordinate) (s : store)
  : outcome (list CanvasCmd * nat) :=
  let ctx := drawDistricts [] bezirkeDaten in
  let points := toPoints coords in
  match condensePointsByScanRadius SCAN_RADIUS RADIUS_INCREASE points s with
  | Normal (condensedCenters, _) =>
      Normal (drawGroupedCenters ctx condensedCenters, Map_size condensedCenters)
  | Throw e => Throw e
  | Diverge => Diverge
  end.

(** ** Lemmas *)

Lemma count_arcs_drawPolygon (t : list CanvasCmd) (coords : list jsval) :
  count_arcs (drawPolygon t coords) = count_arcs t.
Proof.
  rewrite drawPolygon_app, count_arcs_app. unfold polygon_cmds.
  rewrite !count_arcs_app. destruct coords as [|c0 rest]; [cbn; lia|].
  assert (H : count_arcs (map (fun c => LineTo (fst (vertex c)) (snd (vertex c))) rest) = 0)
    by (induction rest as [|c rest IH]; [reflexivity|exact IH]).
  change (count_arcs (MoveTo (fst (vertex c0)) (snd (vertex c0)) ::
            map (fun c => LineTo (fst (vertex c)) (snd (vertex c))) rest))
    with (count_arcs (map (fun c => LineTo (fst (vertex c)) (snd (vertex c))) rest)).
  rewrite H. cbn. lia.
Qed.

(** District outlines draw no circle. *)
Lemma count_arcs_drawDistricts (t : list CanvasCmd) (bezirkeDaten : list District) :
  count_arcs (drawDistricts t bezirkeDaten) = count_arcs t.
Proof.
  unfold drawDistricts. revert t. induction bezirkeDaten as [|b bs IH]; intros t; [reflexivity|].
  simpl. rewrite IH. apply count_arcs_drawPolygon.
Qed.

(** A normal run of [main] draws the outlines, then one circle per entry
    of the condenser's [Map], and logs the [Map]'s size. *)
Lemma main_normal_shape (bezirkeDaten : list District) (coords : list Coordinate) (s : store)
  (t : list CanvasCmd) (n : nat) :
  main bezirkeDaten coords s = Normal (t, n) ->
  exists m s', condensePointsByScanRadius SCAN_RADIUS RADIUS_INCREASE (toPoints coords) s = Normal (m, s') /\
    t = drawDistricts [] bezirkeDaten ++ flat_map (fun e => circle_cmds (pt (fst e)) (snd e)) m /\
    n = Map_size m.
Proof.
  unfold main. destruct (condensePointsByScanRadius _ _ _ s) as [[m s']| |]; try discriminate.
  intros H. injection H as <- <-. exists m, s'. split; [reflexivity|].
  now rewrite drawGroupedCenters_app.
Qed.

(** The circles drawn for the entries the condenser adds for clusters. *)
Lemma circles_entries_of (h : nat) (cs : list cluster) :
  flat_map (fun e => circle_cmds (pt (fst e)) (snd e)) (entries_of h cs) =
  flat_map (fun c => circle_cmds (centerOf (members c)) (cradius c)) cs.
Proof. revert h. induction cs as [|c cs IH]; intros h; [reflexivity|]. cbn. now rewrite IH. Qed.

(** ** Claims *)

(** C19. When [main] finishes, the number it logs as circles drawn is the
    number of circles in the drawing. *)
Theorem main_logs_circles (bezirkeDaten : list District) (coords : list Coordinate) (s : store)
  (t : list CanvasCmd) (n : nat) :
  main bezirkeDaten coords s = Normal (t, n) -> count_arcs t = n.
Proof.
  intros H. destruct (main_normal_shape _ _ _ _ _ H) as (m & s' & _ & -> & ->).
  rewrite count_arcs_app, count_arcs_drawDistricts, count_arcs_circles. reflexivity.
Qed.

(** C20. A market record without [lon] or [lat] makes [main] hang: its
    point has a NaN coordinate and the condenser never returns, so no SVG
    is written. *)
Theorem main_missing_coordinate_hangs (bezirkeDaten : list District) (coords : list Coordinate)
  (c : Coordinate) (s : store) :
  In c coords -> lon c = None \/ lat c = None -> main bezirkeDaten coords s = Diverge.
Proof.
  intros Hc Hmiss. unfold main, condensePointsByScanRadius. rewrite condense_fuel_clusters.
  assert (Hp : In (mkPoint (calcX (toNumber (lon c))) (calcY (toNumber (lat c)))) (toPoints coords)).
  { unfold toPoints. rewrite toPoints_loop_map.
    exact (in_map (fun c => mkPoint (calcX (toNumber (lon c))) (calcY (toNumber (lat c)))) _ _ Hc). }
  rewrite (clusters_nan_diverge _ _ _ _ _ Hp); [reflexivity|].
  apply projected_nan. destruct Hmiss as [E|E]; rewrite E; auto.
Qed.

(** C21. [flat(2)] merges the polygons of a MultiPolygon district into
    one list of positions, so [drawPolygon] draws them as a single path:
    the last position of the first polygon is joined by a line to the
    first position of the second. *)
Theorem multipolygon_joined (t : list CanvasCmd) (a b : list number) (r1 r2 : list (list number)) :
  drawDistricts t [mkDistrict (multiPolygon [[a :: r1]; [b :: r2]])] =
  t ++ [BeginPath; MoveTo (fst (vertex (position a))) (snd (vertex (position a)))] ++
  map (fun c => LineTo (fst (vertex (position c))) (snd (vertex (position c)))) r1 ++
  [LineTo (fst (vertex (position b))) (snd (vertex (position b)))] ++
  map (fun c => LineTo (fst (vertex (position c))) (snd (vertex (position c)))) r2 ++
  [ClosePath; Stroke].
Proof.
  unfold drawDistricts. cbn [fold_left districtCoordinates]. rewrite flat2_multiPolygon.
  replace (concat (concat [[a :: r1]; [b :: r2]])) with (a :: (r1 ++ b :: r2))
    by (simpl; now rewrite !app_nil_r).
  rewrite drawPolygon_app. unfold polygon_cmds. cbn [map].
  rewrite map_map, map_app. cbn [map app]. now rewrite <- app_assoc.
Qed.

(** C33. [main] assumes every district is a MultiPolygon.  On a Polygon,
    whose [coordinates] are rings of positions, [flat(2)] dissolves the
    positions into bare numbers; [coords[i][0]] of a number is
    [undefined], so every vertex of the path is drawn at (NaN, NaN). *)
Theorem polygon_drawn_at_nan (t : list CanvasCmd) (rings : list (list (list number)))
  (n0 : number) (ns : list number) :
  concat (concat rings) = n0 :: ns ->
  drawDistricts t [mkDistrict (polygon rings)] =
  t ++ [BeginPath; MoveTo nan nan] ++ map (fun _ => LineTo nan nan) ns ++ [ClosePath; Stroke].
Proof.
  intros H. unfold drawDistricts. cbn [fold_left districtCoordinates].
  rewrite flat2_polygon, H, drawPolygon_app. unfold polygon_cmds. cbn [map].
  rewrite vertex_number, map_map. cbn [fst snd].
  rewrite (map_ext _ (fun _ => LineTo nan nan)) by (intros n; now rewrite vertex_number).
  reflexivity.
Qed.

(** C34. The components compose as designed: when [main] finishes, its
    drawing is the district outlines followed by one circle per cluster
    of the reference condenser [clusters] on the projected markers, in
    cluster order, centred at the mean of the cluster's members with the
    recorded radius as diameter, and it logs the number of clusters. *)
Theorem main_draws_clusters (bezirkeDaten : list District) (coords : list Coordinate) (s : store)
  (t : list CanvasCmd) (n : nat) :
  main bezirkeDaten coords s = Normal (t, n) ->
  exists cs, clusters SCAN_RADIUS RADIUS_INCREASE (S (S (length (toPoints coords)))) (toPoints coords) =
             Normal cs /\
    t = drawDistricts [] bezirkeDaten ++
        flat_map (fun c => circle_cmds (centerOf (members c)) (cradius c)) cs /\
    n = length cs.
Proof.
  intros H. destruct (main_normal_shape _ _ _ _ _ H) as (m & s' & E & -> & ->).
  destruct (condense_normal_inv _ _ _ _ _ _ E) as (cs & Hcs & -> & _).
  exists cs. split; [exact Hcs|]. split; [now rewrite circles_entries_of|].
  apply length_entries_of.
Qed.

End Main.

(** ** Witnesses *)

Lemma main_logs_circles_witness :
  main [] [mkCoordinate (Some 13.5%float) (Some 52.5%float)] (mkStore [] 0) =
    Normal (drawGroupedCenters [] [(mkObj 0 (centerOf (toPoints [mkCoordinate (Some 13.5%float) (Some 52.5%float)])),
                                    Berlin.SCAN_RADIUS)], 1) /\
  count_arcs (drawGroupedCenters [] [(mkObj 0 (centerOf (toPoints [mkCoordinate (Some 13.5%float) (Some 52.5%float)])),
                                      Berlin.SCAN_RADIUS)]) = 1.
Proof.
  assert (H : main [] [mkCoordinate (Some 13.5%float) (Some 52.5%float)] (mkStore [] 0) =
    Normal (drawGroupedCenters [] [(mkObj 0 (centerOf (toPoints [mkCoordinate (Some 13.5%float) (Some 52.5%float)])),
                                    Berlin.SCAN_RADIUS)], 1)) by (vm_compute; reflexivity).
  split; [exact H|exact (main_logs_circles _ _ _ _ _ H)].
Defined.

Lemma main_missing_coordinate_hangs_witness :
  In (mkCoordinate None (Some 52.5%float)) [mkCoordinate (Some 13.5%float) (Some 52.5%float); mkCoordinate None (Some 52.5%float)] /\
  main [] [mkCoordinate (Some 13.5%float) (Some 52.5%float); mkCoordinate None (Some 52.5%float)] (mkStore [] 0) = Diverge.
Proof.
  split; [right; left; reflexivity|].
  apply (main_missing_coordinate_hangs _ _ (mkCoordinate None (Some 52.5%float)));
    [right; left; reflexivity|now left].
Defined.

Lemma polygon_drawn_at_nan_witness :
  concat (concat [[[13.5%float; 52.5%float]; [13.25%float; 52.5%float]]]) =
    13.5%float :: [52.5%float; 13.25%float; 52.5%float] /\
  drawDistricts [] [mkDistrict (polygon [[[13.5%float; 52.5%float]; [13.25%float; 52.5%float]]])] =
  [] ++ [BeginPath; MoveTo nan nan] ++ map (fun _ => LineTo nan nan) [52.5%float; 13.25%float; 52.5%float] ++
  [ClosePath; Stroke].
Proof.
  assert (H : concat (concat [[[13.5%float; 52.5%float]; [13.25%float; 52.5%float]]]) =
              13.5%float :: [52.5%float; 13.25%float; 52.5%float]) by reflexivity.
  split; [exact H|exact (polygon_drawn_at_nan [] _ _ _ H)].
Defined.

Lemma main_draws_clusters_witness :
  main [] [mkCoordinate (Some 13.5%float) (Some 52.5%float)] (mkStore [] 0) =
    Normal (drawGroupedCenters [] [(mkObj 0 (centerOf (toPoints [mkCoordinate (Some 13.5%float) (Some 52.5%float)])),
                                    Berlin.SCAN_RADIUS)], 1) /\
  exists cs, clusters Berlin.SCAN_RADIUS Berlin.RADIUS_INCREASE
               (S (S (length (toPoints [mkCoordinate (Some 13.5%float) (Some 52.5%float)]))))
               (toPoints [mkCoordinate (Some 13.5%float) (Some 52.5%float)]) = Normal cs /\
    drawGroupedCenters [] [(mkObj 0 (centerOf (toPoints [mkCoordinate (Some 13.5%float) (Some 52.5%float)])),
                            Berlin.SCAN_RADIUS)] =
      drawDistricts [] [] ++ flat_map (fun c => circle_cmds (centerOf (members c)) (cradius c)) cs /\
    1 = length cs.
Proof.
  assert (H : main [] [mkCoordinate (Some 13.5%float) (Some 52.5%float)] (mkStore [] 0) =
    Normal (drawGroupedCenters [] [(mkObj 0 (centerOf (toPoints [mkCoordinate (Some 13.5%float) (Some 52.5%float)])),
                                    Berlin.SCAN_RADIUS)], 1)) by (vm_compute; reflexivity).
  split; [exact H|exact (main_draws_clusters _ _ _ _ _ H)].
Defined.
