(* ===== verification/Program.v ===== *)
(** * [index.js] as a process: its observable events and exit

    The module's top level creates an SVG canvas of
    [canvasWidth] x [canvasHeight] ([createCanvas(canvasWidth,
    canvasHeight, "svg")]), resolves the output path against the working
    directory, and calls [main().catch((err) => { throw err; })].  [main]
    logs [condensedCenters.size + " Circles drawn"] and writes the canvas
    to [out/sketch.svg]; an exception inside [main] is rethrown by its
    [catch], rejects the promise, and is rethrown again by the handler
    given to [.catch], so the process dies of an unhandled rejection.

    [index] returns the events a run emits, in order, and how it ends.
    The theorem: a run on markers that all project to points without NaN
    creates the canvas, logs the circle count and writes the SVG, and
    exits normally. *)

From Stdlib Require Import List Bool Arith Lia.
From Stdlib Require Import Floats Ascii String DecimalString DecimalNat.
From S2P Require Import Prelude JsNumber Constants Points Condense ClusterSpec Refinement.
From S2P Require Import CondenseTheorems Projection Canvas Main.
Import ListNotations.

(** What the outside world sees of a run. *)
Inductive Event : Type :=
| CreateCanvas (width height : number) (kind : string)
| Log (line : string)
| WriteFile (path : string) (svg : list CanvasCmd).

(** How a run ends: normally, by an unhandled rejection, or never. *)
Inductive exit_status : Type :=
| ExitOk
| Uncaught (e : js_error)
| Hangs.

(** [Number.prototype.toString] on a non-negative integer: its decimal
    digits, without leading zeros. *)
Definition numberToString (n : nat) : string := NilEmpty.string_of_uint (Nat.to_uint n).

(** [condensedCenters.size + " Circles drawn"]. *)
Definition logLine (n : nat) : string := numberToString n ++ " Circles drawn".

(** [path.resolve(process.cwd(), `./out/sketch.svg`)], for the absolute,
    normalised directory [process.cwd()] returns. *)
Definition outFilePath (cwd : string) : string :=
  if String.eqb cwd "/" then "/out/sketch.svg" else cwd ++ "/out/sketch.svg".

Section Program.
Context {C : CONSTANTS}.

(** [const currentCanvas = createCanvas(canvasWidth, canvasHeight, "svg")]. *)
Definition createdCanvas : Event := CreateCanvas canvasWidth canvasHeight "svg".

(** The module's top level and [main().catch((err) => { throw err; })],
    from the parsed data files, in the working directory [cwd]. *)
Definition index (cwd : string) (bezirkeDaten : list District) (coords : list Coordinate)
  (s : store) : list Event * exit_status :=
  match main bezirkeDaten coords s with
  | Normal (svg, n) => ([createdCanvas; Log (logLine n); WriteFile (outFilePath cwd) svg], ExitOk)
  | Throw e => ([createdCanvas], Uncaught e)
  | Diverge => ([createdCanvas], Hangs)
  end.

End Program.

(** ** Claims *)

Section Claims.
Context {C : CONSTANTS}.

(** C28. With constants that allow the projection (those of
    [lib/constants.js] do), a run on at least one marker record, each with
    a finite [lon] and [lat], exits normally after writing the SVG. *)
Theorem index_writes_svg (cwd : string) (bezirkeDaten : list District)
  (coords : list Coordinate) (s : store) :
  projectable = true -> coords <> [] -> forallb validRecord coords = true ->
  exists svg n, index cwd bezirkeDaten coords s =
    ([createdCanvas; Log (logLine n); WriteFile (outFilePath cwd) svg], ExitOk).
Proof.
  intros Hc Hne Hv.
  assert (Hp : toPoints coords <> []).
  { unfold toPoints. rewrite toPoints_loop_map. destruct coords; [contradiction|discriminate]. }
  destruct (condense_returns SCAN_RADIUS RADIUS_INCREASE _ s Hp (toPoints_valid coords Hc Hv)) as [cs E].
  unfold index, main. cbv zeta. rewrite E. eauto.
Qed.

End Claims.

(** ** Witnesses: one market in the middle of Berlin, no district, run
    in [/home/user] with the constants of [lib/constants.js]. *)

Definition wcoords : list Coordinate := [mkCoordinate (Some 13.5%float) (Some 52.5%float)].

Lemma index_writes_svg_witness :
  projectable = true /\ wcoords <> [] /\ forallb validRecord wcoords = true /\
  exists svg n, index "/home/user" [] wcoords (mkStore [] 0) =
    ([createdCanvas; Log (logLine n); WriteFile (outFilePath "/home/user") svg], ExitOk).
Proof.
  assert (Hc : projectable = true) by (vm_compute; reflexivity).
  assert (Hne : wcoords <> []) by (unfold wcoords; discriminate).
  assert (Hv : forallb validRecord wcoords = true) by (vm_compute; reflexivity).
  split; [exact Hc|]. split; [exact Hne|]. split; [exact Hv|].
  exact (index_writes_svg _ _ _ _ Hc Hne Hv).
Defined.
